(** * WildTrace Dashboard: the in-page aggregation code, embedded and verified

    The pages [Environmental.js], [Biological.js] and [Journal.js] each
    recompute a handful of aggregates from the record lists they hold in
    component state: a location-scoped filter, a location-name lookup,
    averages with zero substitution, minima and maxima, a radar
    normalisation, the "harmony score", the "best / calmest" cards and the
    journal's emotion statistics and mood trend.  The journey map
    ([JourneyMap.jsx]) centres itself on the locations and repeats the
    averages for one location.

    The embedding is shallow: every JavaScript function becomes a Rocq
    function of the same name, the component state it closes over becomes
    the variables of a section.

    Numbers.  A JavaScript number is an IEEE-754 double.  It is modelled
    here as an extended rational: exact arithmetic on [Q], together with
    [NaN] and the two infinities, which the code can produce
    ([undefined / 50], [Math.max()] of nothing).  Rounding, overflow and
    the sign of zero are not modelled.

    Exceptions.  A call that can throw returns an [option], [None] being
    the throw: [prepareRadarData] on a location name that [Object.prototype]
    already has, and [getMoodTrend] and [getHarmonyZones] on a date that
    date-fns cannot format. *)

From Stdlib Require Import List Bool String ZArith QArith Qminmax Lia Lqa.
From Stdlib Require Import Permutation Sorted.
From Corelib Require PrimFloat.
Import ListNotations.

Set Implicit Arguments.

(* ================================================================== *)
(** * Part I.  JavaScript values and operators used by the pages        *)
(* ================================================================== *)

Module Js.

(** The result of a numeric computation. *)
Inductive number : Type :=
| NaN
| NegInfinity
| Finite (q : Q)
| PosInfinity.

(** A numeric field of a record as the entity API delivers it (JSON):
    the property may be absent, [null], or a finite number. *)
Inductive value : Type :=
| Undefined
| Null
| Num (q : Q).

(** A string-valued field (ids, names, dates), absent, [null] or a string. *)
Inductive text : Type :=
| NoText
| NullText
| Str (s : string).

(** [ToBoolean]: [undefined], [null] and [0] are falsy. *)
Definition ToBoolean (v : value) : bool :=
  match v with
  | Undefined | Null => false
  | Num q => negb (Qeq_bool q 0)
  end.

(** [ToNumber]: [undefined] is [NaN], [null] is [0]. *)
Definition ToNumber (v : value) : number :=
  match v with
  | Undefined => NaN
  | Null => Finite 0
  | Num q => Finite q
  end.

(** [v || 0] in a numeric position. *)
Definition or_zero (v : value) : number :=
  if ToBoolean v then ToNumber v else Finite 0.

(** The rational that [v || 0] evaluates to. *)
Definition or_zero_value (v : value) : Q :=
  match v with
  | Num q => if Qeq_bool q 0 then 0 else q
  | Undefined | Null => 0
  end.

(** [a + b] on numbers. *)
Definition add (a b : number) : number :=
  match a, b with
  | NaN, _ | _, NaN => NaN
  | Finite x, Finite y => Finite (x + y)
  | PosInfinity, NegInfinity | NegInfinity, PosInfinity => NaN
  | PosInfinity, _ | _, PosInfinity => PosInfinity
  | NegInfinity, _ | _, NegInfinity => NegInfinity
  end.

(** Unary minus. *)
Definition neg (a : number) : number :=
  match a with
  | NaN => NaN
  | NegInfinity => PosInfinity
  | Finite x => Finite (- x)
  | PosInfinity => NegInfinity
  end.

(** [a - b]. *)
Definition sub (a b : number) : number := add a (neg b).

(** An infinity of the sign of [s * q] ([NaN] when [q] is zero). *)
Definition scaled_infinity (positive : bool) (q : Q) : number :=
  match q ?= 0 with
  | Eq => NaN
  | Gt => if positive then PosInfinity else NegInfinity
  | Lt => if positive then NegInfinity else PosInfinity
  end.

(** [a * b]. *)
Definition mul (a b : number) : number :=
  match a, b with
  | NaN, _ | _, NaN => NaN
  | Finite x, Finite y => Finite (x * y)
  | PosInfinity, Finite y | Finite y, PosInfinity => scaled_infinity true y
  | NegInfinity, Finite y | Finite y, NegInfinity => scaled_infinity false y
  | PosInfinity, PosInfinity | NegInfinity, NegInfinity => PosInfinity
  | PosInfinity, NegInfinity | NegInfinity, PosInfinity => NegInfinity
  end.

(** [a / b].  A zero divisor is taken to be [+0]. *)
Definition div (a b : number) : number :=
  match a, b with
  | NaN, _ | _, NaN => NaN
  | Finite x, Finite y =>
      if Qeq_bool y 0 then scaled_infinity true x else Finite (x / y)
  | Finite _, (PosInfinity | NegInfinity) => Finite 0
  | PosInfinity, Finite y =>
      if Qle_bool 0 y then PosInfinity else NegInfinity
  | NegInfinity, Finite y =>
      if Qle_bool 0 y then NegInfinity else PosInfinity
  | (PosInfinity | NegInfinity), (PosInfinity | NegInfinity) => NaN
  end.

(** [a <= b]; false as soon as one side is [NaN]. *)
Definition leb (a b : number) : bool :=
  match a, b with
  | NaN, _ | _, NaN => false
  | NegInfinity, _ => true
  | _, PosInfinity => true
  | Finite x, Finite y => Qle_bool x y
  | _, _ => false
  end.

(** [a === b] on numbers: [NaN] equals nothing. *)
Definition strict_equals (a b : number) : bool :=
  match a, b with
  | NegInfinity, NegInfinity | PosInfinity, PosInfinity => true
  | Finite x, Finite y => Qeq_bool x y
  | _, _ => false
  end.

(** [v === n] for a field value and a number: only a number can be
    strictly equal to a number. *)
Definition value_strict_equals (v : value) (n : number) : bool :=
  match v with
  | Num q => strict_equals (Finite q) n
  | Undefined | Null => false
  end.

(** [a === b] on string-valued fields. *)
Definition text_strict_equals (a b : text) : bool :=
  match a, b with
  | NoText, NoText | NullText, NullText => true
  | Str s, Str t => String.eqb s t
  | _, _ => false
  end.

(** [Math.min(a, b)] and [Math.max(a, b)]: [NaN] is contagious. *)
Definition min2 (a b : number) : number :=
  match a, b with
  | NaN, _ | _, NaN => NaN
  | _, _ => if leb a b then a else b
  end.

Definition max2 (a b : number) : number :=
  match a, b with
  | NaN, _ | _, NaN => NaN
  | _, _ => if leb a b then b else a
  end.

(** [Math.min(...xs)] and [Math.max(...xs)]: the arguments are folded
    from [+Infinity], respectively [-Infinity]. *)
Definition Math_min (xs : list number) : number :=
  fold_left min2 xs PosInfinity.

Definition Math_max (xs : list number) : number :=
  fold_left max2 xs NegInfinity.

(** [xs.length] as a number. *)
Definition length_of {A : Type} (xs : list A) : number :=
  Finite (inject_Z (Z.of_nat (List.length xs))).

(** Two results denote the same number (the fractions of [Q] are not
    normalised, so this is the equality results are compared by). *)
Definition same (a b : number) : Prop :=
  match a, b with
  | NaN, NaN | NegInfinity, NegInfinity | PosInfinity, PosInfinity => True
  | Finite x, Finite y => x == y
  | _, _ => False
  end.

Definition le (a b : number) : Prop := leb a b = true.

End Js.

Declare Scope js_scope.
Delimit Scope js_scope with js.
Bind Scope js_scope with Js.number.
Infix "+" := Js.add : js_scope.
Infix "-" := Js.sub : js_scope.
Infix "*" := Js.mul : js_scope.
Infix "/" := Js.div : js_scope.
Infix "===" := Js.strict_equals (at level 70, no associativity) : js_scope.
Infix "<=" := Js.le : js_scope.
Infix "=~" := Js.same (at level 70, no associativity) : js_scope.

(** Strings.  A string stands for its sequence of code units; only the
    length and the position of the units matter below. *)

Module JsString.

(** [s.includes(searchString)]. *)
Definition includes (s searchString : string) : bool :=
  match String.index 0 searchString s with
  | Some _ => true
  | None => false
  end.

End JsString.

(** Arrays. *)

Module JsArray.

(** [xs.map(f)] for a callback that may throw: the elements are mapped in
    order and the first throw ends the call, which is [None]. *)
Fixpoint map_throwing {A B : Type} (f : A -> option B) (xs : list A)
  : option (list B) :=
  match xs with
  | [] => Some []
  | x :: rest =>
      match f x with
      | None => None
      | Some y =>
          match map_throwing f rest with
          | None => None
          | Some ys => Some (y :: ys)
          end
      end
  end.

End JsArray.

(** Plain objects used as maps from strings: the own properties in the
    order of their creation, and what [Object.prototype] adds to every
    lookup. *)

Module JsObject.

Definition object (V : Type) : Type := list (string * V).

(** The property names a plain object inherits (ECMAScript, with the
    legacy accessors of its annex B); each of them reads as a truthy
    value that has no further properties of interest. *)
Definition Object_prototype_names : list string :=
  ["constructor"; "hasOwnProperty"; "isPrototypeOf"; "propertyIsEnumerable";
   "toLocaleString"; "toString"; "valueOf"; "__proto__";
   "__defineGetter__"; "__defineSetter__"; "__lookupGetter__";
   "__lookupSetter__"]%string.

Definition inherited (key : string) : bool :=
  existsb (String.eqb key) Object_prototype_names.

(** The own property [o[key]], if there is one. *)
Fixpoint get_own {V : Type} (o : object V) (key : string) : option V :=
  match o with
  | [] => None
  | (k, v) :: rest => if String.eqb k key then Some v else get_own rest key
  end.

(** [o[key] = v] for a key that is not inherited: an existing property
    keeps its place, a new one is created last. *)
Fixpoint set_own {V : Type} (o : object V) (key : string) (v : V) : object V :=
  match o with
  | [] => [(key, v)]
  | (k, w) :: rest =>
      if String.eqb k key then (k, v) :: rest else (k, w) :: set_own rest key v
  end.

Definition digit (c : Ascii.ascii) : option N :=
  let n := Ascii.N_of_ascii c in
  if (48 <=? n)%N && (n <=? 57)%N then Some (n - 48)%N else None.

Fixpoint decimal (s : string) (acc : N) : option N :=
  match s with
  | EmptyString => Some acc
  | String c rest =>
      match digit c with
      | Some d => decimal rest (10 * acc + d)%N
      | None => None
      end
  end.

(** The array index a key denotes: a decimal numeral without a leading
    zero, at most 2^32 - 2. *)
Definition array_index (key : string) : option N :=
  match key with
  | EmptyString => None
  | String c rest =>
      match digit c, rest with
      | Some 0%N, String _ _ => None
      | _, _ =>
          match decimal key 0 with
          | Some n => if (n <=? 4294967294)%N then Some n else None
          | None => None
          end
      end
  end.

(** Insertion into a list of indexed properties in ascending index order. *)
Fixpoint insert_indexed {V : Type} (p : N * (string * V))
    (sorted : list (N * (string * V))) : list (N * (string * V)) :=
  match sorted with
  | [] => [p]
  | q :: rest =>
      if (fst q <? fst p)%N then q :: insert_indexed p rest else p :: q :: rest
  end.

Fixpoint indexed {V : Type} (o : object V) : list (N * (string * V)) :=
  match o with
  | [] => []
  | (k, v) :: rest =>
      match array_index k with
      | Some n => insert_indexed (n, (k, v)) (indexed rest)
      | None => indexed rest
      end
  end.

Definition named {V : Type} (o : object V) : object V :=
  filter (fun p => match array_index (fst p) with Some _ => false | None => true end) o.

(** [Object.entries(o)]: the array indices in ascending order, then the
    other keys in the order of their creation. *)
Definition entries {V : Type} (o : object V) : list (string * V) :=
  map snd (indexed o) ++ named o.

End JsObject.

(* ================================================================== *)
(** * Part II.  The entities ([@/entities/all])                         *)
(* ================================================================== *)

Module Location.
Record t : Type := make {
  id : Js.text;
  name : Js.text;
  country : Js.text;
  latitude : Js.value;
  longitude : Js.value;
  arrival_date : Js.text;
  departure_date : Js.text;
  description : Js.text;
  image_url : Js.text
}.
End Location.

Module EnvironmentalData.
Record t : Type := make {
  id : Js.text;
  location_id : Js.text;
  date : Js.text;
  temperature_avg : Js.value;
  temperature_min : Js.value;
  temperature_max : Js.value;
  humidity : Js.value;
  light_exposure : Js.value;
  air_quality_index : Js.value;
  noise_level : Js.value;
  weather_condition : Js.text
}.
End EnvironmentalData.

Module BiologicalData.
Record t : Type := make {
  id : Js.text;
  location_id : Js.text;
  date : Js.text;
  heart_rate_resting : Js.value;
  heart_rate_active : Js.value;
  heart_rate_variability : Js.value;
  body_temperature : Js.value;
  sleep_quality_score : Js.value;
  sleep_duration : Js.value;
  respiratory_rate : Js.value;
  activity_level : Js.text;
  stress_level : Js.value
}.
End BiologicalData.

(** The twelve emotion tags, the constant [EMOTIONS] of [Journal.js].
    None of these names is an array index or a property inherited from
    [Object.prototype], so an object keyed by them lists its entries in
    the order the keys were first written. *)
Inductive Emotion : Type :=
| calm | joy | excitement | fear | anxiety | fatigue
| wonder | peace | stress | curiosity | melancholy | euphoria.

Scheme Equality for Emotion.

Definition EMOTIONS : list Emotion :=
  [calm; joy; excitement; fear; anxiety; fatigue;
   wonder; peace; stress; curiosity; melancholy; euphoria].

Module JournalEntry.
Record t : Type := make {
  id : Js.text;
  location_id : Js.text;
  date : Js.text;
  title : Js.text;
  content : Js.text;
  (** [None] when the property is absent or [null]. *)
  emotions : option (list Emotion);
  mood_score : Js.value;
  highlight_moment : bool;
  image_url : Js.text;
  audio_url : Js.text
}.
End JournalEntry.

(* ================================================================== *)
(** * Part III.  The pages                                              *)
(* ================================================================== *)

(** ** [Pages/Environmental.js] *)

Module Environmental.
Local Open Scope js_scope.

(** [getMetricStats] returns [{ temperature: {avg, min, max},
    humidity: {avg}, light: {avg}, airQuality: {avg} }]; the nested
    object is flattened, [temperature_min_of] being
    [stats.temperature.min]. *)
Record MetricStats : Type := {
  temperature_avg_of : Js.number;
  temperature_min_of : Js.number;
  temperature_max_of : Js.number;
  humidity_avg_of : Js.number;
  light_avg_of : Js.number;
  airQuality_avg_of : Js.number
}.

(** The five arrays collected per location by [prepareRadarData]. *)
Record Metrics : Type := {
  temperature : list Js.number;
  humidity : list Js.number;
  light : list Js.number;
  airQuality : list Js.number;
  noise : list Js.number
}.

(** One point of the radar chart. *)
Record RadarPoint : Type := {
  location : string;
  Temperature : Js.number;
  Humidity : Js.number;
  Light : Js.number;
  Air_Quality : Js.number;
  Noise : Js.number
}.

(** [arr.reduce((sum, val) => sum + val, 0) / arr.length], the local
    [avg] of [prepareRadarData]. *)
Definition avg (arr : list Js.number) : Js.number :=
  fold_left (fun sum val => sum + val) arr (Js.Finite 0) / Js.length_of arr.

(** [Math.min(100, (x / maxScale) * 100)]: the expression
    [prepareRadarData] writes four times, with the ceilings 40, 10000,
    200 and 100. *)
Definition normalize (x maxScale : Js.number) : Js.number :=
  Js.Math_min [Js.Finite 100; (x / maxScale) * Js.Finite 100].

(** The callback mapped over [Object.entries(locationGroups)]. *)
Definition radarPoint (entry : string * Metrics) : RadarPoint :=
  let '(location, metrics) := entry in
  {| location := location;
     Temperature := normalize (avg (temperature metrics)) (Js.Finite 40);
     Humidity := avg (humidity metrics);
     Light := normalize (avg (light metrics)) (Js.Finite 10000);
     Air_Quality := normalize (avg (airQuality metrics)) (Js.Finite 200);
     Noise := normalize (avg (noise metrics)) (Js.Finite 100) |}.

Section Component.
(** The component state. *)
Variable environmentalData : list EnvironmentalData.t.
Variable locations : list Location.t.
Variable selectedLocation : string.

Definition getFilteredData : list EnvironmentalData.t :=
  if String.eqb selectedLocation "all" then environmentalData
  else filter (fun data =>
                 Js.text_strict_equals (EnvironmentalData.location_id data) (Js.Str selectedLocation))
              environmentalData.

Definition getLocationName (locationId : Js.text) : Js.text :=
  match find (fun loc => Js.text_strict_equals (Location.id loc) locationId)
             locations with
  | Some location => Location.name location
  | None => Js.Str "Unknown Location"
  end.

(** [None] stands for the empty object [{}] returned when nothing is
    in scope. *)
Definition getMetricStats : option MetricStats :=
  let filteredData := getFilteredData in
  if Nat.eqb (List.length filteredData) 0 then None
  else Some
    {| temperature_avg_of :=
         fold_left (fun sum d => sum + Js.or_zero (EnvironmentalData.temperature_avg d))
                   filteredData (Js.Finite 0) / Js.length_of filteredData;
       temperature_min_of :=
         Js.Math_min (map (fun d => Js.or_zero (EnvironmentalData.temperature_min d)) filteredData);
       temperature_max_of :=
         Js.Math_max (map (fun d => Js.or_zero (EnvironmentalData.temperature_max d)) filteredData);
       humidity_avg_of :=
         fold_left (fun sum d => sum + Js.or_zero (EnvironmentalData.humidity d))
                   filteredData (Js.Finite 0) / Js.length_of filteredData;
       light_avg_of :=
         fold_left (fun sum d => sum + Js.or_zero (EnvironmentalData.light_exposure d))
                   filteredData (Js.Finite 0) / Js.length_of filteredData;
       airQuality_avg_of :=
         fold_left (fun sum d => sum + Js.or_zero (EnvironmentalData.air_quality_index d))
                   filteredData (Js.Finite 0) / Js.length_of filteredData |}.

(** The key under which a location name is stored in [locationGroups]. *)
Definition propertyKey (locationName : Js.text) : string :=
  match locationName with
  | Js.NoText => "undefined"
  | Js.NullText => "null"
  | Js.Str name => name
  end.

(** The five [push] calls for one reading. *)
Definition push (metrics : Metrics) (data : EnvironmentalData.t) : Metrics :=
  {| temperature := temperature metrics ++ [Js.or_zero (EnvironmentalData.temperature_avg data)];
     humidity := humidity metrics ++ [Js.or_zero (EnvironmentalData.humidity data)];
     light := light metrics ++ [Js.or_zero (EnvironmentalData.light_exposure data)];
     airQuality := airQuality metrics ++ [Js.or_zero (EnvironmentalData.air_quality_index data)];
     noise := noise metrics ++ [Js.or_zero (EnvironmentalData.noise_level data)] |}.

(** One round of the [forEach] of [prepareRadarData].  A name that the
    empty object inherits reads as truthy, so no group is created, and
    the [push] on its missing [temperature] throws: [None]. *)
Definition collect (locationGroups : option (JsObject.object Metrics))
    (data : EnvironmentalData.t) : option (JsObject.object Metrics) :=
  match locationGroups with
  | None => None
  | Some groups =>
      let locationName :=
        propertyKey (getLocationName (EnvironmentalData.location_id data)) in
      match JsObject.get_own groups locationName with
      | Some metrics =>
          Some (JsObject.set_own groups locationName (push metrics data))
      | None =>
          if JsObject.inherited locationName then None
          else Some (JsObject.set_own groups locationName
                       (push {| temperature := []; humidity := []; light := [];
                                airQuality := []; noise := [] |} data))
      end
  end.

(** [None] when the function throws. *)
Definition prepareRadarData : option (list RadarPoint) :=
  let filteredData := getFilteredData in
  if Nat.eqb (List.length filteredData) 0 then Some []
  else
    match fold_left collect filteredData (Some []) with
    | Some locationGroups => Some (map radarPoint (JsObject.entries locationGroups))
    | None => None
    end.
End Component.
End Environmental.


(** ** [Pages/Biological.js] *)

Module Biological.
Local Open Scope js_scope.

(** One element of [getHarmonyZones()]. *)
Record HarmonyZone : Type := {
  location : Js.text;
  date : string;
  harmony_score : Js.number;
  stress_level : Js.value;
  sleep_quality : Js.value;
  hrv : Js.value
}.

(** [getBiometricStats] returns [{ heartRate: {avg, range: [lo, hi]},
    hrv: {avg}, sleep: {avg, avgDuration}, stress: {avg} }], flattened. *)
Record BiometricStats : Type := {
  heartRate_avg : Js.number;
  heartRate_range : Js.number * Js.number;
  hrv_avg : Js.number;
  sleep_avg : Js.number;
  sleep_avgDuration : Js.number;
  stress_avg : Js.number
}.

Definition calculateHarmonyScore (data : BiologicalData.t) : Js.number :=
  let hrvScore :=
    Js.Math_min [Js.Finite 100;
                 (Js.ToNumber (BiologicalData.heart_rate_variability data) / Js.Finite 50)
                 * Js.Finite 100] in
  let sleepScore :=
    (Js.ToNumber (BiologicalData.sleep_quality_score data) / Js.Finite 10) * Js.Finite 100 in
  let stressScore :=
    ((Js.Finite 10 - Js.ToNumber (BiologicalData.stress_level data)) / Js.Finite 10)
    * Js.Finite 100 in
  (hrvScore + sleepScore + stressScore) / Js.Finite 3.

(** [stressLevel <= 3] compares after [ToNumber]: it is false for
    [undefined], and [null] counts as 0. *)
Definition getStressColor (stressLevel : Js.value) : string :=
  if Js.leb (Js.ToNumber stressLevel) (Js.Finite 3) then "#9caf88"%string
  else if Js.leb (Js.ToNumber stressLevel) (Js.Finite 6) then "#d4af37"%string
  else "#c65d07"%string.

(** The "Best Recovery" card:
    [harmonyData.find(d => d.hrv === Math.max(...harmonyData.map(d => d.hrv)))];
    [None] is [undefined], rendered as "No data available". *)
Definition bestRecovery (harmonyData : list HarmonyZone) : option HarmonyZone :=
  let bestHRV := Js.Math_max (map (fun d => Js.ToNumber (hrv d)) harmonyData) in
  find (fun d => Js.value_strict_equals (hrv d) bestHRV) harmonyData.

(** The "Best Sleep" card. *)
Definition bestSleepLocation (harmonyData : list HarmonyZone) : option HarmonyZone :=
  let bestSleep :=
    Js.Math_max (map (fun d => Js.ToNumber (sleep_quality d)) harmonyData) in
  find (fun d => Js.value_strict_equals (sleep_quality d) bestSleep) harmonyData.

(** The "Calmest Environment" card. *)
Definition calmestLocation (harmonyData : list HarmonyZone) : option HarmonyZone :=
  let lowestStress :=
    Js.Math_min (map (fun d => Js.ToNumber (stress_level d)) harmonyData) in
  find (fun d => Js.value_strict_equals (stress_level d) lowestStress) harmonyData.

Section Component.
Variable biologicalData : list BiologicalData.t.
Variable locations : list Location.t.
Variable selectedLocation : string.
(** [d => format(new Date(d), 'MMM d')] of the library date-fns: the
    label of a date, or [None] when [new Date(d)] is no valid date and
    [format] throws a [RangeError]. *)
Variable format_MMM_d : Js.text -> option string.

Definition getFilteredData : list BiologicalData.t :=
  if String.eqb selectedLocation "all" then biologicalData
  else filter (fun data =>
                 Js.text_strict_equals (BiologicalData.location_id data) (Js.Str selectedLocation))
              biologicalData.

Definition getLocationName (locationId : Js.text) : Js.text :=
  match find (fun loc => Js.text_strict_equals (Location.id loc) locationId)
             locations with
  | Some location => Location.name location
  | None => Js.Str "Unknown Location"
  end.

(** [None] when formatting the date of a record in scope throws. *)
Definition getHarmonyZones : option (list HarmonyZone) :=
  let filteredData := getFilteredData in
  JsArray.map_throwing
    (fun data =>
       match format_MMM_d (BiologicalData.date data) with
       | Some label =>
           Some {| location := getLocationName (BiologicalData.location_id data);
                   date := label;
                   harmony_score := calculateHarmonyScore data;
                   stress_level := BiologicalData.stress_level data;
                   sleep_quality := BiologicalData.sleep_quality_score data;
                   hrv := BiologicalData.heart_rate_variability data |}
       | None => None
       end)
    filteredData.

Definition getBiometricStats : option BiometricStats :=
  let filteredData := getFilteredData in
  if Nat.eqb (List.length filteredData) 0 then None
  else Some
    {| heartRate_avg :=
         fold_left (fun sum d => sum + Js.or_zero (BiologicalData.heart_rate_resting d))
                   filteredData (Js.Finite 0) / Js.length_of filteredData;
       heartRate_range :=
         (Js.Math_min (map (fun d => Js.or_zero (BiologicalData.heart_rate_resting d)) filteredData),
          Js.Math_max (map (fun d => Js.or_zero (BiologicalData.heart_rate_resting d)) filteredData));
       hrv_avg :=
         fold_left (fun sum d => sum + Js.or_zero (BiologicalData.heart_rate_variability d))
                   filteredData (Js.Finite 0) / Js.length_of filteredData;
       sleep_avg :=
         fold_left (fun sum d => sum + Js.or_zero (BiologicalData.sleep_quality_score d))
                   filteredData (Js.Finite 0) / Js.length_of filteredData;
       sleep_avgDuration :=
         fold_left (fun sum d => sum + Js.or_zero (BiologicalData.sleep_duration d))
                   filteredData (Js.Finite 0) / Js.length_of filteredData;
       stress_avg :=
         fold_left (fun sum d => sum + Js.or_zero (BiologicalData.stress_level d))
                   filteredData (Js.Finite 0) / Js.length_of filteredData |}.
End Component.
End Biological.

(** The harmony score once more, on IEEE-754 binary64 numbers as the
    engine computes it, to run it on given inputs.  (The sign of a zero
    result of [Math.min] is not modelled.) *)

Module Binary64.
Import PrimFloat.
Local Open Scope float_scope.

Definition Math_min2 (a b : float) : float :=
  if is_nan a || is_nan b then nan else if a <=? b then a else b.

Definition calculateHarmonyScore
    (heart_rate_variability sleep_quality_score stress_level : float) : float :=
  let hrvScore := Math_min2 100 ((heart_rate_variability / 50) * 100) in
  let sleepScore := (sleep_quality_score / 10) * 100 in
  let stressScore := ((10 - stress_level) / 10) * 100 in
  (hrvScore + sleepScore + stressScore) / 3.

End Binary64.

(** ** [Pages/Journal.js] *)

Module Journal.

(** The object [emotionCounts]: its own properties in the order they were
    first written, which is the order [Object.entries] lists them in. *)
Definition Counts : Type := list (Emotion * nat).

(** [emotionCounts[emotion]]; [None] is [undefined]. *)
Fixpoint getCount (emotionCounts : Counts) (emotion : Emotion) : option nat :=
  match emotionCounts with
  | [] => None
  | (key, n) :: rest =>
      if Emotion_beq key emotion then Some n else getCount rest emotion
  end.

(** [emotionCounts[emotion] = n]: an existing property keeps its place, a
    new one goes last. *)
Fixpoint setCount (emotionCounts : Counts) (emotion : Emotion) (n : nat) : Counts :=
  match emotionCounts with
  | [] => [(emotion, n)]
  | (key, m) :: rest =>
      if Emotion_beq key emotion then (key, n) :: rest
      else (key, m) :: setCount rest emotion n
  end.

(** [emotionCounts[emotion] = (emotionCounts[emotion] || 0) + 1]. *)
Definition increment (emotionCounts : Counts) (emotion : Emotion) : Counts :=
  setCount emotionCounts emotion
      (match getCount emotionCounts emotion with
       | Some n => n
       | None => 0
       end + 1).

(** [Array.prototype.sort(compare)] is stable: [before x sorted] puts [x],
    which stood in front of every element of [sorted], behind exactly
    those it compares strictly greater than. *)
Fixpoint before {A : Type} (compare : A -> A -> Z) (x : A) (sorted : list A) : list A :=
  match sorted with
  | [] => [x]
  | y :: rest =>
      if (0 <? compare x y)%Z then y :: before compare x rest
      else x :: y :: rest
  end.

Fixpoint sort {A : Type} (compare : A -> A -> Z) (xs : list A) : list A :=
  match xs with
  | [] => []
  | x :: rest => before compare x (sort compare rest)
  end.

(** [arr.slice(0, n)]. *)
Definition slice0 {A : Type} (n : nat) (xs : list A) : list A := firstn n xs.

(** [toggleEmotion] of the entry form: a tag already chosen is removed,
    another one is added at the end. *)
Definition toggleEmotion (emotions : list Emotion) (emotion : Emotion) : list Emotion :=
  if existsb (Emotion_beq emotion) emotions
  then filter (fun e => negb (Emotion_beq e emotion)) emotions
  else emotions ++ [emotion].

(** The state [selectedEmotion]: "all" or one of the tags. *)
Inductive EmotionChoice : Type :=
| AllEmotions
| OnlyEmotion (emotion : Emotion).

(** The text of a highlight card,
    [content.length > 120 ? `${content.substring(0, 120)}...` : content];
    reading [length] of a missing [content] throws, which is [None]. *)
Definition highlightText (content : Js.text) : option string :=
  match content with
  | Js.Str text =>
      Some (if (120 <? String.length text)%nat
            then (String.substring 0 120 text ++ "...")%string
            else text)
  | Js.NoText | Js.NullText => None
  end.

(** One element of [getMoodTrend()]. *)
Record MoodPoint : Type := {
  date : string;
  mood : Js.value;
  location : Js.text
}.

Section Component.
Variable journalEntries : list JournalEntry.t.
Variable locations : list Location.t.
(** [d => format(new Date(d), 'MMM d')] of the library date-fns: the
    label of a date, or [None] when [new Date(d)] is no valid date and
    [format] throws a [RangeError]. *)
Variable format_MMM_d : Js.text -> option string.

Definition getLocationName (locationId : Js.text) : Js.text :=
  match find (fun loc => Js.text_strict_equals (Location.id loc) locationId)
             locations with
  | Some location => Location.name location
  | None => Js.Str "Unknown Location"
  end.

(** The object built by the two nested [forEach] loops;
    [entry.emotions?.forEach] does nothing when [emotions] is missing. *)
Definition emotionCounts : Counts :=
  fold_left (fun counts entry =>
               match JournalEntry.emotions entry with
               | Some tags => fold_left increment tags counts
               | None => counts
               end)
            journalEntries [].

Definition getEmotionStats : list (Emotion * nat) :=
  slice0 6
    (sort (fun '(_, a) '(_, b) => (Z.of_nat b - Z.of_nat a)%Z) emotionCounts).

(** [None] when formatting the date of an entry that passed the filter
    throws; the dates of the entries filtered out are never formatted. *)
Definition getMoodTrend : option (list MoodPoint) :=
  JsArray.map_throwing
    (fun entry =>
       match format_MMM_d (JournalEntry.date entry) with
       | Some label =>
           Some {| date := label;
                   mood := JournalEntry.mood_score entry;
                   location := getLocationName (JournalEntry.location_id entry) |}
       | None => None
       end)
    (filter (fun entry => Js.ToBoolean (JournalEntry.mood_score entry)) journalEntries).

(** More of the component state. *)
Variable selectedLocation : string.
Variable selectedEmotion : EmotionChoice.
Variable searchQuery : string.
(** [String.prototype.toLowerCase], left uninterpreted. *)
Variable toLowerCase : string -> string.

(** [field?.toLowerCase().includes(searchQuery.toLowerCase())], as a
    condition. *)
Definition matchesQuery (field : Js.text) : bool :=
  match field with
  | Js.Str text => JsString.includes (toLowerCase text) (toLowerCase searchQuery)
  | Js.NoText | Js.NullText => false
  end.

Definition getFilteredEntries : list JournalEntry.t :=
  let filtered := journalEntries in
  let filtered :=
    if negb (String.eqb selectedLocation "all")
    then filter (fun entry =>
                   Js.text_strict_equals (JournalEntry.location_id entry)
                                         (Js.Str selectedLocation))
                filtered
    else filtered in
  let filtered :=
    match selectedEmotion with
    | OnlyEmotion emotion =>
        filter (fun entry =>
                  match JournalEntry.emotions entry with
                  | Some tags => existsb (Emotion_beq emotion) tags
                  | None => false
                  end)
               filtered
    | AllEmotions => filtered
    end in
  let filtered :=
    if negb (String.eqb searchQuery "")
    then filter (fun entry =>
                   matchesQuery (JournalEntry.title entry)
                   || matchesQuery (JournalEntry.content entry))
                filtered
    else filtered in
  filtered.

Definition getHighlightMoments : list JournalEntry.t :=
  filter (fun entry => JournalEntry.highlight_moment entry) journalEntries.

(** The "Average Mood" card, before [toFixed(1)]. *)
Definition averageMood : Js.number :=
  Js.div (fold_left (fun sum entry => Js.add sum (Js.or_zero (JournalEntry.mood_score entry)))
                    journalEntries (Js.Finite 0))
         (Js.length_of journalEntries).

(** The texts of the highlight cards, [highlightMoments.slice(0, 4)]. *)
Definition highlightTexts : list (option string) :=
  map (fun entry => highlightText (JournalEntry.content entry))
      (slice0 4 getHighlightMoments).
End Component.
End Journal.


(** ** [Pages/JourneyMap.jsx] *)

Module JourneyMap.
Local Open Scope js_scope.

Section Component.
Variable locations : list Location.t.
Variable environmentalData : list EnvironmentalData.t.

Definition getLocationEnvironmentalData (locationId : Js.text)
  : list EnvironmentalData.t :=
  filter (fun data =>
            Js.text_strict_equals (EnvironmentalData.location_id data) locationId)
         environmentalData.

(** [sum + loc.latitude] adds the coordinate as it is: nothing is put in
    the place of a missing one. *)
Definition getMapCenter : Js.number * Js.number :=
  if Nat.eqb (List.length locations) 0 then (Js.Finite 20, Js.Finite 0)
  else
    let avgLat :=
      fold_left (fun sum loc => sum + Js.ToNumber (Location.latitude loc))
                locations (Js.Finite 0) / Js.length_of locations in
    let avgLng :=
      fold_left (fun sum loc => sum + Js.ToNumber (Location.longitude loc))
                locations (Js.Finite 0) / Js.length_of locations in
    (avgLat, avgLng).

(** The "Environment" card of the selected location, [(avgTemp,
    avgHumidity)]; [None] when the card is not rendered. *)
Definition environmentSummary (locationId : Js.text) : option (Js.number * Js.number) :=
  if (0 <? List.length (getLocationEnvironmentalData locationId))%nat
  then
    let envData := getLocationEnvironmentalData locationId in
    let avgTemp :=
      fold_left (fun sum d => sum + Js.or_zero (EnvironmentalData.temperature_avg d))
                envData (Js.Finite 0) / Js.length_of envData in
    let avgHumidity :=
      fold_left (fun sum d => sum + Js.or_zero (EnvironmentalData.humidity d))
                envData (Js.Finite 0) / Js.length_of envData in
    Some (avgTemp, avgHumidity)
  else None.
End Component.
End JourneyMap.

(* ================================================================== *)
(** * Part IV.  What the specification talks about                      *)
(* ================================================================== *)

Module Spec.
Local Open Scope Q_scope.

(** "The field's value if present, else 0". *)
Definition present_or_zero (v : Js.value) : Q :=
  match v with
  | Js.Num q => q
  | Js.Undefined | Js.Null => 0
  end.

(** The sum, over all records, of the present-or-zero value of a field. *)
Fixpoint total {A : Type} (field : A -> Js.value) (records : list A) : Q :=
  match records with
  | [] => 0
  | d :: rest => present_or_zero (field d) + total field rest
  end.

(** That sum divided by the number of records. *)
Definition mean {A : Type} (field : A -> Js.value) (records : list A) : Q :=
  total field records / inject_Z (Z.of_nat (List.length records)).

(** [m] is the true minimum of the values a field takes in [records]:
    some record has it, and no record has a smaller one. *)
Definition true_minimum {A : Type} (field : A -> Js.value) (records : list A)
    (m : Js.number) : Prop :=
  (exists d q, In d records /\ field d = Js.Num q /\ Js.same m (Js.Finite q))
  /\ (forall d q, In d records -> field d = Js.Num q -> Js.le m (Js.Finite q)).

Definition true_maximum {A : Type} (field : A -> Js.value) (records : list A)
    (m : Js.number) : Prop :=
  (exists d q, In d records /\ field d = Js.Num q /\ Js.same m (Js.Finite q))
  /\ (forall d q, In d records -> field d = Js.Num q -> Js.le (Js.Finite q) m).

(** The same, every missing value counting as 0. *)
Definition minimum_with_zero {A : Type} (field : A -> Js.value) (records : list A)
    (m : Js.number) : Prop :=
  (exists d, In d records /\ Js.same m (Js.Finite (present_or_zero (field d))))
  /\ (forall d, In d records -> Js.le m (Js.Finite (present_or_zero (field d)))).

Definition maximum_with_zero {A : Type} (field : A -> Js.value) (records : list A)
    (m : Js.number) : Prop :=
  (exists d, In d records /\ Js.same m (Js.Finite (present_or_zero (field d))))
  /\ (forall d, In d records -> Js.le (Js.Finite (present_or_zero (field d))) m).

(** Every record has the field, as a number. *)
Definition all_present {A : Type} (field : A -> Js.value) (records : list A) : Prop :=
  forall d, In d records -> exists q, field d = Js.Num q.

(** [xs] is [ys] with some elements left out, the others in their order. *)
Inductive subsequence {A : Type} : list A -> list A -> Prop :=
| subsequence_nil : subsequence [] []
| subsequence_skip : forall y xs ys, subsequence xs ys -> subsequence xs (y :: ys)
| subsequence_keep : forall x xs ys, subsequence xs ys -> subsequence (x :: xs) (x :: ys).

(** Equality of two string-valued fields is decidable. *)
Definition text_eq_dec (a b : Js.text) : {a = b} + {a <> b}.
Proof. decide equality. apply string_dec. Defined.

(** The records whose [location_id] is the string [X], in their order. *)
Fixpoint records_at {A : Type} (location_id : A -> Js.text) (X : string)
    (records : list A) : list A :=
  match records with
  | [] => []
  | d :: rest =>
      if text_eq_dec (location_id d) (Js.Str X)
      then d :: records_at location_id X rest
      else records_at location_id X rest
  end.

(** The first location whose [id] is [locationId], if there is one. *)
Fixpoint first_location (locationId : Js.text) (locations : list Location.t)
  : option Location.t :=
  match locations with
  | [] => None
  | loc :: rest =>
      if text_eq_dec (Location.id loc) locationId then Some loc
      else first_location locationId rest
  end.

(** What is claimed of a name resolver: it returns the name of the first
    location whose [id] is the given one, and the sentinel when there is
    none. *)
Definition resolves_names (getLocationName : list Location.t -> Js.text -> Js.text)
  : Prop :=
  (forall locations locationId,
      getLocationName locations locationId
      = match first_location locationId locations with
        | Some loc => Location.name loc
        | None => Js.Str "Unknown Location"
        end)
  /\ (forall earlier loc later locationId,
         (forall l, In l earlier -> Location.id l <> locationId) ->
         Location.id loc = locationId ->
         getLocationName (earlier ++ loc :: later)%list locationId = Location.name loc)
  /\ (forall locations locationId,
         (forall l, In l locations -> Location.id l <> locationId) ->
         getLocationName locations locationId = Js.Str "Unknown Location").

(** [kept] consists of exactly the elements of [xs] that satisfy [P], in
    their order: going through [xs], each element that satisfies [P] is
    kept and each other one is dropped. *)
Inductive selected {A : Type} (P : A -> Prop) : list A -> list A -> Prop :=
| selected_nil : selected P [] []
| selected_keep : forall x kept xs,
    P x -> selected P kept xs -> selected P (x :: kept) (x :: xs)
| selected_drop : forall x kept xs,
    ~ P x -> selected P kept xs -> selected P kept (x :: xs).

(** [row] is the point of the mood trend made from [entry]: the label of
    its date, its mood score, the name of its location. *)
Definition mood_point (locations : list Location.t)
    (format_MMM_d : Js.text -> option string)
    (entry : JournalEntry.t) (row : Journal.MoodPoint) : Prop :=
  format_MMM_d (JournalEntry.date entry) = Some (Journal.date row)
  /\ Journal.mood row = JournalEntry.mood_score entry
  /\ Journal.location row
     = Journal.getLocationName locations (JournalEntry.location_id entry).

(** [row] is the row of the harmony data made from [data]. *)
Definition harmony_row (locations : list Location.t)
    (format_MMM_d : Js.text -> option string)
    (data : BiologicalData.t) (row : Biological.HarmonyZone) : Prop :=
  format_MMM_d (BiologicalData.date data) = Some (Biological.date row)
  /\ Biological.location row
     = Biological.getLocationName locations (BiologicalData.location_id data)
  /\ Biological.harmony_score row = Biological.calculateHarmonyScore data
  /\ Biological.stress_level row = BiologicalData.stress_level data
  /\ Biological.sleep_quality row = BiologicalData.sleep_quality_score data
  /\ Biological.hrv row = BiologicalData.heart_rate_variability data.

(** [min(100, mean / ceiling * 100)] on the rationals. *)
Definition rescaled (mean ceiling : Q) : Q := Qmin 100 (mean / ceiling * 100).

(** "Present and nonzero". *)
Definition present_and_nonzero (v : Js.value) : Prop :=
  exists q, v = Js.Num q /\ ~ q == 0.

(** [r] is the first record of [records] whose selector value is the
    greatest of all: it stands at some index [i], no record has a greater
    value, and no record before [i] has an equal one. *)
Definition first_maximum {A : Type} (selector : A -> Js.value) (records : list A)
    (r : A) : Prop :=
  exists i q,
    nth_error records i = Some r /\ selector r = Js.Num q
    /\ (forall d q', In d records -> selector d = Js.Num q' -> q' <= q)
    /\ (forall j d q', (j < i)%nat -> nth_error records j = Some d ->
                       selector d = Js.Num q' -> ~ q' == q).

Definition first_minimum {A : Type} (selector : A -> Js.value) (records : list A)
    (r : A) : Prop :=
  exists i q,
    nth_error records i = Some r /\ selector r = Js.Num q
    /\ (forall d q', In d records -> selector d = Js.Num q' -> q <= q')
    /\ (forall j d q', (j < i)%nat -> nth_error records j = Some d ->
                       selector d = Js.Num q' -> ~ q' == q).

(** How often a tag occurs in the [emotions] of all entries together. *)
Fixpoint occurrences (emotion : Emotion) (entries : list JournalEntry.t) : nat :=
  match entries with
  | [] => 0
  | entry :: rest =>
      match JournalEntry.emotions entry with
      | Some tags => count_occ Emotion_eq_dec tags emotion
      | None => 0
      end + occurrences emotion rest
  end.

(** Whether the [emotions] of an entry contain a tag. *)
Definition has_emotion (emotion : Emotion) (entry : JournalEntry.t) : bool :=
  match JournalEntry.emotions entry with
  | Some tags => existsb (Emotion_beq emotion) tags
  | None => false
  end.

(** The number of entries whose [emotions] contain a tag. *)
Definition entries_with (emotion : Emotion) (entries : list JournalEntry.t) : nat :=
  List.length (filter (has_emotion emotion) entries).

(** The count that [emotionCounts] holds for a tag, 0 when it holds none. *)
Definition recorded (emotionCounts : Journal.Counts) (emotion : Emotion) : nat :=
  match Journal.getCount emotionCounts emotion with
  | Some n => n
  | None => 0
  end.

(** Pairs in non-increasing order of their count. *)
Definition by_count_descending (p q : Emotion * nat) : Prop := (snd q <= snd p)%nat.

(** The [emotions] of every entry form a set: no tag is listed twice. *)
Definition emotions_are_sets (entries : list JournalEntry.t) : Prop :=
  forall entry tags,
    In entry entries -> JournalEntry.emotions entry = Some tags -> NoDup tags.

(** The key under which [prepareRadarData] files a reading: the name of
    its location, as a property key. *)
Definition group_name (locations : list Location.t) (d : EnvironmentalData.t) : string :=
  Environmental.propertyKey
    (Environmental.getLocationName locations (EnvironmentalData.location_id d)).

(** The readings filed under a name, in their order. *)
Definition group_at (locations : list Location.t) (name : string)
    (records : list EnvironmentalData.t) : list EnvironmentalData.t :=
  filter (fun d => String.eqb (group_name locations d) name) records.

(** The five arrays that belong to a group of readings. *)
Definition metrics_of (group : list EnvironmentalData.t) : Environmental.Metrics :=
  {| Environmental.temperature :=
       map (fun d => Js.or_zero (EnvironmentalData.temperature_avg d)) group;
     Environmental.humidity :=
       map (fun d => Js.or_zero (EnvironmentalData.humidity d)) group;
     Environmental.light :=
       map (fun d => Js.or_zero (EnvironmentalData.light_exposure d)) group;
     Environmental.airQuality :=
       map (fun d => Js.or_zero (EnvironmentalData.air_quality_index d)) group;
     Environmental.noise :=
       map (fun d => Js.or_zero (EnvironmentalData.noise_level d)) group |}.

(** What [locationGroups] holds once the readings [done] are filed: one
    property per name met, none of them inherited, each with the arrays
    of its group. *)
Definition groups_hold (locations : list Location.t) (done : list EnvironmentalData.t)
    (groups : JsObject.object Environmental.Metrics) : Prop :=
  NoDup (map fst groups)
  /\ (forall name, In name (map fst groups)
                   <-> exists d, In d done /\ group_name locations d = name)
  /\ (forall name metrics, In (name, metrics) groups ->
                           metrics = metrics_of (group_at locations name done))
  /\ (forall name, In name (map fst groups) -> JsObject.inherited name = false).

(** The different names of a list, each at the place of its first mention. *)
Fixpoint first_mentions (names : list string) : list string :=
  match names with
  | [] => []
  | name :: rest =>
      name :: filter (fun other => negb (String.eqb other name)) (first_mentions rest)
  end.

(** The tags that occur in the journal at all. *)
Definition occurring (entries : list JournalEntry.t) : list Emotion :=
  filter (fun emotion => (0 <? occurrences emotion entries)%nat) EMOTIONS.

(** [q] occurs in [s] as a run of consecutive units. *)
Definition occurs_in (q s : string) : Prop :=
  exists m, String.substring m (String.length q) s = q.

(** An entry passes the three filters of the journal page: the location
    filter unless it is "all", the emotion filter unless it is "all", and
    the search unless the query is empty; the search looks for the
    lower-cased query in the lower-cased title and content. *)
Definition passes (selectedLocation : string) (selectedEmotion : Journal.EmotionChoice)
    (searchQuery : string) (toLowerCase : string -> string)
    (entry : JournalEntry.t) : Prop :=
  (selectedLocation = "all"%string
   \/ JournalEntry.location_id entry = Js.Str selectedLocation)
  /\ match selectedEmotion with
     | Journal.AllEmotions => True
     | Journal.OnlyEmotion emotion =>
         exists tags, JournalEntry.emotions entry = Some tags /\ In emotion tags
     end
  /\ (searchQuery = ""%string
      \/ exists text,
           (JournalEntry.title entry = Js.Str text
            \/ JournalEntry.content entry = Js.Str text)
           /\ occurs_in (toLowerCase searchQuery) (toLowerCase text)).

End Spec.

(** ** Sample records, used to run the functions on concrete inputs *)

Module Sample.
Import Js.

Definition place (id name : string) : Location.t :=
  Location.make (Str id) (Str name) NoText Undefined Undefined NoText NoText
                NoText NoText.

(** A reading at location [loc] with the three temperature fields. *)
Definition reading (loc : string) (t_avg t_min t_max : value) : EnvironmentalData.t :=
  EnvironmentalData.make NoText (Str loc) (Str "2024-05-01") t_avg t_min t_max
                         Undefined Undefined Undefined Undefined NoText.

(** A biometric record at [loc] with resting heart rate, variability,
    sleep quality and stress. *)
Definition biometric (loc : string) (hr variability sleep stress : value)
  : BiologicalData.t :=
  BiologicalData.make NoText (Str loc) (Str "2024-05-01") hr Undefined variability
                      Undefined sleep Undefined Undefined NoText stress.

Definition zone (name : string) (variability sleep stress : value)
  : Biological.HarmonyZone :=
  Biological.Build_HarmonyZone (Str name) "May 1" NaN stress sleep variability.

Definition entry (loc : string) (tags : option (list Emotion)) (mood : value)
  : JournalEntry.t :=
  JournalEntry.make NoText (Str loc) (Str "2024-05-01") NoText NoText tags mood
                    false NoText NoText.

Definition readings : list EnvironmentalData.t :=
  [reading "alps" (Num 10) (Num 5) (Num 14);
   reading "fjord" (Num 20) (Num 16) (Num 25);
   reading "alps" Undefined Undefined Undefined].

(** A place with its coordinates. *)
Definition site (id name : string) (latitude longitude : value) : Location.t :=
  Location.make (Str id) (Str name) NoText latitude longitude NoText NoText
                NoText NoText.

Definition sites : list Location.t :=
  [site "alps" "Zermatt" (Num 46) (Num 8); site "fjord" "Geiranger" (Num 62) (Num 7)].

Definition places : list Location.t :=
  [place "alps" "Zermatt"; place "fjord" "Geiranger"; place "alps" "Chamonix"].

(** The example of the specification: selector values 3, 5, 5, 1. *)
Definition zones : list Biological.HarmonyZone :=
  [zone "Zermatt" (Num 3) (Num 6) (Num 3); zone "Geiranger" (Num 5) (Num 8) (Num 1);
   zone "Chamonix" (Num 5) (Num 8) (Num 1); zone "Lofoten" (Num 1) (Num 4) (Num 7)].

Definition journal : list JournalEntry.t :=
  [entry "alps" (Some [joy; calm]) (Num 8);
   entry "alps" None Undefined;
   entry "fjord" (Some [calm; fear; wonder]) (Num 0);
   entry "fjord" (Some [calm; peace; stress; wonder; euphoria; fatigue; joy]) (Num 6);
   entry "alps" (Some []) Null;
   entry "alps" (Some [curiosity]) (Num 3)].

(** The first record comes without any measurement. *)
Definition biometrics : list BiologicalData.t :=
  [biometric "alps" Undefined Undefined Undefined Undefined;
   biometric "fjord" (Num 70) (Num 40) (Num 8) (Num 2)].

(** The formatter on the dates of the samples, as in the time zone UTC:
    the one date they carry has the label "May 1"; [new Date(null)] is
    1 January 1970; [new Date(undefined)] is no date, and [format]
    throws.  No other string occurs in the samples. *)
Definition label (date : text) : option string :=
  match date with
  | Str s => if String.eqb s "2024-05-01" then Some "May 1"%string else None
  | NullText => Some "Jan 1"%string
  | NoText => None
  end.

(** What [getHarmonyZones()] makes of them when all locations are shown. *)
Definition harmonyData : list Biological.HarmonyZone :=
  match Biological.getHarmonyZones biometrics places "all" label with
  | Some rows => rows
  | None => []
  end.

End Sample.

(* ================================================================== *)
(** * Part V.  Facts about the operators                                *)
(* ================================================================== *)

Module JsFacts.
Import Js.
Local Open Scope Q_scope.

Lemma same_refl (a : number) : same a a.
Proof. destruct a; simpl; auto. reflexivity. Qed.

Lemma same_sym (a b : number) : same a b -> same b a.
Proof. destruct a, b; simpl; auto. intros H; symmetry; exact H. Qed.

Lemma same_trans (a b c : number) : same a b -> same b c -> same a c.
Proof.
  destruct a, b, c; simpl; auto; try contradiction.
  intros H1 H2. rewrite H1. exact H2.
Qed.

Lemma le_finite (x y : Q) : le (Finite x) (Finite y) <-> x <= y.
Proof. unfold le; simpl. apply Qle_bool_iff. Qed.

Lemma or_zero_finite (v : value) : or_zero v = Finite (or_zero_value v).
Proof.
  destruct v as [| |q]; try reflexivity.
  unfold or_zero; simpl. destruct (Qeq_bool q 0); reflexivity.
Qed.

Lemma or_zero_value_spec (v : value) : or_zero_value v == Spec.present_or_zero v.
Proof.
  destruct v as [| |q]; simpl; try reflexivity.
  destruct (Qeq_bool q 0) eqn:E; [|reflexivity].
  apply Qeq_bool_eq in E. symmetry; exact E.
Qed.

(** [reduce((sum, d) => sum + (d.field || 0), acc)] stays finite and adds
    up the substituted values. *)
Lemma reduce_or_zero {A : Type} (field : A -> value) (records : list A) (acc : Q) :
  exists s,
    fold_left (fun sum d => add sum (or_zero (field d))) records (Finite acc)
    = Finite s
    /\ s == acc + Spec.total field records.
Proof.
  revert acc. induction records as [|d rest IH]; intros acc; simpl.
  - exists acc. split; [reflexivity | ring].
  - rewrite or_zero_finite. simpl.
    destruct (IH (acc + or_zero_value (field d))) as (s & Hs & Hq).
    exists s. split; [exact Hs|].
    rewrite Hq, or_zero_value_spec. ring.
Qed.

Lemma length_nonzero {A : Type} (xs : list A) :
  xs <> [] -> Qeq_bool (inject_Z (Z.of_nat (List.length xs))) 0 = false.
Proof.
  intros Hne. destruct xs as [|x xs]; [congruence|].
  destruct (Qeq_bool _ 0) eqn:E; [|reflexivity].
  apply Qeq_bool_eq in E. unfold Qeq in E. simpl in E. lia.
Qed.

(** The average as the pages write it is the mean of the specification. *)
Lemma average_or_zero {A : Type} (field : A -> value) (records : list A) :
  records <> [] ->
  same (div (fold_left (fun sum d => add sum (or_zero (field d))) records (Finite 0))
            (length_of records))
       (Finite (Spec.mean field records)).
Proof.
  intros Hne.
  destruct (reduce_or_zero field records 0) as (s & Hs & Hq).
  rewrite Hs. unfold length_of, div. rewrite (length_nonzero Hne).
  simpl. unfold Spec.mean. rewrite Hq. field.
  intros E. apply Qeq_eq_bool in E. rewrite (length_nonzero Hne) in E. discriminate.
Qed.


Lemma min2_finite (x y : Q) :
  min2 (Finite x) (Finite y) = if Qle_bool x y then Finite x else Finite y.
Proof. reflexivity. Qed.

Lemma max2_finite (x y : Q) :
  max2 (Finite x) (Finite y) = if Qle_bool x y then Finite y else Finite x.
Proof. reflexivity. Qed.

Lemma Qle_bool_false (x y : Q) : Qle_bool x y = false -> y < x.
Proof.
  intros H. apply Qnot_le_lt. intros Hle.
  apply Qle_bool_iff in Hle. congruence.
Qed.

(** Folding [Math.min] over finite numbers, starting from one of them,
    ends on the least of them. *)
Lemma fold_min2_least {A : Type} (g : A -> Q) (ds : list A) (d0 : A) :
  exists d,
    In d (d0 :: ds)
    /\ fold_left min2 (map (fun d => Finite (g d)) ds) (Finite (g d0)) = Finite (g d)
    /\ forall d', In d' (d0 :: ds) -> g d <= g d'.
Proof.
  revert d0. induction ds as [|d1 rest IH]; intros d0; cbn [map fold_left].
  - exists d0. split; [now left|]. split; [reflexivity|].
    intros d' [<-|[]]. apply Qle_refl.
  - rewrite min2_finite. destruct (Qle_bool (g d0) (g d1)) eqn:E.
    + apply Qle_bool_iff in E.
      destruct (IH d0) as (d & Hin & Hfold & Hleast).
      exists d. split.
      { destruct Hin as [<-|Hin]; [now left | now right; right]. }
      split; [exact Hfold|].
      intros d' [<-|[<-|Hin']].
      * apply Hleast. now left.
      * apply Qle_trans with (g d0); [apply Hleast; now left | exact E].
      * apply Hleast. now right.
    + apply Qle_bool_false in E.
      destruct (IH d1) as (d & Hin & Hfold & Hleast).
      exists d. split; [now right|]. split; [exact Hfold|].
      intros d' [<-|Hin'].
      * apply Qle_trans with (g d1); [apply Hleast; now left | apply Qlt_le_weak, E].
      * apply Hleast. exact Hin'.
Qed.

Lemma fold_max2_greatest {A : Type} (g : A -> Q) (ds : list A) (d0 : A) :
  exists d,
    In d (d0 :: ds)
    /\ fold_left max2 (map (fun d => Finite (g d)) ds) (Finite (g d0)) = Finite (g d)
    /\ forall d', In d' (d0 :: ds) -> g d' <= g d.
Proof.
  revert d0. induction ds as [|d1 rest IH]; intros d0; cbn [map fold_left].
  - exists d0. split; [now left|]. split; [reflexivity|].
    intros d' [<-|[]]. apply Qle_refl.
  - rewrite max2_finite. destruct (Qle_bool (g d0) (g d1)) eqn:E.
    + apply Qle_bool_iff in E.
      destruct (IH d1) as (d & Hin & Hfold & Hgreatest).
      exists d. split; [now right|]. split; [exact Hfold|].
      intros d' [<-|Hin'].
      * apply Qle_trans with (g d1); [exact E | apply Hgreatest; now left].
      * apply Hgreatest. exact Hin'.
    + apply Qle_bool_false in E.
      destruct (IH d0) as (d & Hin & Hfold & Hgreatest).
      exists d. split.
      { destruct Hin as [<-|Hin]; [now left | now right; right]. }
      split; [exact Hfold|].
      intros d' [<-|[<-|Hin']].
      * apply Hgreatest. now left.
      * apply Qle_trans with (g d0); [apply Qlt_le_weak, E | apply Hgreatest; now left].
      * apply Hgreatest. now right.
Qed.

(** [Math.min(...)] of a nonempty array of finite numbers is its least
    element, [Math.max(...)] its greatest. *)
Lemma Math_min_least {A : Type} (g : A -> Q) (ds : list A) :
  ds <> [] ->
  exists d,
    In d ds /\ Math_min (map (fun d => Finite (g d)) ds) = Finite (g d)
    /\ forall d', In d' ds -> g d <= g d'.
Proof.
  destruct ds as [|d0 rest]; [congruence|]. intros _.
  unfold Math_min. cbn [map fold_left].
  change (min2 PosInfinity (Finite (g d0))) with (Finite (g d0)).
  apply fold_min2_least.
Qed.

Lemma Math_max_greatest {A : Type} (g : A -> Q) (ds : list A) :
  ds <> [] ->
  exists d,
    In d ds /\ Math_max (map (fun d => Finite (g d)) ds) = Finite (g d)
    /\ forall d', In d' ds -> g d' <= g d.
Proof.
  destruct ds as [|d0 rest]; [congruence|]. intros _.
  unfold Math_max. cbn [map fold_left].
  change (max2 NegInfinity (Finite (g d0))) with (Finite (g d0)).
  apply fold_max2_greatest.
Qed.

End JsFacts.

(** ** [map] with a callback that may throw *)

Module JsArrayFacts.
Import JsArray.

(** The call returns [ys] exactly when every element is mapped to the
    element of [ys] at its place. *)
Lemma map_throwing_Some {A B : Type} (f : A -> option B) (xs : list A) (ys : list B) :
  map_throwing f xs = Some ys <-> Forall2 (fun x y => f x = Some y) xs ys.
Proof.
  revert ys. induction xs as [|x rest IH]; intros ys; simpl.
  - split.
    + intros [= <-]. constructor.
    + intros H. inversion H. reflexivity.
  - split.
    + destruct (f x) as [y|] eqn:Ex; [|discriminate].
      destruct (map_throwing f rest) as [ys'|] eqn:Erest; [|discriminate].
      intros [= <-]. constructor; [exact Ex|]. apply IH. reflexivity.
    + intros H. inversion H as [|x' y rest' ys' Hy Hrest]; subst.
      rewrite Hy. apply IH in Hrest. rewrite Hrest. reflexivity.
Qed.

(** The call throws exactly when the callback throws at some element. *)
Lemma map_throwing_None {A B : Type} (f : A -> option B) (xs : list A) :
  map_throwing f xs = None <-> exists x, In x xs /\ f x = None.
Proof.
  induction xs as [|x rest IH]; simpl.
  - split; [discriminate|]. intros (x & [] & _).
  - destruct (f x) as [y|] eqn:Ex.
    + destruct (map_throwing f rest) as [ys|] eqn:Erest.
      * split; [discriminate|].
        intros (x' & [<-|Hin] & Hx'); [congruence|].
        assert (Hnone : Some ys = None) by (apply IH; exists x'; split; assumption).
        discriminate.
      * split; [|reflexivity]. intros _.
        destruct (proj1 IH eq_refl) as (x' & Hin & Hx').
        exists x'. split; [right; exact Hin | exact Hx'].
    + split; [|reflexivity]. intros _. exists x. split; [left; reflexivity | exact Ex].
Qed.

(** A callback that throws nowhere on the array gives a result. *)
Lemma map_throwing_defined {A B : Type} (f : A -> option B) (xs : list A) :
  (forall x, In x xs -> f x <> None) -> exists ys, map_throwing f xs = Some ys.
Proof.
  intros Hdef. destruct (map_throwing f xs) as [ys|] eqn:E.
  - exists ys. reflexivity.
  - apply map_throwing_None in E. destruct E as (x & Hin & Hx).
    exfalso. exact (Hdef x Hin Hx).
Qed.

(** A callback that never throws is the plain [map]. *)
Lemma map_throwing_total {A B : Type} (f : A -> option B) (g : A -> B) (xs : list A) :
  (forall x, In x xs -> f x = Some (g x)) -> map_throwing f xs = Some (map g xs).
Proof.
  induction xs as [|x rest IH]; intros H; simpl; [reflexivity|].
  rewrite (H x (or_introl eq_refl)), IH; [reflexivity|].
  intros x' Hin. apply H. right. exact Hin.
Qed.

(** What the call returns is the plain [map] of any function that agrees
    with the callback where it does not throw. *)
Lemma map_throwing_map {A B : Type} (f : A -> option B) (g : A -> B)
    (xs : list A) (ys : list B) :
  (forall x y, f x = Some y -> y = g x) ->
  map_throwing f xs = Some ys -> ys = map g xs.
Proof.
  intros Hg H. apply map_throwing_Some in H.
  induction H as [|x y xs ys Hy _ IH]; simpl; [reflexivity|].
  rewrite (Hg x y Hy), IH. reflexivity.
Qed.

(** The result has one element for each element of the array. *)
Lemma map_throwing_length {A B : Type} (f : A -> option B) (xs : list A) (ys : list B) :
  map_throwing f xs = Some ys -> List.length ys = List.length xs.
Proof.
  intros H. apply map_throwing_Some in H.
  induction H; simpl; congruence.
Qed.

End JsArrayFacts.

(* ================================================================== *)
(** * Part VI.  Averages, minima and maxima of the statistics cards    *)
(* ================================================================== *)

Local Open Scope string_scope.
Local Open Scope js_scope.

Lemma nonempty_length_eqb {A : Type} (xs : list A) :
  xs <> [] -> Nat.eqb (List.length xs) 0 = false.
Proof. destruct xs; [congruence | reflexivity]. Qed.

(** ** C1 *)

(** C1.  For every nonempty sequence of records in scope, each average of
    [getMetricStats] and of [getBiometricStats] is the sum over all
    records of the field's value if present, else 0, divided by the
    number of records: a missing value counts as zero and still counts
    in the divisor. *)
Theorem average_substitutes_zero :
  (forall (environmentalData : list EnvironmentalData.t) (selectedLocation : string),
      let records := Environmental.getFilteredData environmentalData selectedLocation in
      records <> [] ->
      exists stats,
        Environmental.getMetricStats environmentalData selectedLocation = Some stats
        /\ Environmental.temperature_avg_of stats
           =~ Js.Finite (Spec.mean EnvironmentalData.temperature_avg records)
        /\ Environmental.humidity_avg_of stats
           =~ Js.Finite (Spec.mean EnvironmentalData.humidity records)
        /\ Environmental.light_avg_of stats
           =~ Js.Finite (Spec.mean EnvironmentalData.light_exposure records)
        /\ Environmental.airQuality_avg_of stats
           =~ Js.Finite (Spec.mean EnvironmentalData.air_quality_index records))
  /\
  (forall (biologicalData : list BiologicalData.t) (selectedLocation : string),
      let records := Biological.getFilteredData biologicalData selectedLocation in
      records <> [] ->
      exists stats,
        Biological.getBiometricStats biologicalData selectedLocation = Some stats
        /\ Biological.heartRate_avg stats
           =~ Js.Finite (Spec.mean BiologicalData.heart_rate_resting records)
        /\ Biological.hrv_avg stats
           =~ Js.Finite (Spec.mean BiologicalData.heart_rate_variability records)
        /\ Biological.sleep_avg stats
           =~ Js.Finite (Spec.mean BiologicalData.sleep_quality_score records)
        /\ Biological.sleep_avgDuration stats
           =~ Js.Finite (Spec.mean BiologicalData.sleep_duration records)
        /\ Biological.stress_avg stats
           =~ Js.Finite (Spec.mean BiologicalData.stress_level records)).
Proof.
  split; intros data selectedLocation records Hne.
  - unfold Environmental.getMetricStats. fold records.
    rewrite (nonempty_length_eqb Hne). eexists; split; [reflexivity|].
    cbn [Environmental.temperature_avg_of Environmental.humidity_avg_of
         Environmental.light_avg_of Environmental.airQuality_avg_of].
    repeat split; apply JsFacts.average_or_zero; exact Hne.
  - unfold Biological.getBiometricStats. fold records.
    rewrite (nonempty_length_eqb Hne). eexists; split; [reflexivity|].
    cbn [Biological.heartRate_avg Biological.hrv_avg Biological.sleep_avg
         Biological.sleep_avgDuration Biological.stress_avg].
    repeat split; apply JsFacts.average_or_zero; exact Hne.
Qed.

Lemma average_substitutes_zero_witness :
  Environmental.getFilteredData Sample.readings "all" <> []
  /\ exists stats,
      Environmental.getMetricStats Sample.readings "all" = Some stats
      /\ Environmental.temperature_avg_of stats
         =~ Js.Finite (Spec.mean EnvironmentalData.temperature_avg
                                 (Environmental.getFilteredData Sample.readings "all"))
      /\ Environmental.humidity_avg_of stats
         =~ Js.Finite (Spec.mean EnvironmentalData.humidity
                                 (Environmental.getFilteredData Sample.readings "all"))
      /\ Environmental.light_avg_of stats
         =~ Js.Finite (Spec.mean EnvironmentalData.light_exposure
                                 (Environmental.getFilteredData Sample.readings "all"))
      /\ Environmental.airQuality_avg_of stats
         =~ Js.Finite (Spec.mean EnvironmentalData.air_quality_index
                                 (Environmental.getFilteredData Sample.readings "all")).
Proof.
  split; [discriminate|].
  apply (proj1 average_substitutes_zero Sample.readings "all"). discriminate.
Defined.

(** At "alps" the sample has one reading of 10 and one without a
    temperature: the average is 5, not 10. *)
Example average_of_sample :
  option_map Environmental.temperature_avg_of
             (Environmental.getMetricStats Sample.readings "alps")
  = Some (Js.Finite (10 # 2)).
Proof. reflexivity. Qed.

(** ** C2 *)

Lemma map_or_zero {A : Type} (field : A -> Js.value) (records : list A) :
  map (fun d => Js.or_zero (field d)) records
  = map (fun d => Js.Finite (Js.or_zero_value (field d))) records.
Proof. apply map_ext. intros d. apply JsFacts.or_zero_finite. Qed.

(** [Math.min(...records.map(d => d.field || 0))] is the least of the
    zero-substituted values. *)
Lemma Math_min_or_zero {A : Type} (field : A -> Js.value) (records : list A) :
  records <> [] ->
  Spec.minimum_with_zero field records
    (Js.Math_min (map (fun d => Js.or_zero (field d)) records)).
Proof.
  intros Hne. rewrite map_or_zero.
  destruct (JsFacts.Math_min_least (fun d => Js.or_zero_value (field d)) Hne)
    as (d & Hin & -> & Hleast).
  split.
  - exists d. split; [exact Hin|]. simpl. apply JsFacts.or_zero_value_spec.
  - intros d' Hin'. apply JsFacts.le_finite.
    rewrite <- (JsFacts.or_zero_value_spec (field d')). apply Hleast, Hin'.
Qed.

Lemma Math_max_or_zero {A : Type} (field : A -> Js.value) (records : list A) :
  records <> [] ->
  Spec.maximum_with_zero field records
    (Js.Math_max (map (fun d => Js.or_zero (field d)) records)).
Proof.
  intros Hne. rewrite map_or_zero.
  destruct (JsFacts.Math_max_greatest (fun d => Js.or_zero_value (field d)) Hne)
    as (d & Hin & -> & Hgreatest).
  split.
  - exists d. split; [exact Hin|]. simpl. apply JsFacts.or_zero_value_spec.
  - intros d' Hin'. apply JsFacts.le_finite.
    rewrite <- (JsFacts.or_zero_value_spec (field d')). apply Hgreatest, Hin'.
Qed.

(** When no value is missing, the substitution changes nothing. *)
Lemma minimum_of_present {A : Type} (field : A -> Js.value) (records : list A)
    (m : Js.number) :
  Spec.all_present field records ->
  Spec.minimum_with_zero field records m -> Spec.true_minimum field records m.
Proof.
  intros Hall [(d & Hin & Hsame) Hleast]. split.
  - destruct (Hall d Hin) as (q & Hq). exists d, q.
    rewrite Hq in Hsame. auto.
  - intros d' q Hin' Hq. specialize (Hleast d' Hin'). rewrite Hq in Hleast.
    exact Hleast.
Qed.

Lemma maximum_of_present {A : Type} (field : A -> Js.value) (records : list A)
    (m : Js.number) :
  Spec.all_present field records ->
  Spec.maximum_with_zero field records m -> Spec.true_maximum field records m.
Proof.
  intros Hall [(d & Hin & Hsame) Hgreatest]. split.
  - destruct (Hall d Hin) as (q & Hq). exists d, q.
    rewrite Hq in Hsame. auto.
  - intros d' q Hin' Hq. specialize (Hgreatest d' Hin'). rewrite Hq in Hgreatest.
    exact Hgreatest.
Qed.

(** C2, as amended.  For every nonempty sequence of records in scope,
    [getMetricStats] returns as [temperature.min] the least
    [temperature_min] and as [temperature.max] the greatest
    [temperature_max] of the whole set, a missing value counting as 0;
    these are the companion fields, not the averaged [temperature_avg],
    and they are the true minimum and maximum whenever every record has
    the companion field. *)
Theorem min_max_over_companion_fields :
  forall (environmentalData : list EnvironmentalData.t) (selectedLocation : string),
    let records := Environmental.getFilteredData environmentalData selectedLocation in
    records <> [] ->
    exists stats,
      Environmental.getMetricStats environmentalData selectedLocation = Some stats
      /\ Spec.minimum_with_zero EnvironmentalData.temperature_min records
           (Environmental.temperature_min_of stats)
      /\ Spec.maximum_with_zero EnvironmentalData.temperature_max records
           (Environmental.temperature_max_of stats)
      /\ (Spec.all_present EnvironmentalData.temperature_min records ->
          Spec.true_minimum EnvironmentalData.temperature_min records
            (Environmental.temperature_min_of stats))
      /\ (Spec.all_present EnvironmentalData.temperature_max records ->
          Spec.true_maximum EnvironmentalData.temperature_max records
            (Environmental.temperature_max_of stats)).
Proof.
  intros data selectedLocation records Hne.
  unfold Environmental.getMetricStats. fold records.
  rewrite (nonempty_length_eqb Hne). eexists; split; [reflexivity|].
  cbn [Environmental.temperature_min_of Environmental.temperature_max_of].
  pose proof (Math_min_or_zero EnvironmentalData.temperature_min Hne) as Hmin.
  pose proof (Math_max_or_zero EnvironmentalData.temperature_max Hne) as Hmax.
  split; [exact Hmin|]. split; [exact Hmax|]. split; intros Hall.
  - apply (minimum_of_present Hall Hmin).
  - apply (maximum_of_present Hall Hmax).
Qed.

Lemma min_max_over_companion_fields_witness :
  Environmental.getFilteredData Sample.readings "all" <> []
  /\ exists stats,
      Environmental.getMetricStats Sample.readings "all" = Some stats
      /\ Spec.minimum_with_zero EnvironmentalData.temperature_min
           (Environmental.getFilteredData Sample.readings "all")
           (Environmental.temperature_min_of stats)
      /\ Spec.maximum_with_zero EnvironmentalData.temperature_max
           (Environmental.getFilteredData Sample.readings "all")
           (Environmental.temperature_max_of stats)
      /\ (Spec.all_present EnvironmentalData.temperature_min
            (Environmental.getFilteredData Sample.readings "all") ->
          Spec.true_minimum EnvironmentalData.temperature_min
            (Environmental.getFilteredData Sample.readings "all")
            (Environmental.temperature_min_of stats))
      /\ (Spec.all_present EnvironmentalData.temperature_max
            (Environmental.getFilteredData Sample.readings "all") ->
          Spec.true_maximum EnvironmentalData.temperature_max
            (Environmental.getFilteredData Sample.readings "all")
            (Environmental.temperature_max_of stats)).
Proof.
  split; [discriminate|].
  apply (min_max_over_companion_fields Sample.readings "all"). discriminate.
Defined.

(** The claim as first stated, "the true minimum of [temperature_min]",
    fails on the sample: one reading has [temperature_min] 5, the other
    has none, and the card shows 0. *)
Lemma true_minimum_fails_on_missing_value :
  ~ (forall (environmentalData : list EnvironmentalData.t) (selectedLocation : string)
            (stats : Environmental.MetricStats),
        Environmental.getFilteredData environmentalData selectedLocation <> [] ->
        Environmental.getMetricStats environmentalData selectedLocation = Some stats ->
        Spec.true_minimum EnvironmentalData.temperature_min
          (Environmental.getFilteredData environmentalData selectedLocation)
          (Environmental.temperature_min_of stats)
        /\ Spec.true_maximum EnvironmentalData.temperature_max
             (Environmental.getFilteredData environmentalData selectedLocation)
             (Environmental.temperature_max_of stats)).
Proof.
  intros claim.
  destruct (claim Sample.readings "all" _ ltac:(discriminate) eq_refl)
    as [[(d & q & Hin & Hq & Hsame) _] _].
  cbn in Hin, Hsame.
  destruct Hin as [<-|[<-|[<-|[]]]]; cbn in Hq; try discriminate;
    injection Hq as <-; revert Hsame; unfold Qeq; simpl; lia.
Qed.

(* ================================================================== *)
(** * Part VII.  Scope filter and location names                        *)
(* ================================================================== *)

Lemma text_strict_equals_iff (a b : Js.text) :
  Js.text_strict_equals a b = true <-> a = b.
Proof.
  destruct a as [| |s], b as [| |t]; simpl; split; intros H;
    try reflexivity; try discriminate.
  - apply String.eqb_eq in H. now subst.
  - injection H as ->. apply String.eqb_refl.
Qed.

Section ScopeFilter.
Variable A : Type.
Variable location_id : A -> Js.text.

Lemma filter_records_at (X : string) (records : list A) :
  filter (fun data => Js.text_strict_equals (location_id data) (Js.Str X)) records
  = Spec.records_at location_id X records.
Proof.
  induction records as [|d rest IH]; simpl; [reflexivity|].
  destruct (Spec.text_eq_dec (location_id d) (Js.Str X)) as [E|E].
  - apply text_strict_equals_iff in E. rewrite E, IH. reflexivity.
  - destruct (Js.text_strict_equals (location_id d) (Js.Str X)) eqn:F.
    + apply text_strict_equals_iff in F. contradiction.
    + exact IH.
Qed.

Lemma records_at_subsequence (X : string) (records : list A) :
  Spec.subsequence (Spec.records_at location_id X records) records.
Proof.
  induction records as [|d rest IH]; simpl.
  - constructor.
  - destruct (Spec.text_eq_dec (location_id d) (Js.Str X)); now constructor.
Qed.

Lemma records_at_none (X : string) (records : list A) :
  (forall d, In d records -> location_id d <> Js.Str X) ->
  Spec.records_at location_id X records = [].
Proof.
  induction records as [|d rest IH]; simpl; intros Hnone; [reflexivity|].
  destruct (Spec.text_eq_dec (location_id d) (Js.Str X)) as [E|E].
  - exfalso. apply (Hnone d); auto.
  - apply IH. intros d' Hin. apply Hnone. now right.
Qed.

Lemma in_records_at (X : string) (records : list A) (d : A) :
  In d (Spec.records_at location_id X records)
  <-> In d records /\ location_id d = Js.Str X.
Proof.
  induction records as [|d0 rest IH]; simpl; [tauto|].
  destruct (Spec.text_eq_dec (location_id d0) (Js.Str X)) as [E|E]; simpl;
    rewrite IH; intuition (subst; auto; contradiction).
Qed.

End ScopeFilter.

(** ** C3 *)

(** C3.  With the scope ["all"], [getFilteredData] returns the records
    as they are, same content and same order; with any other scope [X]
    it returns exactly the records whose [location_id] equals [X], in
    their original relative order, hence the empty sequence when none
    matches.  This holds on the environmental and on the biological
    page. *)
Theorem filter_by_location :
  (forall records : list EnvironmentalData.t,
      Environmental.getFilteredData records "all" = records)
  /\ (forall (records : list EnvironmentalData.t) (X : string),
         X <> "all" ->
         let result := Environmental.getFilteredData records X in
         result = Spec.records_at EnvironmentalData.location_id X records
         /\ Spec.subsequence result records
         /\ (forall d, In d result
                       <-> In d records /\ EnvironmentalData.location_id d = Js.Str X)
         /\ ((forall d, In d records -> EnvironmentalData.location_id d <> Js.Str X)
             -> result = []))
  /\ (forall records : list BiologicalData.t,
         Biological.getFilteredData records "all" = records)
  /\ (forall (records : list BiologicalData.t) (X : string),
         X <> "all" ->
         let result := Biological.getFilteredData records X in
         result = Spec.records_at BiologicalData.location_id X records
         /\ Spec.subsequence result records
         /\ (forall d, In d result
                       <-> In d records /\ BiologicalData.location_id d = Js.Str X)
         /\ ((forall d, In d records -> BiologicalData.location_id d <> Js.Str X)
             -> result = [])).
Proof.
  split; [reflexivity|]. split; [|split; [reflexivity|]].
  - intros records X HX result. subst result.
    unfold Environmental.getFilteredData.
    apply String.eqb_neq in HX. rewrite HX, filter_records_at.
    split; [reflexivity|]. split; [apply records_at_subsequence|].
    split; [intros d; apply in_records_at | apply records_at_none].
  - intros records X HX result. subst result.
    unfold Biological.getFilteredData.
    apply String.eqb_neq in HX. rewrite HX, filter_records_at.
    split; [reflexivity|]. split; [apply records_at_subsequence|].
    split; [intros d; apply in_records_at | apply records_at_none].
Qed.

Lemma filter_by_location_witness :
  "alps" <> "all"
  /\ let result := Environmental.getFilteredData Sample.readings "alps" in
     result = Spec.records_at EnvironmentalData.location_id "alps" Sample.readings
     /\ Spec.subsequence result Sample.readings
     /\ (forall d, In d result
                   <-> In d Sample.readings
                       /\ EnvironmentalData.location_id d = Js.Str "alps")
     /\ ((forall d, In d Sample.readings ->
                    EnvironmentalData.location_id d <> Js.Str "alps")
         -> result = []).
Proof.
  split; [discriminate|].
  apply (proj1 (proj2 filter_by_location) Sample.readings "alps"). discriminate.
Defined.

Example filter_sample :
  Environmental.getFilteredData Sample.readings "alps"
  = [Sample.reading "alps" (Js.Num 10) (Js.Num 5) (Js.Num 14);
     Sample.reading "alps" Js.Undefined Js.Undefined Js.Undefined]
  /\ Environmental.getFilteredData Sample.readings "lagoon" = [].
Proof. split; reflexivity. Qed.

(** ** C4 *)

Lemma find_first_location (locationId : Js.text) (locations : list Location.t) :
  find (fun loc => Js.text_strict_equals (Location.id loc) locationId) locations
  = Spec.first_location locationId locations.
Proof.
  induction locations as [|loc rest IH]; simpl; [reflexivity|].
  destruct (Spec.text_eq_dec (Location.id loc) locationId) as [E|E].
  - apply text_strict_equals_iff in E. rewrite E. reflexivity.
  - destruct (Js.text_strict_equals (Location.id loc) locationId) eqn:F.
    + apply text_strict_equals_iff in F. contradiction.
    + exact IH.
Qed.

Lemma first_location_found (locationId : Js.text)
    (earlier later : list Location.t) (loc : Location.t) :
  (forall l, In l earlier -> Location.id l <> locationId) ->
  Location.id loc = locationId ->
  Spec.first_location locationId (earlier ++ loc :: later) = Some loc.
Proof.
  intros Hearlier Hloc. induction earlier as [|l rest IH]; simpl.
  - destruct (Spec.text_eq_dec (Location.id loc) locationId); [reflexivity|contradiction].
  - destruct (Spec.text_eq_dec (Location.id l) locationId) as [E|E].
    + exfalso. apply (Hearlier l); auto. now left.
    + apply IH. intros l' Hin. apply Hearlier. now right.
Qed.

Lemma first_location_missing (locationId : Js.text) (locations : list Location.t) :
  (forall l, In l locations -> Location.id l <> locationId) ->
  Spec.first_location locationId locations = None.
Proof.
  induction locations as [|l rest IH]; simpl; intros Hnone; [reflexivity|].
  destruct (Spec.text_eq_dec (Location.id l) locationId) as [E|E].
  - exfalso. apply (Hnone l); auto.
  - apply IH. intros l' Hin. apply Hnone. now right.
Qed.

(** C4.  [getLocationName], on the environmental, the biological and the
    journal page, returns the name of the first location whose [id] is
    the given id when there is one, and the string "Unknown Location"
    for every id that no location has, the absent and the [null] id
    included; being a total function, it has no failing case. *)
Theorem location_name_or_sentinel :
  Spec.resolves_names Environmental.getLocationName
  /\ Spec.resolves_names Biological.getLocationName
  /\ Spec.resolves_names Journal.getLocationName.
Proof.
  assert (Hfirst : forall locations locationId,
             match find (fun loc => Js.text_strict_equals (Location.id loc) locationId)
                        locations with
             | Some location => Location.name location
             | None => Js.Str "Unknown Location"
             end
             = match Spec.first_location locationId locations with
               | Some loc => Location.name loc
               | None => Js.Str "Unknown Location"
               end).
  { intros. rewrite find_first_location. reflexivity. }
  assert (H : forall f : list Location.t -> Js.text -> Js.text,
             (forall locations locationId,
                 f locations locationId
                 = match Spec.first_location locationId locations with
                   | Some loc => Location.name loc
                   | None => Js.Str "Unknown Location"
                   end) ->
             Spec.resolves_names f).
  { intros f Hf. split; [exact Hf|]. split.
    - intros earlier loc later locationId Hearlier Hloc.
      rewrite Hf, (@first_location_found locationId earlier later loc Hearlier Hloc). reflexivity.
    - intros locations locationId Hnone.
      rewrite Hf, (@first_location_missing locationId locations Hnone). reflexivity. }
  repeat split; apply H; exact Hfirst.
Qed.

Lemma location_name_or_sentinel_witness :
  (forall l, In l Sample.places -> Location.id l <> Js.NoText)
  /\ Environmental.getLocationName Sample.places Js.NoText = Js.Str "Unknown Location".
Proof.
  assert (Hnone : forall l, In l Sample.places -> Location.id l <> Js.NoText).
  { intros l [<-|[<-|[<-|[]]]]; discriminate. }
  split; [exact Hnone|].
  exact (proj2 (proj2 (proj1 location_name_or_sentinel)) Sample.places Js.NoText Hnone).
Defined.

Example location_name_samples :
  Journal.getLocationName Sample.places (Js.Str "alps") = Js.Str "Zermatt"
  /\ Journal.getLocationName Sample.places (Js.Str "fjord") = Js.Str "Geiranger"
  /\ Journal.getLocationName Sample.places (Js.Str "lagoon") = Js.Str "Unknown Location"
  /\ Journal.getLocationName Sample.places Js.NullText = Js.Str "Unknown Location"
  /\ Journal.getLocationName Sample.places Js.NoText = Js.Str "Unknown Location".
Proof. repeat split. Qed.

(* ================================================================== *)
(** * Part VIII.  Radar normalisation and harmony score                 *)
(* ================================================================== *)

(** ** C5 *)

Lemma positive_not_zero (q : Q) : (0 < q)%Q -> Qeq_bool q 0 = false.
Proof.
  intros Hpos. destruct (Qeq_bool q 0) eqn:E; [|reflexivity].
  apply Qeq_bool_eq in E. rewrite E in Hpos. now apply Qlt_irrefl in Hpos.
Qed.

Lemma rescale_monotone (maxScale x y : Q) :
  (0 < maxScale)%Q -> (x <= y)%Q -> (x / maxScale * 100 <= y / maxScale * 100)%Q.
Proof.
  intros Hpos Hxy. apply Qmult_le_compat_r; [|discriminate].
  apply Qmult_le_compat_r; [exact Hxy|].
  apply Qlt_le_weak, Qinv_lt_0_compat, Hpos.
Qed.

Lemma normalize_finite (maxScale x : Q) :
  (0 < maxScale)%Q ->
  Environmental.normalize (Js.Finite x) (Js.Finite maxScale)
  = if Qle_bool 100 (x / maxScale * 100) then Js.Finite 100
    else Js.Finite (x / maxScale * 100).
Proof.
  intros Hpos. unfold Environmental.normalize, Js.Math_min, Js.div.
  rewrite (positive_not_zero Hpos). reflexivity.
Qed.

Lemma normalize_neg_infinity (maxScale : Q) :
  (0 < maxScale)%Q ->
  Environmental.normalize Js.NegInfinity (Js.Finite maxScale) = Js.NegInfinity.
Proof.
  intros Hpos. unfold Environmental.normalize, Js.Math_min, Js.div.
  apply Qlt_le_weak, Qle_bool_iff in Hpos. rewrite Hpos. reflexivity.
Qed.

Lemma normalize_pos_infinity (maxScale : Q) :
  (0 < maxScale)%Q ->
  Environmental.normalize Js.PosInfinity (Js.Finite maxScale) = Js.Finite 100.
Proof.
  intros Hpos. unfold Environmental.normalize, Js.Math_min, Js.div.
  apply Qlt_le_weak, Qle_bool_iff in Hpos. rewrite Hpos. reflexivity.
Qed.

Lemma normalize_finite_clamped (maxScale x : Q) :
  (0 < maxScale)%Q ->
  Environmental.normalize (Js.Finite x) (Js.Finite maxScale) <= Js.Finite 100.
Proof.
  intros Hpos. rewrite (normalize_finite x Hpos).
  destruct (Qle_bool 100 (x / maxScale * 100)) eqn:E; apply JsFacts.le_finite.
  - apply Qle_refl.
  - apply Qlt_le_weak, JsFacts.Qle_bool_false, E.
Qed.

(** C5.  For every ceiling [maxScale > 0], the rescaling
    [Math.min(100, (v / maxScale) * 100)] of [prepareRadarData] is
    non-decreasing in [v], and is at most 100 for every [v >= 0]. *)
Theorem normalize_monotone_and_clamped :
  forall maxScale : Q,
    (0 < maxScale)%Q ->
    (forall v1 v2 : Js.number,
        v1 <= v2 ->
        Environmental.normalize v1 (Js.Finite maxScale)
        <= Environmental.normalize v2 (Js.Finite maxScale))
    /\ (forall v : Js.number,
           Js.Finite 0 <= v ->
           Environmental.normalize v (Js.Finite maxScale) <= Js.Finite 100).
Proof.
  intros maxScale Hpos. split.
  - intros v1 v2 Hle.
    destruct v1 as [| |x|], v2 as [| |y|]; try discriminate Hle.
    + rewrite !(normalize_neg_infinity Hpos). reflexivity.
    + rewrite (normalize_neg_infinity Hpos), (normalize_finite y Hpos).
      destruct (Qle_bool 100 _); reflexivity.
    + rewrite (normalize_neg_infinity Hpos), (normalize_pos_infinity Hpos).
      reflexivity.
    + apply JsFacts.le_finite in Hle.
      pose proof (rescale_monotone Hpos Hle) as Hmono.
      rewrite (normalize_finite x Hpos), (normalize_finite y Hpos).
      destruct (Qle_bool 100 (x / maxScale * 100)) eqn:Ex;
        destruct (Qle_bool 100 (y / maxScale * 100)) eqn:Ey;
        apply JsFacts.le_finite.
      * apply Qle_refl.
      * apply Qle_bool_iff in Ex. apply JsFacts.Qle_bool_false in Ey.
        exfalso. apply (Qlt_irrefl 100).
        apply Qle_lt_trans with (y / maxScale * 100)%Q; [|exact Ey].
        apply Qle_trans with (x / maxScale * 100)%Q; assumption.
      * apply Qlt_le_weak, JsFacts.Qle_bool_false, Ex.
      * exact Hmono.
    + rewrite (normalize_pos_infinity Hpos). apply normalize_finite_clamped, Hpos.
    + rewrite !(normalize_pos_infinity Hpos). reflexivity.
  - intros v Hv. destruct v as [| |x|]; try discriminate Hv.
    + apply normalize_finite_clamped, Hpos.
    + rewrite (normalize_pos_infinity Hpos). reflexivity.
Qed.

Lemma normalize_monotone_and_clamped_witness :
  (0 < 40)%Q
  /\ (forall v1 v2 : Js.number,
         v1 <= v2 ->
         Environmental.normalize v1 (Js.Finite 40)
         <= Environmental.normalize v2 (Js.Finite 40))
  /\ (forall v : Js.number,
         Js.Finite 0 <= v ->
         Environmental.normalize v (Js.Finite 40) <= Js.Finite 100).
Proof.
  split; [reflexivity|].
  apply (normalize_monotone_and_clamped (maxScale := 40)). reflexivity.
Defined.

(** 30 degrees on the 40-degree scale is 75; 50 degrees is clamped to 100. *)
Example normalize_samples :
  Environmental.normalize (Js.Finite 30) (Js.Finite 40) =~ Js.Finite 75
  /\ Environmental.normalize (Js.Finite 50) (Js.Finite 40) =~ Js.Finite 100
  /\ Environmental.normalize (Js.Finite (-20)) (Js.Finite 40) =~ Js.Finite (-50).
Proof. repeat split. Qed.

(** ** C6 and C7 *)

(** The score of a record whose three inputs are numbers. *)
Lemma harmony_of_numbers (data : BiologicalData.t) (h s t : Q) :
  BiologicalData.heart_rate_variability data = Js.Num h ->
  BiologicalData.sleep_quality_score data = Js.Num s ->
  BiologicalData.stress_level data = Js.Num t ->
  Biological.calculateHarmonyScore data
  = Js.Finite (((if Qle_bool 100 (h / 50 * 100) then 100 else h / 50 * 100)
                + s / 10 * 100 + (10 + - t) / 10 * 100) / 3).
Proof.
  intros Hh Hs Ht. unfold Biological.calculateHarmonyScore.
  rewrite Hh, Hs, Ht. cbn [Js.ToNumber Js.Math_min fold_left].
  change (Js.Finite h / Js.Finite 50) with (Js.Finite (h / 50)).
  change (Js.Finite s / Js.Finite 10) with (Js.Finite (s / 10)).
  change (Js.Finite 10 - Js.Finite t) with (Js.Finite (10 + - t)).
  change (Js.Finite (10 + - t) / Js.Finite 10) with (Js.Finite ((10 + - t) / 10)).
  cbn [Js.mul]. change (Js.min2 Js.PosInfinity (Js.Finite 100)) with (Js.Finite 100).
  rewrite JsFacts.min2_finite.
  destruct (Qle_bool 100 (h / 50 * 100)); reflexivity.
Qed.

(** C6.  A record with [heart_rate_variability = 50],
    [sleep_quality_score = 10] and [stress_level = 0] scores exactly 100;
    one with [heart_rate_variability = 0], [sleep_quality_score = 0] and
    [stress_level = 10] scores exactly 0. *)
Theorem harmony_score_extremes :
  (forall data : BiologicalData.t,
      BiologicalData.heart_rate_variability data = Js.Num 50 ->
      BiologicalData.sleep_quality_score data = Js.Num 10 ->
      BiologicalData.stress_level data = Js.Num 0 ->
      Biological.calculateHarmonyScore data =~ Js.Finite 100)
  /\ (forall data : BiologicalData.t,
         BiologicalData.heart_rate_variability data = Js.Num 0 ->
         BiologicalData.sleep_quality_score data = Js.Num 0 ->
         BiologicalData.stress_level data = Js.Num 10 ->
         Biological.calculateHarmonyScore data =~ Js.Finite 0).
Proof.
  split; intros data Hh Hs Ht; rewrite (harmony_of_numbers data Hh Hs Ht);
    reflexivity.
Qed.

Lemma harmony_score_extremes_witness :
  Biological.calculateHarmonyScore
    (Sample.biometric "alps" (Js.Num 60) (Js.Num 50) (Js.Num 10) (Js.Num 0))
  =~ Js.Finite 100
  /\ Biological.calculateHarmonyScore
       (Sample.biometric "fjord" (Js.Num 90) (Js.Num 0) (Js.Num 0) (Js.Num 10))
     =~ Js.Finite 0.
Proof.
  split.
  - apply (proj1 harmony_score_extremes); reflexivity.
  - apply (proj2 harmony_score_extremes); reflexivity.
Defined.

(** In binary64 arithmetic the two results are exact as well: the
    quotients are 1 or 0, and 300 / 3 is 100. *)
Module Binary64Facts.
Import PrimFloat.
Local Open Scope float_scope.

Lemma harmony_score_extremes_binary64 :
  Binary64.calculateHarmonyScore 50 10 0 = 100
  /\ Binary64.calculateHarmonyScore 0 0 10 = 0.
Proof. split; reflexivity. Qed.

End Binary64Facts.

Lemma rescale_50 (h : Q) : (h / 50 * 100 == 2 * h)%Q.
Proof. field. Qed.

Lemma rescale_10 (s : Q) : (s / 10 * 100 == 10 * s)%Q.
Proof. field. Qed.

Lemma third_part (x : Q) : (x / 3 == (1 # 3) * x)%Q.
Proof. field. Qed.

(** C7.  For every record with [heart_rate_variability >= 0],
    [sleep_quality_score] in [0, 10] and [stress_level] in [0, 10], the
    harmony score lies in [0, 100].  The variability sub-score is capped
    at 100 but has no floor: with the other two inputs at their worst, a
    negative variability gives a score below 0, so the lower bound does
    rest on the variability being non-negative. *)
Theorem harmony_score_bounded :
  (forall (data : BiologicalData.t) (h s t : Q),
      BiologicalData.heart_rate_variability data = Js.Num h ->
      BiologicalData.sleep_quality_score data = Js.Num s ->
      BiologicalData.stress_level data = Js.Num t ->
      (0 <= h)%Q -> (0 <= s <= 10)%Q -> (0 <= t <= 10)%Q ->
      Js.Finite 0 <= Biological.calculateHarmonyScore data
      /\ Biological.calculateHarmonyScore data <= Js.Finite 100)
  /\ (forall (data : BiologicalData.t) (h : Q),
         BiologicalData.heart_rate_variability data = Js.Num h ->
         BiologicalData.sleep_quality_score data = Js.Num 0 ->
         BiologicalData.stress_level data = Js.Num 10 ->
         (h < 0)%Q ->
         exists q, Biological.calculateHarmonyScore data = Js.Finite q /\ (q < 0)%Q).
Proof.
  split.
  - intros data h s t Hh Hs Ht Hh0 [Hs0 Hs10] [Ht0 Ht10].
    rewrite (harmony_of_numbers data Hh Hs Ht).
    destruct (Qle_bool 100 (h / 50 * 100)) eqn:E.
    + split; apply JsFacts.le_finite; rewrite third_part, !rescale_10; lra.
    + apply JsFacts.Qle_bool_false in E. rewrite rescale_50 in E.
      split; apply JsFacts.le_finite;
        rewrite third_part, !rescale_10, rescale_50; lra.
  - intros data h Hh Hs Ht Hneg.
    rewrite (harmony_of_numbers data Hh Hs Ht).
    eexists; split; [reflexivity|].
    destruct (Qle_bool 100 (h / 50 * 100)) eqn:E.
    + apply Qle_bool_iff in E. rewrite rescale_50 in E. lra.
    + rewrite third_part, !rescale_10, rescale_50. lra.
Qed.

Lemma harmony_score_bounded_witness :
  ((0 <= 35)%Q /\ (0 <= 7 <= 10)%Q /\ (0 <= 4 <= 10)%Q)
  /\ Js.Finite 0
     <= Biological.calculateHarmonyScore
          (Sample.biometric "alps" (Js.Num 60) (Js.Num 35) (Js.Num 7) (Js.Num 4))
  /\ Biological.calculateHarmonyScore
       (Sample.biometric "alps" (Js.Num 60) (Js.Num 35) (Js.Num 7) (Js.Num 4))
     <= Js.Finite 100.
Proof.
  assert (H35 : (0 <= 35)%Q) by discriminate.
  assert (H7 : (0 <= 7 <= 10)%Q) by (split; discriminate).
  assert (H4 : (0 <= 4 <= 10)%Q) by (split; discriminate).
  split; [repeat split; discriminate|].
  exact (proj1 harmony_score_bounded
           (Sample.biometric "alps" (Js.Num 60) (Js.Num 35) (Js.Num 7) (Js.Num 4))
           35 7 4 eq_refl eq_refl eq_refl H35 H7 H4)%Q.
Defined.

(** 35 ms, 7/10 and 4/10 give (70 + 70 + 60) / 3; a variability of -50
    with the worst sleep and stress gives -100 / 3. *)
Example harmony_samples :
  Biological.calculateHarmonyScore
    (Sample.biometric "alps" (Js.Num 60) (Js.Num 35) (Js.Num 7) (Js.Num 4))
  =~ Js.Finite (200 # 3)
  /\ Biological.calculateHarmonyScore
       (Sample.biometric "alps" (Js.Num 60) (Js.Num (-50)) (Js.Num 0) (Js.Num 10))
     =~ Js.Finite (-100 # 3)
  /\ Biological.calculateHarmonyScore
       (Sample.biometric "alps" (Js.Num 60) Js.Undefined (Js.Num 7) (Js.Num 4))
     = Js.NaN.
Proof. repeat split. Qed.

(* ================================================================== *)
(** * Part IX.  The "best" and "calmest" cards                          *)
(* ================================================================== *)

(** ** C8 *)

(** [find] returns the first element that passes the test. *)
Lemma find_first {A : Type} (test : A -> bool) (xs : list A) (r : A) :
  find test xs = Some r ->
  exists i,
    nth_error xs i = Some r /\ test r = true
    /\ forall j d, (j < i)%nat -> nth_error xs j = Some d -> test d = false.
Proof.
  induction xs as [|x rest IH]; simpl; [discriminate|].
  destruct (test x) eqn:E.
  - intros [= <-]. exists 0%nat. repeat split; auto. intros j d Hj. lia.
  - intros Hfind. destruct (IH Hfind) as (i & Hnth & Htest & Hbefore).
    exists (S i). repeat split; auto.
    intros [|j] d Hj; simpl.
    + intros [= <-]. exact E.
    + apply Hbefore. lia.
Qed.

Lemma find_finds {A : Type} (test : A -> bool) (xs : list A) (d : A) :
  In d xs -> test d = true -> exists r, find test xs = Some r.
Proof.
  induction xs as [|x rest IH]; simpl; [tauto|].
  intros [<-|Hin] Htest.
  - rewrite Htest. eauto.
  - destruct (test x); eauto.
Qed.

Lemma value_strict_equals_finite (v : Js.value) (m : Q) :
  Js.value_strict_equals v (Js.Finite m) = true
  <-> exists q, v = Js.Num q /\ (q == m)%Q.
Proof.
  destruct v as [| |q]; simpl; split.
  - discriminate.
  - intros (q & Hq & _); discriminate.
  - discriminate.
  - intros (q & Hq & _); discriminate.
  - intros H. exists q. split; [reflexivity | apply Qeq_bool_eq, H].
  - intros (q' & [= <-] & Hq). apply Qeq_eq_bool, Hq.
Qed.

Lemma map_ToNumber_present {A : Type} (selector : A -> Js.value) (records : list A) :
  Spec.all_present selector records ->
  map (fun d => Js.ToNumber (selector d)) records
  = map (fun d => Js.Finite (Spec.present_or_zero (selector d))) records.
Proof.
  intros Hall. apply map_ext_in. intros d Hin.
  destruct (Hall d Hin) as (q & ->). reflexivity.
Qed.

Section Extremum.
Variable A : Type.
Variable selector : A -> Js.value.
Variable records : list A.
Hypothesis nonempty : records <> [].
Hypothesis present : Spec.all_present selector records.

Lemma find_maximum_first :
  exists r,
    find (fun d => Js.value_strict_equals
                     (selector d)
                     (Js.Math_max (map (fun d => Js.ToNumber (selector d)) records)))
         records = Some r
    /\ Spec.first_maximum selector records r.
Proof.
  rewrite (map_ToNumber_present present).
  destruct (JsFacts.Math_max_greatest
              (fun d => Spec.present_or_zero (selector d)) nonempty)
    as (top & Hin & -> & Hgreatest).
  destruct (present top Hin) as (m & Hm). rewrite Hm in *. simpl in *.
  destruct (find_finds (fun d => Js.value_strict_equals (selector d) (Js.Finite m))
                       records top Hin) as (r & Hfind).
  { rewrite Hm. simpl. apply Qeq_eq_bool. reflexivity. }
  exists r. split; [exact Hfind|].
  destruct (find_first _ _ Hfind) as (i & Hnth & Htest & Hbefore).
  apply value_strict_equals_finite in Htest. destruct Htest as (q & Hq & Hqm).
  exists i, q. repeat split; auto.
  - intros d q' Hd Hq'. rewrite Hqm.
    specialize (Hgreatest d Hd). rewrite Hq' in Hgreatest. exact Hgreatest.
  - intros j d q' Hj Hd Hq' Heq.
    specialize (Hbefore j d Hj Hd). rewrite Hq' in Hbefore. simpl in Hbefore.
    rewrite Heq, Hqm in Hbefore.
    rewrite (Qeq_eq_bool m m) in Hbefore by reflexivity. discriminate.
Qed.

Lemma find_minimum_first :
  exists r,
    find (fun d => Js.value_strict_equals
                     (selector d)
                     (Js.Math_min (map (fun d => Js.ToNumber (selector d)) records)))
         records = Some r
    /\ Spec.first_minimum selector records r.
Proof.
  rewrite (map_ToNumber_present present).
  destruct (JsFacts.Math_min_least
              (fun d => Spec.present_or_zero (selector d)) nonempty)
    as (bottom & Hin & -> & Hleast).
  destruct (present bottom Hin) as (m & Hm). rewrite Hm in *. simpl in *.
  destruct (find_finds (fun d => Js.value_strict_equals (selector d) (Js.Finite m))
                       records bottom Hin) as (r & Hfind).
  { rewrite Hm. simpl. apply Qeq_eq_bool. reflexivity. }
  exists r. split; [exact Hfind|].
  destruct (find_first _ _ Hfind) as (i & Hnth & Htest & Hbefore).
  apply value_strict_equals_finite in Htest. destruct Htest as (q & Hq & Hqm).
  exists i, q. repeat split; auto.
  - intros d q' Hd Hq'. rewrite Hqm.
    specialize (Hleast d Hd). rewrite Hq' in Hleast. exact Hleast.
  - intros j d q' Hj Hd Hq' Heq.
    specialize (Hbefore j d Hj Hd). rewrite Hq' in Hbefore. simpl in Hbefore.
    rewrite Heq, Hqm in Hbefore.
    rewrite (Qeq_eq_bool m m) in Hbefore by reflexivity. discriminate.
Qed.

End Extremum.

(** C8, as amended.  On the empty sequence the cards find nothing
    ([undefined], "No data available").  On every nonempty sequence
    whose records all have the selected field, "Best Recovery" (and
    "Best Sleep") is the first record, in iteration order, whose value
    equals the overall maximum, and "Calmest Environment" the first one
    whose value equals the overall minimum: the first on ties, not the
    last. *)
Theorem extremum_first_on_ties :
  (Biological.bestRecovery [] = None
   /\ Biological.bestSleepLocation [] = None
   /\ Biological.calmestLocation [] = None)
  /\ (forall harmonyData : list Biological.HarmonyZone,
         harmonyData <> [] ->
         Spec.all_present Biological.hrv harmonyData ->
         exists r, Biological.bestRecovery harmonyData = Some r
                   /\ Spec.first_maximum Biological.hrv harmonyData r)
  /\ (forall harmonyData : list Biological.HarmonyZone,
         harmonyData <> [] ->
         Spec.all_present Biological.sleep_quality harmonyData ->
         exists r, Biological.bestSleepLocation harmonyData = Some r
                   /\ Spec.first_maximum Biological.sleep_quality harmonyData r)
  /\ (forall harmonyData : list Biological.HarmonyZone,
         harmonyData <> [] ->
         Spec.all_present Biological.stress_level harmonyData ->
         exists r, Biological.calmestLocation harmonyData = Some r
                   /\ Spec.first_minimum Biological.stress_level harmonyData r).
Proof.
  split; [repeat split|]. split; [|split].
  - intros harmonyData Hne Hall. apply find_maximum_first; assumption.
  - intros harmonyData Hne Hall. apply find_maximum_first; assumption.
  - intros harmonyData Hne Hall. apply find_minimum_first; assumption.
Qed.

Lemma sample_zones_present :
  Spec.all_present Biological.hrv Sample.zones.
Proof.
  intros d [<-|[<-|[<-|[<-|[]]]]]; eexists; reflexivity.
Defined.

Lemma extremum_first_on_ties_witness :
  (Sample.zones <> [] /\ Spec.all_present Biological.hrv Sample.zones)
  /\ exists r, Biological.bestRecovery Sample.zones = Some r
               /\ Spec.first_maximum Biological.hrv Sample.zones r.
Proof.
  split; [split; [discriminate | exact sample_zones_present]|].
  apply (proj1 (proj2 extremum_first_on_ties) Sample.zones);
    [discriminate | exact sample_zones_present].
Defined.

(** On the values 3, 5, 5, 1 the record at index 1 is returned, not the
    one at index 2; the calmest record is at index 1 as well. *)
Example extremum_samples :
  Biological.bestRecovery Sample.zones = nth_error Sample.zones 1
  /\ Biological.bestRecovery Sample.zones <> nth_error Sample.zones 2
  /\ Biological.calmestLocation Sample.zones = nth_error Sample.zones 1.
Proof. repeat split. discriminate. Qed.

(** The claim as first stated, "for every sequence", fails when a record
    lacks the field: [Math.max(undefined, 40)] is [NaN], which no value
    equals, so a nonempty sequence yields [undefined]. *)
Lemma extremum_undefined_on_missing_value :
  ~ (forall harmonyData : list Biological.HarmonyZone,
        (harmonyData = [] -> Biological.bestRecovery harmonyData = None)
        /\ (harmonyData <> [] ->
            exists r, Biological.bestRecovery harmonyData = Some r
                      /\ Spec.first_maximum Biological.hrv harmonyData r)).
Proof.
  intros claim.
  destruct (claim Sample.harmonyData) as [_ Hsome].
  destruct Hsome as (r & Hr & _); [discriminate|].
  discriminate Hr.
Qed.

(** The two sample records reach the cards as two rows, the first with
    its three fields [undefined]; every card then shows "No data
    available", though the second row has 40, 8 and 2. *)
Example cards_on_sample_with_gap :
  map Biological.hrv Sample.harmonyData = [Js.Undefined; Js.Num 40]
  /\ Biological.bestRecovery Sample.harmonyData = None
  /\ Biological.bestSleepLocation Sample.harmonyData = None
  /\ Biological.calmestLocation Sample.harmonyData = None.
Proof. repeat split. Qed.

(* ================================================================== *)
(** * Part X.  The journal: emotion statistics and mood trend           *)
(* ================================================================== *)

(** ** C9 *)

Lemma Emotion_beq_eq (a b : Emotion) : Emotion_beq a b = true <-> a = b.
Proof.
  split.
  - apply internal_Emotion_dec_bl.
  - apply internal_Emotion_dec_lb.
Qed.

Lemma Emotion_beq_neq (a b : Emotion) : Emotion_beq a b = false <-> a <> b.
Proof.
  rewrite <- Emotion_beq_eq. destruct (Emotion_beq a b); split; congruence.
Qed.

Lemma getCount_setCount_same (counts : Journal.Counts) (e : Emotion) (n : nat) :
  Journal.getCount (Journal.setCount counts e n) e = Some n.
Proof.
  induction counts as [|[key m] rest IH]; simpl.
  - rewrite (proj2 (Emotion_beq_eq e e) eq_refl). reflexivity.
  - destruct (Emotion_beq key e) eqn:E; simpl; rewrite E; auto.
Qed.

Lemma getCount_setCount_other (counts : Journal.Counts) (e e' : Emotion) (n : nat) :
  e <> e' ->
  Journal.getCount (Journal.setCount counts e n) e' = Journal.getCount counts e'.
Proof.
  intros Hne. induction counts as [|[key m] rest IH]; simpl.
  - rewrite (proj2 (Emotion_beq_neq e e') Hne). reflexivity.
  - destruct (Emotion_beq key e) eqn:E; simpl.
    + apply Emotion_beq_eq in E. subst key.
      rewrite (proj2 (Emotion_beq_neq e e') Hne). reflexivity.
    + rewrite IH. reflexivity.
Qed.

Lemma recorded_increment (counts : Journal.Counts) (e e' : Emotion) :
  Spec.recorded (Journal.increment counts e) e'
  = (Spec.recorded counts e' + if Emotion_eq_dec e e' then 1 else 0)%nat.
Proof.
  unfold Spec.recorded, Journal.increment.
  destruct (Emotion_eq_dec e e') as [<-|Hne].
  - rewrite getCount_setCount_same. reflexivity.
  - rewrite (getCount_setCount_other _ _ Hne). lia.
Qed.

Lemma recorded_tags (tags : list Emotion) (counts : Journal.Counts) (e' : Emotion) :
  Spec.recorded (fold_left Journal.increment tags counts) e'
  = (Spec.recorded counts e' + count_occ Emotion_eq_dec tags e')%nat.
Proof.
  revert counts. induction tags as [|e rest IH]; intros counts; simpl.
  - lia.
  - rewrite IH, recorded_increment.
    destruct (Emotion_eq_dec e e'); lia.
Qed.

Lemma recorded_entries (entries : list JournalEntry.t) (counts : Journal.Counts)
    (e' : Emotion) :
  Spec.recorded
    (fold_left (fun counts entry =>
                  match JournalEntry.emotions entry with
                  | Some tags => fold_left Journal.increment tags counts
                  | None => counts
                  end)
               entries counts) e'
  = (Spec.recorded counts e' + Spec.occurrences e' entries)%nat.
Proof.
  revert counts. induction entries as [|entry rest IH]; intros counts; simpl.
  - lia.
  - rewrite IH. destruct (JournalEntry.emotions entry) as [tags|].
    + rewrite recorded_tags. lia.
    + lia.
Qed.

(** Every tag is a key of [emotionCounts] at most once. *)
Lemma keys_setCount (counts : Journal.Counts) (e : Emotion) (n : nat) (k : Emotion) :
  In k (map fst (Journal.setCount counts e n)) <-> k = e \/ In k (map fst counts).
Proof.
  induction counts as [|[key m] rest IH]; simpl.
  - intuition.
  - destruct (Emotion_beq key e) eqn:E; simpl.
    + apply Emotion_beq_eq in E. subst key. intuition.
    + rewrite IH. intuition.
Qed.

Lemma NoDup_setCount (counts : Journal.Counts) (e : Emotion) (n : nat) :
  NoDup (map fst counts) -> NoDup (map fst (Journal.setCount counts e n)).
Proof.
  induction counts as [|[key m] rest IH]; simpl; intros Hnd.
  - constructor; [intros [] | constructor].
  - inversion Hnd as [|? ? Hnotin Hrest]; subst.
    destruct (Emotion_beq key e) eqn:E; simpl.
    + constructor; assumption.
    + constructor; [|apply IH, Hrest].
      rewrite keys_setCount. intros [->|Hin]; [|contradiction].
      apply Emotion_beq_neq in E. congruence.
Qed.

Lemma NoDup_emotionCounts (entries : list JournalEntry.t) :
  NoDup (map fst (Journal.emotionCounts entries)).
Proof.
  unfold Journal.emotionCounts.
  assert (Htags : forall tags counts,
             NoDup (map fst counts) ->
             NoDup (map fst (fold_left Journal.increment tags counts))).
  { induction tags as [|e rest IH]; intros counts Hnd; simpl; [exact Hnd|].
    apply IH. unfold Journal.increment. apply NoDup_setCount, Hnd. }
  assert (Hentries : forall counts,
             NoDup (map fst counts) ->
             NoDup (map fst
                      (fold_left (fun counts entry =>
                                    match JournalEntry.emotions entry with
                                    | Some tags => fold_left Journal.increment tags counts
                                    | None => counts
                                    end)
                                 entries counts))).
  { induction entries as [|entry rest IH]; intros counts Hnd; simpl; [exact Hnd|].
    apply IH. destruct (JournalEntry.emotions entry); [apply Htags|]; exact Hnd. }
  apply Hentries. constructor.
Qed.

Lemma getCount_of_member (counts : Journal.Counts) (e : Emotion) (n : nat) :
  NoDup (map fst counts) -> In (e, n) counts -> Journal.getCount counts e = Some n.
Proof.
  induction counts as [|[key m] rest IH]; simpl; intros Hnd Hin; [contradiction|].
  inversion Hnd as [|? ? Hnotin Hrest]; subst.
  destruct Hin as [[= -> ->]|Hin].
  - rewrite (proj2 (Emotion_beq_eq e e) eq_refl). reflexivity.
  - destruct (Emotion_beq key e) eqn:E.
    + apply Emotion_beq_eq in E. subst key.
      exfalso. apply Hnotin. apply (in_map fst) in Hin. exact Hin.
    + apply IH; assumption.
Qed.

(** Each pair of [emotionCounts] holds the number of times its tag occurs. *)
Lemma emotionCounts_occurrences (entries : list JournalEntry.t) (e : Emotion) (n : nat) :
  In (e, n) (Journal.emotionCounts entries) -> n = Spec.occurrences e entries.
Proof.
  intros Hin.
  pose proof (getCount_of_member _ _ _ (NoDup_emotionCounts entries) Hin) as Hget.
  pose proof (recorded_entries entries [] e) as Hrec.
  fold (Journal.emotionCounts entries) in Hrec.
  unfold Spec.recorded in Hrec at 1. rewrite Hget in Hrec. exact Hrec.
Qed.

(** The stable sort permutes its argument, and with the comparator
    [b - a] on counts it returns them in non-increasing order. *)
Lemma before_permutation {A : Type} (compare : A -> A -> Z) (x : A) (xs : list A) :
  Permutation (Journal.before compare x xs) (x :: xs).
Proof.
  induction xs as [|y rest IH]; simpl; [apply Permutation_refl|].
  destruct (0 <? compare x y)%Z.
  - apply perm_trans with (y :: x :: rest); [now apply perm_skip | apply perm_swap].
  - apply Permutation_refl.
Qed.

Lemma sort_permutation {A : Type} (compare : A -> A -> Z) (xs : list A) :
  Permutation (Journal.sort compare xs) xs.
Proof.
  induction xs as [|x rest IH]; simpl; [constructor|].
  apply perm_trans with (x :: Journal.sort compare rest);
    [apply before_permutation | now apply perm_skip].
Qed.

Lemma before_descending (x : Emotion * nat) (xs : list (Emotion * nat)) :
  StronglySorted Spec.by_count_descending xs ->
  StronglySorted Spec.by_count_descending
    (Journal.before (fun '(_, a) '(_, b) => (Z.of_nat b - Z.of_nat a)%Z) x xs).
Proof.
  induction xs as [|y rest IH]; intros Hsorted; simpl.
  - repeat constructor.
  - apply StronglySorted_inv in Hsorted. destruct Hsorted as [Hrest Hy].
    destruct x as [ex a], y as [ey b].
    destruct (0 <? Z.of_nat b - Z.of_nat a)%Z eqn:E.
    + apply Z.ltb_lt in E. constructor; [apply IH, Hrest|].
      apply (Permutation_Forall (Permutation_sym (before_permutation _ _ _))).
      constructor; [|exact Hy].
      unfold Spec.by_count_descending; simpl. lia.
    + apply Z.ltb_ge in E. constructor; [constructor; assumption|].
      constructor.
      * unfold Spec.by_count_descending; simpl. lia.
      * revert Hy. apply Forall_impl. intros z.
        unfold Spec.by_count_descending; simpl. lia.
Qed.

Lemma sort_descending (xs : list (Emotion * nat)) :
  StronglySorted Spec.by_count_descending
    (Journal.sort (fun '(_, a) '(_, b) => (Z.of_nat b - Z.of_nat a)%Z) xs).
Proof.
  induction xs as [|x rest IH]; simpl; [constructor | apply before_descending, IH].
Qed.

Lemma slice0_length {A : Type} (n : nat) (xs : list A) :
  (List.length (Journal.slice0 n xs) <= n)%nat.
Proof.
  unfold Journal.slice0. revert xs. induction n as [|n IH]; intros [|x rest]; simpl;
    try lia. specialize (IH rest). lia.
Qed.

Lemma slice0_In {A : Type} (n : nat) (xs : list A) (x : A) :
  In x (Journal.slice0 n xs) -> In x xs.
Proof.
  unfold Journal.slice0. revert xs. induction n as [|n IH]; intros [|y rest]; simpl;
    try tauto. intros [->|Hin]; [now left | right; apply IH, Hin].
Qed.

Lemma slice0_sorted {A : Type} (R : A -> A -> Prop) (n : nat) (xs : list A) :
  StronglySorted R xs -> StronglySorted R (Journal.slice0 n xs).
Proof.
  unfold Journal.slice0. revert xs.
  induction n as [|n IH]; intros [|y rest] Hsorted; simpl; try constructor.
  - apply IH. now apply StronglySorted_inv in Hsorted.
  - apply StronglySorted_inv in Hsorted. destruct Hsorted as [_ Hy].
    rewrite Forall_forall in *. intros z Hz. apply Hy.
    apply (slice0_In n rest z Hz).
Qed.

(** When no entry lists a tag twice, the occurrences of a tag are the
    entries that carry it. *)
Lemma count_occ_of_set (tags : list Emotion) (e : Emotion) :
  NoDup tags ->
  count_occ Emotion_eq_dec tags e
  = if existsb (Emotion_beq e) tags then 1%nat else 0%nat.
Proof.
  intros Hnd. destruct (existsb (Emotion_beq e) tags) eqn:E.
  - apply existsb_exists in E. destruct E as (x & Hin & Hx).
    apply Emotion_beq_eq in Hx. subst x.
    apply (proj1 (NoDup_count_occ' Emotion_eq_dec tags) Hnd e Hin).
  - apply count_occ_not_In. intros Hin.
    assert (existsb (Emotion_beq e) tags = true) as Habs.
    { apply existsb_exists. exists e. split; [exact Hin|]. now apply Emotion_beq_eq. }
    congruence.
Qed.

Lemma occurrences_of_sets (entries : list JournalEntry.t) (e : Emotion) :
  Spec.emotions_are_sets entries ->
  Spec.occurrences e entries = Spec.entries_with e entries.
Proof.
  unfold Spec.entries_with.
  induction entries as [|entry rest IH]; intros Hsets; simpl; [reflexivity|].
  rewrite IH by (intros en tags Hin; apply Hsets; now right).
  unfold Spec.has_emotion at 2.
  destruct (JournalEntry.emotions entry) as [tags|] eqn:Htags; simpl.
  - rewrite (count_occ_of_set e (Hsets entry tags (or_introl eq_refl) Htags)).
    destruct (existsb (Emotion_beq e) tags); reflexivity.
  - reflexivity.
Qed.

(** X22.  The entry form keeps the chosen tags a set: it starts from [[]] and
    [toggleEmotion] never lists a tag twice. *)
Lemma toggleEmotion_keeps_set (emotions : list Emotion) (emotion : Emotion) :
  NoDup emotions -> NoDup (Journal.toggleEmotion emotions emotion).
Proof.
  intros Hnd. unfold Journal.toggleEmotion.
  destruct (existsb (Emotion_beq emotion) emotions) eqn:E.
  - apply NoDup_filter, Hnd.
  - apply NoDup_app; [exact Hnd | repeat constructor; intros [] |].
    intros x Hx [<-|[]].
    assert (existsb (Emotion_beq emotion) emotions = true) as Habs.
    { apply existsb_exists. exists emotion. split; [exact Hx|]. now apply Emotion_beq_eq. }
    congruence.
Qed.

(** C9.  For every sequence of journal entries, [getEmotionStats] returns
    at most 6 (emotion, count) pairs, in non-increasing order of count;
    each count is the number of times the emotion is listed over all
    entries, which, the [emotions] of an entry being a set, is the
    number of entries whose [emotions] contain it. *)
Theorem emotion_stats_top_six :
  forall journalEntries : list JournalEntry.t,
    let stats := Journal.getEmotionStats journalEntries in
    (List.length stats <= 6)%nat
    /\ StronglySorted Spec.by_count_descending stats
    /\ (forall emotion count,
           In (emotion, count) stats ->
           count = Spec.occurrences emotion journalEntries)
    /\ (Spec.emotions_are_sets journalEntries ->
        forall emotion count,
          In (emotion, count) stats ->
          count = Spec.entries_with emotion journalEntries).
Proof.
  intros journalEntries stats.
  assert (Hocc : forall emotion count,
             In (emotion, count) stats ->
             count = Spec.occurrences emotion journalEntries).
  { intros emotion count Hin. apply emotionCounts_occurrences.
    apply slice0_In in Hin.
    apply (Permutation_in _ (sort_permutation _ _) Hin). }
  split; [apply slice0_length|]. split; [apply slice0_sorted, sort_descending|].
  split; [exact Hocc|].
  intros Hsets emotion count Hin.
  rewrite <- (occurrences_of_sets emotion Hsets). apply Hocc, Hin.
Qed.

Lemma sample_journal_sets : Spec.emotions_are_sets Sample.journal.
Proof.
  intros entry tags Hin Htags.
  destruct Hin as [<-|[<-|[<-|[<-|[<-|[<-|[]]]]]]]; simpl in Htags;
    try discriminate; injection Htags as <-;
    repeat (constructor; [simpl; intuition discriminate|]); constructor.
Defined.

Lemma emotion_stats_top_six_witness :
  Spec.emotions_are_sets Sample.journal
  /\ forall emotion count,
      In (emotion, count) (Journal.getEmotionStats Sample.journal) ->
      count = Spec.entries_with emotion Sample.journal.
Proof.
  split; [exact sample_journal_sets|].
  exact (proj2 (proj2 (proj2 (emotion_stats_top_six Sample.journal)))
               sample_journal_sets).
Defined.

(** Eight tags occur in the sample; the six shown start with the most
    frequent, and ties keep the order of first mention. *)
Example emotion_stats_sample :
  Journal.getEmotionStats Sample.journal
  = [(calm, 3); (joy, 2); (wonder, 2); (fear, 1); (peace, 1); (stress, 1)]%nat.
Proof. reflexivity. Qed.

(** ** C10 *)

Lemma ToBoolean_present_and_nonzero (v : Js.value) :
  Js.ToBoolean v = true <-> Spec.present_and_nonzero v.
Proof.
  unfold Spec.present_and_nonzero. destruct v as [| |q]; simpl; split.
  - discriminate.
  - intros (q & Hq & _); discriminate.
  - discriminate.
  - intros (q & Hq & _); discriminate.
  - intros H. exists q. split; [reflexivity|].
    intros Hzero. apply Qeq_eq_bool in Hzero. rewrite Hzero in H. discriminate.
  - intros (q' & [= <-] & Hnz).
    destruct (Qeq_bool q 0) eqn:E; [|reflexivity].
    apply Qeq_bool_eq in E. contradiction.
Qed.

Lemma selected_functional {A : Type} (P : A -> Prop) (xs kept kept' : list A) :
  Spec.selected P kept xs -> Spec.selected P kept' xs -> kept = kept'.
Proof.
  intros H. revert kept'. induction H as [|x kept xs HP _ IH|x kept xs HP _ IH];
    intros kept' H'; inversion H'; subst; try contradiction.
  - reflexivity.
  - f_equal. apply IH. assumption.
  - apply IH. assumption.
Qed.

Lemma filter_selected {A : Type} (test : A -> bool) (P : A -> Prop) (xs : list A) :
  (forall x, test x = true <-> P x) -> Spec.selected P (filter test xs) xs.
Proof.
  intros Htest. induction xs as [|x rest IH]; simpl; [constructor|].
  destruct (test x) eqn:E.
  - constructor; [apply Htest, E | exact IH].
  - constructor; [|exact IH]. intros HP. apply Htest in HP. congruence.
Qed.

(** One point of the mood trend: the callback of [map] returns [row] at
    [entry] exactly when [row] has the label of the entry's date, its mood
    score and the name of its location. *)
Lemma mood_point_of_entry (locations : list Location.t)
    (format_MMM_d : Js.text -> option string)
    (entry : JournalEntry.t) (row : Journal.MoodPoint) :
  match format_MMM_d (JournalEntry.date entry) with
  | Some label =>
      Some {| Journal.date := label;
              Journal.mood := JournalEntry.mood_score entry;
              Journal.location :=
                Journal.getLocationName locations (JournalEntry.location_id entry) |}
  | None => None
  end = Some row
  <-> Spec.mood_point locations format_MMM_d entry row.
Proof.
  unfold Spec.mood_point. destruct row as [date mood location]. simpl.
  destruct (format_MMM_d (JournalEntry.date entry)) as [label|].
  - split.
    + intros [= -> <- <-]. repeat split.
    + intros ([= ->] & -> & ->). reflexivity.
  - split; [discriminate|]. intros (H & _). discriminate.
Qed.

(** C10.  For every sequence of journal entries, [getMoodTrend] keeps
    exactly the entries whose [mood_score] is present and nonzero, in
    their input order: an entry without a mood score, or with the score
    0, is left out rather than counted as zero, and its date is never
    formatted.  The call returns the points of the kept entries, one for
    each and in the same order, and it does return them when the date of
    every kept entry formats; it throws exactly when the date of some
    kept entry does not. *)
Theorem mood_trend_keeps_scored_entries :
  forall (journalEntries : list JournalEntry.t) (locations : list Location.t)
         (format_MMM_d : Js.text -> option string),
  exists kept : list JournalEntry.t,
    Spec.selected (fun entry => Spec.present_and_nonzero (JournalEntry.mood_score entry))
                  kept journalEntries
    /\ (forall rows : list Journal.MoodPoint,
          Journal.getMoodTrend journalEntries locations format_MMM_d = Some rows
          <-> Forall2 (Spec.mood_point locations format_MMM_d) kept rows)
    /\ ((forall entry, In entry kept ->
                       format_MMM_d (JournalEntry.date entry) <> None) ->
        exists rows : list Journal.MoodPoint,
          Journal.getMoodTrend journalEntries locations format_MMM_d = Some rows)
    /\ (Journal.getMoodTrend journalEntries locations format_MMM_d = None
        <-> exists entry, In entry kept
                          /\ format_MMM_d (JournalEntry.date entry) = None).
Proof.
  intros journalEntries locations format_MMM_d.
  exists (filter (fun entry => Js.ToBoolean (JournalEntry.mood_score entry)) journalEntries).
  unfold Journal.getMoodTrend.
  set (kept := filter _ journalEntries).
  split; [|split; [|split]].
  - apply filter_selected. intros entry. apply ToBoolean_present_and_nonzero.
  - intros rows. rewrite JsArrayFacts.map_throwing_Some. split.
    + apply Forall2_impl. intros entry row. apply mood_point_of_entry.
    + apply Forall2_impl. intros entry row. apply mood_point_of_entry.
  - intros Hdates. apply JsArrayFacts.map_throwing_defined.
    intros entry Hin Hthrow. apply (Hdates entry Hin).
    destruct (format_MMM_d (JournalEntry.date entry)); [discriminate | reflexivity].
  - rewrite JsArrayFacts.map_throwing_None. split.
    + intros (entry & Hin & Hthrow). exists entry. split; [exact Hin|].
      destruct (format_MMM_d (JournalEntry.date entry)); [discriminate | reflexivity].
    + intros (entry & Hin & Hthrow). exists entry. split; [exact Hin|].
      rewrite Hthrow. reflexivity.
Qed.

(** C10 on the six sample entries. *)
Lemma mood_trend_keeps_scored_entries_witness :
  exists kept : list JournalEntry.t,
    Spec.selected (fun entry => Spec.present_and_nonzero (JournalEntry.mood_score entry))
                  kept Sample.journal
    /\ (forall rows : list Journal.MoodPoint,
          Journal.getMoodTrend Sample.journal Sample.places Sample.label = Some rows
          <-> Forall2 (Spec.mood_point Sample.places Sample.label) kept rows)
    /\ ((forall entry, In entry kept ->
                       Sample.label (JournalEntry.date entry) <> None) ->
        exists rows : list Journal.MoodPoint,
          Journal.getMoodTrend Sample.journal Sample.places Sample.label = Some rows)
    /\ (Journal.getMoodTrend Sample.journal Sample.places Sample.label = None
        <-> exists entry, In entry kept
                          /\ Sample.label (JournalEntry.date entry) = None).
Proof.
  exact (mood_trend_keeps_scored_entries Sample.journal Sample.places Sample.label).
Defined.

(** Of the six sample entries, those scored 8, 6 and 3 remain; the ones
    without a score, with [null] and with 0 are left out. *)
Example mood_trend_sample :
  option_map (map Journal.mood)
             (Journal.getMoodTrend Sample.journal Sample.places Sample.label)
  = Some [Js.Num 8; Js.Num 6; Js.Num 3].
Proof. reflexivity. Qed.

(** An entry without a mood score is never formatted: its missing date
    does no harm, whereas the missing date of a scored entry makes the
    call throw. *)
Example mood_trend_sample_without_date :
  let undated (mood : Js.value) :=
    JournalEntry.make Js.NoText (Js.Str "alps") Js.NoText Js.NoText Js.NoText None mood
                      false Js.NoText Js.NoText in
  option_map (map Journal.mood)
             (Journal.getMoodTrend (undated Js.Undefined :: Sample.journal)
                                   Sample.places Sample.label)
  = Some [Js.Num 8; Js.Num 6; Js.Num 3]
  /\ Journal.getMoodTrend (Sample.journal ++ [undated (Js.Num 7)])%list
                          Sample.places Sample.label
     = None.
Proof. split; reflexivity. Qed.

(* ================================================================== *)
(** * Part XI.  More on the biological page                             *)
(* ================================================================== *)

(** ** The harmony score as a function of its three inputs *)

(** X6.  The score does not decrease when the variability or the sleep quality
    goes up, nor when the stress level goes down. *)
Theorem harmony_score_monotone :
  forall (d1 d2 : BiologicalData.t) (h1 s1 t1 h2 s2 t2 : Q),
    BiologicalData.heart_rate_variability d1 = Js.Num h1 ->
    BiologicalData.sleep_quality_score d1 = Js.Num s1 ->
    BiologicalData.stress_level d1 = Js.Num t1 ->
    BiologicalData.heart_rate_variability d2 = Js.Num h2 ->
    BiologicalData.sleep_quality_score d2 = Js.Num s2 ->
    BiologicalData.stress_level d2 = Js.Num t2 ->
    (h1 <= h2)%Q -> (s1 <= s2)%Q -> (t2 <= t1)%Q ->
    Biological.calculateHarmonyScore d1 <= Biological.calculateHarmonyScore d2.
Proof.
  intros d1 d2 h1 s1 t1 h2 s2 t2 Hh1 Hs1 Ht1 Hh2 Hs2 Ht2 Hh Hs Ht.
  rewrite (harmony_of_numbers d1 Hh1 Hs1 Ht1), (harmony_of_numbers d2 Hh2 Hs2 Ht2).
  apply JsFacts.le_finite.
  destruct (Qle_bool 100 (h1 / 50 * 100)) eqn:E1;
    destruct (Qle_bool 100 (h2 / 50 * 100)) eqn:E2;
    try (apply Qle_bool_iff in E1; rewrite rescale_50 in E1);
    try (apply JsFacts.Qle_bool_false in E1; rewrite rescale_50 in E1);
    try (apply Qle_bool_iff in E2; rewrite rescale_50 in E2);
    try (apply JsFacts.Qle_bool_false in E2; rewrite rescale_50 in E2);
    rewrite !third_part, !rescale_10, ?rescale_50; lra.
Qed.

Lemma harmony_score_monotone_witness :
  ((20 <= 35)%Q /\ (6 <= 7)%Q /\ (4 <= 5)%Q)
  /\ Biological.calculateHarmonyScore
       (Sample.biometric "alps" (Js.Num 60) (Js.Num 20) (Js.Num 6) (Js.Num 5))
     <= Biological.calculateHarmonyScore
          (Sample.biometric "alps" (Js.Num 60) (Js.Num 35) (Js.Num 7) (Js.Num 4)).
Proof.
  assert (Hh : (20 <= 35)%Q) by discriminate.
  assert (Hs : (6 <= 7)%Q) by discriminate.
  assert (Ht : (4 <= 5)%Q) by discriminate.
  split; [repeat split; assumption|].
  exact (harmony_score_monotone
           (Sample.biometric "alps" (Js.Num 60) (Js.Num 20) (Js.Num 6) (Js.Num 5))
           (Sample.biometric "alps" (Js.Num 60) (Js.Num 35) (Js.Num 7) (Js.Num 4))
           eq_refl eq_refl eq_refl eq_refl eq_refl eq_refl Hh Hs Ht).
Defined.

(** X7.  From a variability of 50 on, the variability no longer matters: two
    records that agree on sleep and stress score the same. *)
Theorem harmony_score_saturates :
  forall (d1 d2 : BiologicalData.t) (h1 h2 s t : Q),
    BiologicalData.heart_rate_variability d1 = Js.Num h1 ->
    BiologicalData.heart_rate_variability d2 = Js.Num h2 ->
    BiologicalData.sleep_quality_score d1 = Js.Num s ->
    BiologicalData.sleep_quality_score d2 = Js.Num s ->
    BiologicalData.stress_level d1 = Js.Num t ->
    BiologicalData.stress_level d2 = Js.Num t ->
    (50 <= h1)%Q -> (50 <= h2)%Q ->
    Biological.calculateHarmonyScore d1 =~ Biological.calculateHarmonyScore d2.
Proof.
  intros d1 d2 h1 h2 s t Hh1 Hh2 Hs1 Hs2 Ht1 Ht2 H1 H2.
  rewrite (harmony_of_numbers d1 Hh1 Hs1 Ht1), (harmony_of_numbers d2 Hh2 Hs2 Ht2).
  assert (E1 : Qle_bool 100 (h1 / 50 * 100) = true).
  { apply Qle_bool_iff. rewrite rescale_50. lra. }
  assert (E2 : Qle_bool 100 (h2 / 50 * 100) = true).
  { apply Qle_bool_iff. rewrite rescale_50. lra. }
  rewrite E1, E2. simpl. reflexivity.
Qed.

Lemma harmony_score_saturates_witness :
  ((50 <= 50)%Q /\ (50 <= 120)%Q)
  /\ Biological.calculateHarmonyScore
       (Sample.biometric "alps" (Js.Num 60) (Js.Num 50) (Js.Num 7) (Js.Num 4))
     =~ Biological.calculateHarmonyScore
          (Sample.biometric "fjord" (Js.Num 75) (Js.Num 120) (Js.Num 7) (Js.Num 4)).
Proof.
  assert (H1 : (50 <= 50)%Q) by discriminate.
  assert (H2 : (50 <= 120)%Q) by discriminate.
  split; [split; assumption|].
  exact (harmony_score_saturates
           (Sample.biometric "alps" (Js.Num 60) (Js.Num 50) (Js.Num 7) (Js.Num 4))
           (Sample.biometric "fjord" (Js.Num 75) (Js.Num 120) (Js.Num 7) (Js.Num 4))
           eq_refl eq_refl eq_refl eq_refl eq_refl eq_refl H1 H2).
Defined.

Lemma add_NaN_r (a : Js.number) : a + Js.NaN = Js.NaN.
Proof. destruct a; reflexivity. Qed.

Lemma add_NaN_l (a : Js.number) : Js.NaN + a = Js.NaN.
Proof. reflexivity. Qed.

Lemma div_NaN_l (a : Js.number) : Js.NaN / a = Js.NaN.
Proof. reflexivity. Qed.

(** X8.  A record that lacks one of the three inputs has no score: the result
    is [NaN], whatever the other two are. *)
Theorem harmony_score_of_incomplete_record :
  forall data : BiologicalData.t,
    BiologicalData.heart_rate_variability data = Js.Undefined
    \/ BiologicalData.sleep_quality_score data = Js.Undefined
    \/ BiologicalData.stress_level data = Js.Undefined ->
    Biological.calculateHarmonyScore data = Js.NaN.
Proof.
  intros data H. unfold Biological.calculateHarmonyScore.
  destruct H as [H|[H|H]]; rewrite H; cbn [Js.ToNumber].
  - reflexivity.
  - change (Js.NaN / Js.Finite 10 * Js.Finite 100) with Js.NaN.
    rewrite add_NaN_r. reflexivity.
  - change ((Js.Finite 10 - Js.NaN) / Js.Finite 10 * Js.Finite 100) with Js.NaN.
    rewrite add_NaN_r. reflexivity.
Qed.

Lemma harmony_score_of_incomplete_record_witness :
  Biological.calculateHarmonyScore
    (Sample.biometric "alps" (Js.Num 60) (Js.Num 35) Js.Undefined (Js.Num 4))
  = Js.NaN.
Proof.
  apply harmony_score_of_incomplete_record. right; left. reflexivity.
Defined.

(** ** The colour of a stress level *)

(** X9.  Numbers up to 3 are painted sage, those above 3 and up to 6 gold, the
    others terracotta; a row without stress level is painted terracotta,
    like the highest stress, and one with [null] sage, like the lowest. *)
Theorem stress_colour_bands :
  (forall q : Q,
      (Biological.getStressColor (Js.Num q) = "#9caf88" <-> (q <= 3)%Q)
      /\ (Biological.getStressColor (Js.Num q) = "#d4af37" <-> (3 < q)%Q /\ (q <= 6)%Q)
      /\ (Biological.getStressColor (Js.Num q) = "#c65d07" <-> (6 < q)%Q))
  /\ Biological.getStressColor Js.Undefined = "#c65d07"
  /\ Biological.getStressColor Js.Null = "#9caf88".
Proof.
  split; [|split; reflexivity].
  intros q. unfold Biological.getStressColor. cbn [Js.ToNumber Js.leb].
  destruct (Qle_bool q 3) eqn:E3; destruct (Qle_bool q 6) eqn:E6;
    try (apply Qle_bool_iff in E3); try (apply JsFacts.Qle_bool_false in E3);
    try (apply Qle_bool_iff in E6); try (apply JsFacts.Qle_bool_false in E6);
    repeat split; intros; try discriminate; try reflexivity; try lra;
    try (destruct H; lra).
Qed.

(* ================================================================== *)
(** * Part XII.  More on the statistics cards                           *)
(* ================================================================== *)

Lemma same_finite_inv (a : Js.number) (q : Q) :
  a =~ Js.Finite q -> exists q', a = Js.Finite q' /\ (q' == q)%Q.
Proof. destruct a; simpl; try contradiction. intros H. eauto. Qed.

Lemma count_positive {A : Type} (xs : list A) :
  xs <> [] -> (0 < inject_Z (Z.of_nat (List.length xs)))%Q.
Proof.
  intros Hne. destruct xs as [|x rest]; [congruence|].
  unfold Qlt; simpl. lia.
Qed.

Lemma total_lower_bound {A : Type} (field : A -> Js.value) (records : list A) (lo : Q) :
  (forall d, In d records -> (lo <= Spec.present_or_zero (field d))%Q) ->
  (lo * inject_Z (Z.of_nat (List.length records)) <= Spec.total field records)%Q.
Proof.
  induction records as [|d rest IH]; intros Hlo.
  - simpl. rewrite Qmult_0_r. apply Qle_refl.
  - cbn [List.length Spec.total]. rewrite Nat2Z.inj_succ, <- Z.add_1_r, inject_Z_plus.
    assert (H1 : (lo <= Spec.present_or_zero (field d))%Q) by (apply Hlo; now left).
    assert (H2 : (lo * inject_Z (Z.of_nat (List.length rest))
                  <= Spec.total field rest)%Q).
    { apply IH. intros d' Hin. apply Hlo. now right. }
    unfold inject_Z at 2. lra.
Qed.

Lemma total_upper_bound {A : Type} (field : A -> Js.value) (records : list A) (hi : Q) :
  (forall d, In d records -> (Spec.present_or_zero (field d) <= hi)%Q) ->
  (Spec.total field records <= hi * inject_Z (Z.of_nat (List.length records)))%Q.
Proof.
  induction records as [|d rest IH]; intros Hhi.
  - simpl. rewrite Qmult_0_r. apply Qle_refl.
  - cbn [List.length Spec.total]. rewrite Nat2Z.inj_succ, <- Z.add_1_r, inject_Z_plus.
    assert (H1 : (Spec.present_or_zero (field d) <= hi)%Q) by (apply Hhi; now left).
    assert (H2 : (Spec.total field rest
                  <= hi * inject_Z (Z.of_nat (List.length rest)))%Q).
    { apply IH. intros d' Hin. apply Hhi. now right. }
    unfold inject_Z at 2. lra.
Qed.

(** A mean lies between any two bounds of the values it averages. *)
Lemma mean_between {A : Type} (field : A -> Js.value) (records : list A) (lo hi : Q) :
  records <> [] ->
  (forall d, In d records -> (lo <= Spec.present_or_zero (field d))%Q) ->
  (forall d, In d records -> (Spec.present_or_zero (field d) <= hi)%Q) ->
  (lo <= Spec.mean field records)%Q /\ (Spec.mean field records <= hi)%Q.
Proof.
  intros Hne Hlo Hhi. pose proof (count_positive Hne) as Hn.
  unfold Spec.mean. split.
  - apply Qle_shift_div_l; [exact Hn | apply total_lower_bound, Hlo].
  - apply Qle_shift_div_r; [exact Hn | apply total_upper_bound, Hhi].
Qed.

(** The least of one field is at most the greatest of another as soon as
    the two fields are in this order in one record, missing values counting
    as 0.  Only comparisons are involved. *)
Lemma min_max_in_order {A : Type} (fmin fmax : A -> Js.value) (records : list A) :
  (exists d, In d records
             /\ (Spec.present_or_zero (fmin d) <= Spec.present_or_zero (fmax d))%Q) ->
  Js.Math_min (map (fun d => Js.or_zero (fmin d)) records)
  <= Js.Math_max (map (fun d => Js.or_zero (fmax d)) records).
Proof.
  intros (d & Hin & Horder).
  assert (Hne : records <> []) by (intros ->; exact Hin).
  destruct (Math_min_or_zero fmin Hne) as [(dlo & _ & Hlo_same) Hlo].
  destruct (Math_max_or_zero fmax Hne) as [(dhi & _ & Hhi_same) Hhi].
  destruct (@same_finite_inv _ _ Hlo_same) as (lo & Elo & _).
  destruct (@same_finite_inv _ _ Hhi_same) as (hi & Ehi & _).
  rewrite Elo in *. rewrite Ehi in *.
  apply JsFacts.le_finite.
  apply Qle_trans with (Spec.present_or_zero (fmin d));
    [apply JsFacts.le_finite, Hlo, Hin|].
  apply Qle_trans with (Spec.present_or_zero (fmax d));
    [exact Horder | apply JsFacts.le_finite, Hhi, Hin].
Qed.

(** X10.  The heart-rate range that [getBiometricStats] returns runs from
    the least to the greatest resting heart rate of the records in scope,
    a missing value counting as 0: each end is the value of a record in
    scope, and the lower end is at most the upper. *)
Theorem heart_rate_range_is_attained :
  forall (biologicalData : list BiologicalData.t) (selectedLocation : string)
         (stats : Biological.BiometricStats),
    Biological.getBiometricStats biologicalData selectedLocation = Some stats ->
    let records := Biological.getFilteredData biologicalData selectedLocation in
    Spec.minimum_with_zero BiologicalData.heart_rate_resting records
                           (fst (Biological.heartRate_range stats))
    /\ Spec.maximum_with_zero BiologicalData.heart_rate_resting records
                              (snd (Biological.heartRate_range stats))
    /\ fst (Biological.heartRate_range stats) <= snd (Biological.heartRate_range stats).
Proof.
  intros data selectedLocation stats. unfold Biological.getBiometricStats. cbv zeta.
  set (records := Biological.getFilteredData data selectedLocation).
  destruct records as [|d rest] eqn:E; [discriminate|].
  cbn [List.length Nat.eqb]. intros [= <-].
  cbn [Biological.heartRate_range fst snd].
  assert (Hne : d :: rest <> []) by discriminate.
  split; [exact (Math_min_or_zero BiologicalData.heart_rate_resting Hne)|].
  split; [exact (Math_max_or_zero BiologicalData.heart_rate_resting Hne)|].
  apply (@min_max_in_order _ BiologicalData.heart_rate_resting
           BiologicalData.heart_rate_resting (d :: rest)).
  exists d. split; [left; reflexivity | apply Qle_refl].
Qed.

Lemma heart_rate_range_is_attained_witness :
  exists stats,
    Biological.getBiometricStats Sample.biometrics "all" = Some stats
    /\ Spec.minimum_with_zero BiologicalData.heart_rate_resting
         (Biological.getFilteredData Sample.biometrics "all")
         (fst (Biological.heartRate_range stats))
    /\ Spec.maximum_with_zero BiologicalData.heart_rate_resting
         (Biological.getFilteredData Sample.biometrics "all")
         (snd (Biological.heartRate_range stats))
    /\ fst (Biological.heartRate_range stats) <= snd (Biological.heartRate_range stats).
Proof.
  eexists. split; [reflexivity|].
  apply (heart_rate_range_is_attained Sample.biometrics "all"). reflexivity.
Defined.

(** On the samples the first record has no heart rate: the range starts
    at 0, not at 70. *)
Example heart_rate_range_sample :
  option_map Biological.heartRate_range
             (Biological.getBiometricStats Sample.biometrics "all")
  = Some (Js.Finite 0, Js.Finite 70).
Proof. reflexivity. Qed.

(** X11.  The temperature card of [getMetricStats] has min <= max as soon
    as one reading in scope has its minimum temperature at most its
    maximum, a missing value counting as 0. *)
Theorem temperature_range_in_order :
  forall (environmentalData : list EnvironmentalData.t) (selectedLocation : string)
         (stats : Environmental.MetricStats),
    Environmental.getMetricStats environmentalData selectedLocation = Some stats ->
    (exists d,
        In d (Environmental.getFilteredData environmentalData selectedLocation)
        /\ (Spec.present_or_zero (EnvironmentalData.temperature_min d)
            <= Spec.present_or_zero (EnvironmentalData.temperature_max d))%Q) ->
    Environmental.temperature_min_of stats <= Environmental.temperature_max_of stats.
Proof.
  intros data selectedLocation stats. unfold Environmental.getMetricStats.
  set (records := Environmental.getFilteredData data selectedLocation).
  destruct records as [|d rest] eqn:E; [discriminate|].
  cbn [List.length Nat.eqb]. intros [= <-] Horder.
  cbn [Environmental.temperature_min_of Environmental.temperature_max_of].
  exact (@min_max_in_order _ EnvironmentalData.temperature_min
                           EnvironmentalData.temperature_max (d :: rest) Horder).
Qed.

Lemma temperature_range_in_order_witness :
  exists stats,
    Environmental.getMetricStats Sample.readings "all" = Some stats
    /\ Environmental.temperature_min_of stats <= Environmental.temperature_max_of stats.
Proof.
  eexists. split; [reflexivity|].
  apply (temperature_range_in_order Sample.readings "all"); [reflexivity|].
  eexists. split; [left; reflexivity | discriminate].
Defined.

(** Without such a reading the card can show a minimum above its maximum. *)
Example temperature_range_reversed :
  option_map (fun stats => (Environmental.temperature_min_of stats,
                            Environmental.temperature_max_of stats))
             (Environmental.getMetricStats
                [Sample.reading "alps" (Js.Num 4) (Js.Num 5) (Js.Num 3)] "all")
  = Some (Js.Finite 5, Js.Finite 3).
Proof. reflexivity. Qed.

(** X12.  The statistics are the empty object exactly when no record is in
    scope: with "all" when there are no records at all, with a location
    when no record refers to it. *)
Theorem stats_absent_iff_nothing_in_scope :
  (forall environmentalData : list EnvironmentalData.t,
      Environmental.getMetricStats environmentalData "all" = None
      <-> environmentalData = [])
  /\ (forall (environmentalData : list EnvironmentalData.t) (X : string),
         X <> "all" ->
         (Environmental.getMetricStats environmentalData X = None
          <-> forall d, In d environmentalData ->
                        EnvironmentalData.location_id d <> Js.Str X))
  /\ (forall biologicalData : list BiologicalData.t,
         Biological.getBiometricStats biologicalData "all" = None
         <-> biologicalData = [])
  /\ (forall (biologicalData : list BiologicalData.t) (X : string),
         X <> "all" ->
         (Biological.getBiometricStats biologicalData X = None
          <-> forall d, In d biologicalData ->
                        BiologicalData.location_id d <> Js.Str X)).
Proof.
  assert (Hnone : forall (A : Type) (location_id : A -> Js.text) X (records : list A),
             Spec.records_at location_id X records = []
             <-> forall d, In d records -> location_id d <> Js.Str X).
  { intros A location_id X records. split.
    - intros Hempty d Hin Heq.
      assert (Hd : In d (Spec.records_at location_id X records))
        by (apply in_records_at; auto).
      rewrite Hempty in Hd. exact Hd.
    - apply records_at_none. }
  split; [|split; [|split]].
  - intros data. unfold Environmental.getMetricStats, Environmental.getFilteredData.
    simpl. destruct data; simpl; split; intros; congruence.
  - intros data X HX. rewrite <- Hnone.
    unfold Environmental.getMetricStats, Environmental.getFilteredData.
    apply String.eqb_neq in HX. rewrite HX, filter_records_at.
    destruct (Spec.records_at EnvironmentalData.location_id X data); simpl;
      split; intros; congruence.
  - intros data. unfold Biological.getBiometricStats, Biological.getFilteredData.
    simpl. destruct data; simpl; split; intros; congruence.
  - intros data X HX. rewrite <- Hnone.
    unfold Biological.getBiometricStats, Biological.getFilteredData.
    apply String.eqb_neq in HX. rewrite HX, filter_records_at.
    destruct (Spec.records_at BiologicalData.location_id X data); simpl;
      split; intros; congruence.
Qed.

Lemma stats_absent_iff_nothing_in_scope_witness :
  "lagoon" <> "all"
  /\ (Environmental.getMetricStats Sample.readings "lagoon" = None
      <-> forall d, In d Sample.readings ->
                    EnvironmentalData.location_id d <> Js.Str "lagoon").
Proof.
  split; [discriminate|].
  apply (proj1 (proj2 stats_absent_iff_nothing_in_scope) Sample.readings "lagoon").
  discriminate.
Defined.

(** ** The cards, from the records in scope *)

Lemma find_map {A B : Type} (f : A -> B) (test : B -> bool) (xs : list A) :
  find test (map f xs) = option_map f (find (fun x => test (f x)) xs).
Proof.
  induction xs as [|x rest IH]; simpl; [reflexivity|].
  destruct (test (f x)); [reflexivity | exact IH].
Qed.

(** One row of the harmony data: the callback of [map] returns [row] at
    [data] exactly when [row] has the label of the record's date, the name
    of its location, its harmony score and its three measurements. *)
Lemma harmony_row_of_record (locations : list Location.t)
    (format_MMM_d : Js.text -> option string)
    (data : BiologicalData.t) (row : Biological.HarmonyZone) :
  match format_MMM_d (BiologicalData.date data) with
  | Some label =>
      Some {| Biological.location :=
                Biological.getLocationName locations (BiologicalData.location_id data);
              Biological.date := label;
              Biological.harmony_score := Biological.calculateHarmonyScore data;
              Biological.stress_level := BiologicalData.stress_level data;
              Biological.sleep_quality := BiologicalData.sleep_quality_score data;
              Biological.hrv := BiologicalData.heart_rate_variability data |}
  | None => None
  end = Some row
  <-> Spec.harmony_row locations format_MMM_d data row.
Proof.
  unfold Spec.harmony_row. destruct row as [location date score stress sleep hrv].
  simpl. destruct (format_MMM_d (BiologicalData.date data)) as [label|].
  - split.
    + intros [= <- -> <- <- <- <-]. repeat split.
    + intros ([= ->] & -> & -> & -> & -> & ->). reflexivity.
  - split; [discriminate|]. intros (H & _). discriminate.
Qed.

(** X13.  [getHarmonyZones] throws exactly when the date of some record
    in scope does not format, and then the page shows no card at all.
    Otherwise it returns one row for each record in scope, in their order;
    "Best Recovery" then shows the row of the first record in scope whose
    variability is the greatest, and "Calmest Environment" the row of the
    first one whose stress level is the least, when there is a record in
    scope and every record in scope has the field. *)
Theorem cards_show_first_extreme_record :
  forall (biologicalData : list BiologicalData.t) (locations : list Location.t)
         (selectedLocation : string) (format_MMM_d : Js.text -> option string),
    let records := Biological.getFilteredData biologicalData selectedLocation in
    let harmonyZones :=
      Biological.getHarmonyZones biologicalData locations selectedLocation format_MMM_d in
    (harmonyZones = None
     <-> exists d, In d records /\ format_MMM_d (BiologicalData.date d) = None)
    /\ ((forall d, In d records -> format_MMM_d (BiologicalData.date d) <> None) ->
        exists harmonyData, harmonyZones = Some harmonyData)
    /\ (forall harmonyData : list Biological.HarmonyZone,
          harmonyZones = Some harmonyData ->
          Forall2 (Spec.harmony_row locations format_MMM_d) records harmonyData
          /\ (records <> [] ->
              Spec.all_present BiologicalData.heart_rate_variability records ->
              exists d row,
                Spec.first_maximum BiologicalData.heart_rate_variability records d
                /\ Spec.harmony_row locations format_MMM_d d row
                /\ Biological.bestRecovery harmonyData = Some row)
          /\ (records <> [] ->
              Spec.all_present BiologicalData.stress_level records ->
              exists d row,
                Spec.first_minimum BiologicalData.stress_level records d
                /\ Spec.harmony_row locations format_MMM_d d row
                /\ Biological.calmestLocation harmonyData = Some row)).
Proof.
  intros data locations selectedLocation fmt records harmonyZones.
  subst harmonyZones. unfold Biological.getHarmonyZones. cbv zeta. fold records.
  set (callback := fun d : BiologicalData.t =>
                     match fmt (BiologicalData.date d) with
                     | Some label => Some _
                     | None => None
                     end).
  assert (Hthrow : forall d, callback d = None <-> fmt (BiologicalData.date d) = None).
  { intros d. unfold callback. destruct (fmt (BiologicalData.date d)); split;
      intros; congruence. }
  split; [|split].
  - rewrite JsArrayFacts.map_throwing_None. split.
    + intros (d & Hin & Hd). exists d. split; [exact Hin | apply Hthrow, Hd].
    + intros (d & Hin & Hd). exists d. split; [exact Hin | apply Hthrow, Hd].
  - intros Hdates. apply JsArrayFacts.map_throwing_defined.
    intros d Hin Hd. apply (Hdates d Hin). apply Hthrow, Hd.
  - intros harmonyData Hsome.
    assert (Hrows : Forall2 (Spec.harmony_row locations fmt) records harmonyData).
    { apply JsArrayFacts.map_throwing_Some in Hsome. revert Hsome.
      apply Forall2_impl. intros d row. apply harmony_row_of_record. }
    set (row := fun d : BiologicalData.t =>
           {| Biological.location :=
                Biological.getLocationName locations (BiologicalData.location_id d);
              Biological.date :=
                match fmt (BiologicalData.date d) with
                | Some label => label
                | None => EmptyString
                end;
              Biological.harmony_score := Biological.calculateHarmonyScore d;
              Biological.stress_level := BiologicalData.stress_level d;
              Biological.sleep_quality := BiologicalData.sleep_quality_score d;
              Biological.hrv := BiologicalData.heart_rate_variability d |}).
    assert (Hrow : forall d y, callback d = Some y -> y = row d).
    { intros d y. unfold callback, row.
      destruct (fmt (BiologicalData.date d)); [|discriminate].
      intros [= <-]. reflexivity. }
    assert (Hdata : harmonyData = map row records)
      by exact (JsArrayFacts.map_throwing_map callback row records Hrow Hsome).
    assert (Hin_row : forall d, In d records -> Spec.harmony_row locations fmt d (row d)).
    { intros d Hin. destruct (callback d) as [y|] eqn:Ey.
      - rewrite <- (Hrow d y Ey). apply harmony_row_of_record. exact Ey.
      - exfalso.
        assert (Hnone : JsArray.map_throwing callback records = None)
          by (apply JsArrayFacts.map_throwing_None; exists d; split; assumption).
        congruence. }
    split; [exact Hrows|]. split; intros Hne Hall.
    + destruct (find_maximum_first Hne Hall) as (d & Hfind & Hfirst).
      exists d, (row d). split; [exact Hfirst|]. split.
      * apply Hin_row. destruct Hfirst as (i & q & Hi & _).
        exact (nth_error_In records i Hi).
      * rewrite Hdata. unfold Biological.bestRecovery.
        rewrite map_map, find_map. cbn [Biological.hrv row].
        rewrite Hfind. reflexivity.
    + destruct (find_minimum_first Hne Hall) as (d & Hfind & Hfirst).
      exists d, (row d). split; [exact Hfirst|]. split.
      * apply Hin_row. destruct Hfirst as (i & q & Hi & _).
        exact (nth_error_In records i Hi).
      * rewrite Hdata. unfold Biological.calmestLocation.
        rewrite map_map, find_map. cbn [Biological.stress_level row].
        rewrite Hfind. reflexivity.
Qed.

(* ================================================================== *)
(** * Part XIII.  More on the journal page                              *)
(* ================================================================== *)

(** ** The three filters *)

Lemma includes_occurs (s q : string) :
  JsString.includes s q = true <-> Spec.occurs_in q s.
Proof.
  unfold JsString.includes, Spec.occurs_in.
  destruct (String.index 0 q s) as [m|] eqn:E; split.
  - intros _. exists m. apply (String.index_correct1 0 m q s E).
  - reflexivity.
  - discriminate.
  - intros (m & Hm). exfalso.
    destruct q as [|c q'].
    + apply String.index_correct4 in E. lia.
    + apply (String.index_correct3 0 m _ _ E); [discriminate | lia | exact Hm].
Qed.

Lemma selected_all {A : Type} (P : A -> Prop) (xs : list A) :
  (forall x, P x) -> Spec.selected P xs xs.
Proof. intros HP. induction xs; constructor; auto. Qed.

Lemma selected_compose {A : Type} (P Q : A -> Prop) (xs kept kept' : list A) :
  Spec.selected P kept xs -> Spec.selected Q kept' kept ->
  Spec.selected (fun x => P x /\ Q x) kept' xs.
Proof.
  intros HP. revert kept'. induction HP as [|x kept xs Hx _ IH|x kept xs Hx _ IH];
    intros kept' HQ.
  - inversion HQ; subst. constructor.
  - inversion HQ; subst.
    + constructor; [split; assumption | apply IH; assumption].
    + constructor; [tauto | apply IH; assumption].
  - constructor; [tauto | apply IH; assumption].
Qed.

Lemma selected_ext {A : Type} (P Q : A -> Prop) (xs kept : list A) :
  (forall x, P x <-> Q x) -> Spec.selected P kept xs -> Spec.selected Q kept xs.
Proof.
  intros HPQ H. induction H; constructor; auto; rewrite <- HPQ; assumption.
Qed.

Lemma matchesQuery_occurs (searchQuery : string) (toLowerCase : string -> string)
    (field : Js.text) :
  Journal.matchesQuery searchQuery toLowerCase field = true
  <-> exists text, field = Js.Str text
                   /\ Spec.occurs_in (toLowerCase searchQuery) (toLowerCase text).
Proof.
  destruct field as [| |text]; simpl.
  - split; [discriminate | intros (t & Ht & _); discriminate].
  - split; [discriminate | intros (t & Ht & _); discriminate].
  - rewrite includes_occurs. split.
    + intros H. exists text. auto.
    + intros (t & [= <-] & H). exact H.
Qed.

(** X14.  [getFilteredEntries] returns exactly the entries that pass every
    filter that is switched on, in the order of the journal; with the
    location and the emotion on "all" and an empty query it returns the
    journal as it is. *)
Theorem journal_filters_select_passing_entries :
  forall (journalEntries : list JournalEntry.t) (selectedLocation : string)
         (selectedEmotion : Journal.EmotionChoice) (searchQuery : string)
         (toLowerCase : string -> string),
    Spec.selected
      (Spec.passes selectedLocation selectedEmotion searchQuery toLowerCase)
      (Journal.getFilteredEntries journalEntries selectedLocation selectedEmotion
                                  searchQuery toLowerCase)
      journalEntries
    /\ Journal.getFilteredEntries journalEntries "all" Journal.AllEmotions ""
                                  toLowerCase
       = journalEntries.
Proof.
  intros entries selectedLocation selectedEmotion searchQuery toLowerCase.
  split; [|reflexivity].
  unfold Journal.getFilteredEntries.
  set (byLocation :=
         if negb (String.eqb selectedLocation "all")
         then filter (fun entry =>
                        Js.text_strict_equals (JournalEntry.location_id entry)
                                              (Js.Str selectedLocation)) entries
         else entries).
  set (byEmotion :=
         match selectedEmotion with
         | Journal.OnlyEmotion emotion =>
             filter (fun entry =>
                       match JournalEntry.emotions entry with
                       | Some tags => existsb (Emotion_beq emotion) tags
                       | None => false
                       end) byLocation
         | Journal.AllEmotions => byLocation
         end).
  assert (H1 : Spec.selected
                 (fun entry => selectedLocation = "all"
                               \/ JournalEntry.location_id entry = Js.Str selectedLocation)
                 byLocation entries).
  { subst byLocation. destruct (String.eqb selectedLocation "all") eqn:E; simpl.
    - apply String.eqb_eq in E. apply selected_all. auto.
    - apply String.eqb_neq in E. apply filter_selected. intros entry.
      rewrite text_strict_equals_iff. tauto. }
  assert (H2 : Spec.selected
                 (fun entry =>
                    match selectedEmotion with
                    | Journal.AllEmotions => True
                    | Journal.OnlyEmotion emotion =>
                        exists tags, JournalEntry.emotions entry = Some tags
                                     /\ In emotion tags
                    end)
                 byEmotion byLocation).
  { subst byEmotion. destruct selectedEmotion as [|emotion].
    - apply selected_all. auto.
    - apply filter_selected. intros entry.
      destruct (JournalEntry.emotions entry) as [tags|].
      + rewrite existsb_exists. split.
        * intros (x & Hin & Hx). apply Emotion_beq_eq in Hx. subst x. eauto.
        * intros (tags' & [= <-] & Hin). exists emotion. split; [exact Hin|].
          now apply Emotion_beq_eq.
      + split; [discriminate | intros (tags & Habs & _); discriminate]. }
  assert (H3 : Spec.selected
                 (fun entry =>
                    searchQuery = ""
                    \/ exists text,
                         (JournalEntry.title entry = Js.Str text
                          \/ JournalEntry.content entry = Js.Str text)
                         /\ Spec.occurs_in (toLowerCase searchQuery) (toLowerCase text))
                 (if negb (String.eqb searchQuery "")
                  then filter (fun entry =>
                                 Journal.matchesQuery searchQuery toLowerCase
                                                      (JournalEntry.title entry)
                                 || Journal.matchesQuery searchQuery toLowerCase
                                                         (JournalEntry.content entry))
                              byEmotion
                  else byEmotion)
                 byEmotion).
  { destruct (String.eqb searchQuery "") eqn:E; simpl.
    - apply String.eqb_eq in E. apply selected_all. auto.
    - apply String.eqb_neq in E. apply filter_selected. intros entry.
      rewrite orb_true_iff, !matchesQuery_occurs. split.
      + intros [(t & Ht & Ho)|(t & Ht & Ho)]; right; exists t; auto.
      + intros [Habs|(t & [Ht|Ht] & Ho)]; [contradiction | left | right];
          exists t; auto. }
  apply (selected_ext
           (P := fun entry =>
                   ((selectedLocation = "all"
                     \/ JournalEntry.location_id entry = Js.Str selectedLocation)
                    /\ match selectedEmotion with
                       | Journal.AllEmotions => True
                       | Journal.OnlyEmotion emotion =>
                           exists tags, JournalEntry.emotions entry = Some tags
                                        /\ In emotion tags
                       end)
                   /\ (searchQuery = ""
                       \/ exists text,
                            (JournalEntry.title entry = Js.Str text
                             \/ JournalEntry.content entry = Js.Str text)
                            /\ Spec.occurs_in (toLowerCase searchQuery)
                                              (toLowerCase text)))).
  - intros entry. unfold Spec.passes. tauto.
  - apply (selected_compose (selected_compose H1 H2) H3).
Qed.

Example journal_filter_sample :
  map JournalEntry.mood_score
      (Journal.getFilteredEntries Sample.journal "fjord" (Journal.OnlyEmotion wonder)
                                  "" (fun s => s))
  = [Js.Num 0; Js.Num 6].
Proof. reflexivity. Qed.

(** ** The average mood *)

Lemma total_of_scored {A B : Type} (score : A -> Js.value) (score' : B -> Js.value)
    (project : A -> B) (xs : list A) :
  (forall x, score' (project x) = score x) ->
  (Spec.total score' (map project (filter (fun x => Js.ToBoolean (score x)) xs))
   == Spec.total score xs)%Q.
Proof.
  intros Hscore. induction xs as [|x rest IH]; simpl; [reflexivity|].
  destruct (Js.ToBoolean (score x)) eqn:E; simpl.
  - rewrite Hscore, IH. reflexivity.
  - rewrite IH. destruct (score x) as [| |q]; simpl in *; try ring.
    destruct (Qeq_bool q 0) eqn:Eq; [|discriminate].
    apply Qeq_bool_eq in Eq. rewrite Eq. ring.
Qed.

(** X15.  For an empty journal the "Average Mood" card computes [NaN].
    Otherwise it is the sum of the scores of the entries that
    [getMoodTrend] keeps, divided by the number of all entries: an entry
    without a score is absent from the trend but still counted in the
    divisor.  The card formats no date, so this holds whether or not the
    trend can be drawn; when it can, the sum is that of the moods it
    shows. *)
Theorem average_mood_counts_unscored_entries :
  Journal.averageMood [] = Js.NaN
  /\ forall (journalEntries : list JournalEntry.t) (locations : list Location.t)
            (format_MMM_d : Js.text -> option string),
      journalEntries <> [] ->
      (exists kept : list JournalEntry.t,
          Spec.selected
            (fun entry => Spec.present_and_nonzero (JournalEntry.mood_score entry))
            kept journalEntries
          /\ Journal.averageMood journalEntries
             =~ Js.Finite (Spec.total JournalEntry.mood_score kept
                           / inject_Z (Z.of_nat (List.length journalEntries))))
      /\ (forall trend : list Journal.MoodPoint,
             Journal.getMoodTrend journalEntries locations format_MMM_d = Some trend ->
             Journal.averageMood journalEntries
             =~ Js.Finite
                  (Spec.total Journal.mood trend
                   / inject_Z (Z.of_nat (List.length journalEntries)))).
Proof.
  split; [reflexivity|].
  intros entries locations fmt Hne.
  assert (Hmean : Journal.averageMood entries
                  =~ Js.Finite (Spec.mean JournalEntry.mood_score entries))
    by (unfold Journal.averageMood; apply JsFacts.average_or_zero, Hne).
  split.
  - exists (filter (fun entry => Js.ToBoolean (JournalEntry.mood_score entry)) entries).
    split.
    + apply filter_selected. intros entry. apply ToBoolean_present_and_nonzero.
    + apply JsFacts.same_trans with (1 := Hmean).
      unfold Spec.mean. simpl.
      rewrite <- (total_of_scored JournalEntry.mood_score JournalEntry.mood_score
                                  (fun entry => entry) entries) by reflexivity.
      rewrite map_id. reflexivity.
  - intros trend Htrend.
    apply JsFacts.same_trans with (1 := Hmean).
    set (point := fun entry : JournalEntry.t =>
           {| Journal.date :=
                match fmt (JournalEntry.date entry) with
                | Some label => label
                | None => EmptyString
                end;
              Journal.mood := JournalEntry.mood_score entry;
              Journal.location :=
                Journal.getLocationName locations (JournalEntry.location_id entry) |}).
    unfold Journal.getMoodTrend in Htrend.
    apply (JsArrayFacts.map_throwing_map _ point) in Htrend.
    + subst trend. unfold Spec.mean. simpl.
      rewrite (total_of_scored JournalEntry.mood_score Journal.mood point)
        by reflexivity.
      reflexivity.
    + intros entry y. unfold point.
      destruct (fmt (JournalEntry.date entry)); [|discriminate].
      intros [= <-]. reflexivity.
Qed.

Lemma average_mood_counts_unscored_entries_witness :
  Sample.journal <> []
  /\ forall trend : list Journal.MoodPoint,
       Journal.getMoodTrend Sample.journal Sample.places Sample.label = Some trend ->
       Journal.averageMood Sample.journal
       =~ Js.Finite
            (Spec.total Journal.mood trend
             / inject_Z (Z.of_nat (List.length Sample.journal))).
Proof.
  assert (Hne : Sample.journal <> []) by discriminate.
  split; [exact Hne|].
  exact (proj2 (proj2 average_mood_counts_unscored_entries
                      Sample.journal Sample.places Sample.label Hne)).
Defined.

(** The six sample entries carry the scores 8, 6 and 3: the card shows
    17 / 6, not 17 / 3. *)
Example average_mood_sample :
  Journal.averageMood Sample.journal =~ Js.Finite (17 # 6).
Proof. reflexivity. Qed.

(** X16.  With every score in [0, 10] (or missing) the average is in [0, 10]. *)
Theorem average_mood_in_range :
  forall journalEntries : list JournalEntry.t,
    journalEntries <> [] ->
    (forall entry q,
        In entry journalEntries -> JournalEntry.mood_score entry = Js.Num q ->
        (0 <= q <= 10)%Q) ->
    Js.Finite 0 <= Journal.averageMood journalEntries
    /\ Journal.averageMood journalEntries <= Js.Finite 10.
Proof.
  intros entries Hne Hrange. unfold Journal.averageMood.
  destruct (@same_finite_inv _ _ (JsFacts.average_or_zero JournalEntry.mood_score Hne))
    as (a & -> & Ha).
  destruct (@mean_between _ JournalEntry.mood_score entries 0 10 Hne) as [H0 H10].
  - intros entry Hin. destruct (JournalEntry.mood_score entry) as [| |q] eqn:E;
      simpl; try apply Qle_refl. apply (Hrange entry q Hin E).
  - intros entry Hin. destruct (JournalEntry.mood_score entry) as [| |q] eqn:E;
      simpl; try discriminate. apply (Hrange entry q Hin E).
  - split; apply JsFacts.le_finite; rewrite Ha; assumption.
Qed.

Lemma sample_journal_scores :
  forall entry q,
    In entry Sample.journal -> JournalEntry.mood_score entry = Js.Num q ->
    (0 <= q <= 10)%Q.
Proof.
  intros entry q [<-|[<-|[<-|[<-|[<-|[<-|[]]]]]]] Hq; simpl in Hq;
    try discriminate; injection Hq as <-; split; discriminate.
Defined.

Lemma average_mood_in_range_witness :
  Sample.journal <> []
  /\ Js.Finite 0 <= Journal.averageMood Sample.journal
  /\ Journal.averageMood Sample.journal <= Js.Finite 10.
Proof.
  split; [discriminate|].
  apply average_mood_in_range; [discriminate | exact sample_journal_scores].
Defined.

(** ** More on the emotion statistics *)

Lemma counts_at_least_one (entries : list JournalEntry.t) :
  Forall (fun p => (1 <= snd p)%nat) (Journal.emotionCounts entries).
Proof.
  unfold Journal.emotionCounts.
  assert (Hset : forall counts e n,
             (1 <= n)%nat ->
             Forall (fun p : Emotion * nat => (1 <= snd p)%nat) counts ->
             Forall (fun p : Emotion * nat => (1 <= snd p)%nat)
                    (Journal.setCount counts e n)).
  { induction counts as [|[key m] rest IH]; intros e n Hn Hall; simpl.
    - constructor; [exact Hn | constructor].
    - inversion Hall as [|? ? Hm Hrest]; subst.
      destruct (Emotion_beq key e); constructor; auto. }
  assert (Htags : forall tags counts,
             Forall (fun p : Emotion * nat => (1 <= snd p)%nat) counts ->
             Forall (fun p : Emotion * nat => (1 <= snd p)%nat)
                    (fold_left Journal.increment tags counts)).
  { induction tags as [|e rest IH]; intros counts Hall; simpl; [exact Hall|].
    apply IH. unfold Journal.increment. apply Hset; [lia | exact Hall]. }
  assert (Hentries : forall counts,
             Forall (fun p : Emotion * nat => (1 <= snd p)%nat) counts ->
             Forall (fun p : Emotion * nat => (1 <= snd p)%nat)
                    (fold_left (fun counts entry =>
                                  match JournalEntry.emotions entry with
                                  | Some tags => fold_left Journal.increment tags counts
                                  | None => counts
                                  end)
                               entries counts)).
  { induction entries as [|entry rest IH]; intros counts Hall; simpl; [exact Hall|].
    apply IH. destruct (JournalEntry.emotions entry); [apply Htags|]; exact Hall. }
  apply Hentries. constructor.
Qed.

Lemma getCount_In (counts : Journal.Counts) (e : Emotion) (n : nat) :
  Journal.getCount counts e = Some n -> In (e, n) counts.
Proof.
  induction counts as [|[key m] rest IH]; simpl; [discriminate|].
  destruct (Emotion_beq key e) eqn:E.
  - apply Emotion_beq_eq in E. subst key. intros [= <-]. now left.
  - intros H. right. apply IH, H.
Qed.

(** A tag that occurs has its pair in [emotionCounts]. *)
Lemma occurring_is_counted (entries : list JournalEntry.t) (e : Emotion) :
  (0 < Spec.occurrences e entries)%nat ->
  In (e, Spec.occurrences e entries) (Journal.emotionCounts entries).
Proof.
  intros Hpos. pose proof (recorded_entries entries [] e) as Hrec.
  fold (Journal.emotionCounts entries) in Hrec.
  unfold Spec.recorded in Hrec at 1. simpl in Hrec.
  destruct (Journal.getCount (Journal.emotionCounts entries) e) as [n|] eqn:E.
  - apply getCount_In. rewrite E, Hrec. reflexivity.
  - lia.
Qed.

Lemma sorted_front_dominates {A : Type} (R : A -> A -> Prop) (front back : list A)
    (x y : A) :
  StronglySorted R (front ++ back) -> In x front -> In y back -> R x y.
Proof.
  induction front as [|z rest IH]; simpl; intros Hsorted Hx Hy; [contradiction|].
  apply StronglySorted_inv in Hsorted. destruct Hsorted as [Hrest Hz].
  destruct Hx as [->|Hx].
  - rewrite Forall_forall in Hz. apply Hz, in_or_app. now right.
  - apply IH; assumption.
Qed.

Lemma NoDup_slice0 {A : Type} (n : nat) (xs : list A) :
  NoDup xs -> NoDup (Journal.slice0 n xs).
Proof.
  unfold Journal.slice0. intros Hnd.
  rewrite <- (firstn_skipn n xs) in Hnd. apply NoDup_app_remove_r in Hnd. exact Hnd.
Qed.

(** X17.  No tag is listed twice by [getEmotionStats], and no listed count is 0. *)
Theorem emotion_stats_distinct_and_positive :
  forall journalEntries : list JournalEntry.t,
    NoDup (map fst (Journal.getEmotionStats journalEntries))
    /\ forall emotion count,
        In (emotion, count) (Journal.getEmotionStats journalEntries) ->
        (1 <= count)%nat.
Proof.
  intros entries. unfold Journal.getEmotionStats. split.
  - unfold Journal.slice0. rewrite <- firstn_map. apply (NoDup_slice0 6).
    apply (Permutation_NoDup
             (Permutation_map fst (Permutation_sym (sort_permutation _ _)))).
    apply NoDup_emotionCounts.
  - intros emotion count Hin. apply slice0_In in Hin.
    apply (Permutation_in _ (sort_permutation _ _)) in Hin.
    pose proof (counts_at_least_one entries) as Hall.
    rewrite Forall_forall in Hall. apply (Hall _ Hin).
Qed.

(** X18.  The tags shown are the most frequent ones: a tag that occurs in the
    journal but is not shown occurs no more often than any tag shown. *)
Theorem emotion_stats_are_the_most_frequent :
  forall (journalEntries : list JournalEntry.t) (emotion other : Emotion) (count : nat),
    In (emotion, count) (Journal.getEmotionStats journalEntries) ->
    (0 < Spec.occurrences other journalEntries)%nat ->
    ~ In other (map fst (Journal.getEmotionStats journalEntries)) ->
    (Spec.occurrences other journalEntries <= count)%nat.
Proof.
  intros entries emotion other count Hin Hocc Hnot.
  unfold Journal.getEmotionStats, Journal.slice0 in *.
  set (sorted := Journal.sort (fun '(_, a) '(_, b) => (Z.of_nat b - Z.of_nat a)%Z)
                              (Journal.emotionCounts entries)) in *.
  assert (Hother : In (other, Spec.occurrences other entries) sorted).
  { apply (Permutation_in _ (Permutation_sym (sort_permutation _ _))).
    apply occurring_is_counted, Hocc. }
  rewrite <- (firstn_skipn 6 sorted) in Hother. apply in_app_or in Hother.
  destruct Hother as [Hfront|Hback].
  - exfalso. apply Hnot. apply (in_map fst) in Hfront. exact Hfront.
  - pose proof (sort_descending (Journal.emotionCounts entries)) as Hsorted.
    fold sorted in Hsorted. rewrite <- (firstn_skipn 6 sorted) in Hsorted.
    apply (@sorted_front_dominates _ _ _ _ _ _ Hsorted Hin Hback).
Qed.

Lemma emotion_stats_are_the_most_frequent_witness :
  (In (stress, 1%nat) (Journal.getEmotionStats Sample.journal)
   /\ (0 < Spec.occurrences euphoria Sample.journal)%nat
   /\ ~ In euphoria (map fst (Journal.getEmotionStats Sample.journal)))
  /\ (Spec.occurrences euphoria Sample.journal <= 1)%nat.
Proof.
  assert (Hin : In (stress, 1%nat) (Journal.getEmotionStats Sample.journal)).
  { simpl. tauto. }
  assert (Hocc : (0 < Spec.occurrences euphoria Sample.journal)%nat).
  { simpl. lia. }
  assert (Hnot : ~ In euphoria (map fst (Journal.getEmotionStats Sample.journal))).
  { simpl. intuition discriminate. }
  split; [repeat split; assumption|].
  exact (@emotion_stats_are_the_most_frequent Sample.journal stress euphoria 1%nat Hin Hocc Hnot).
Defined.

Lemma occurring_iff (entries : list JournalEntry.t) (e : Emotion) :
  In e (Spec.occurring entries) <-> (0 < Spec.occurrences e entries)%nat.
Proof.
  unfold Spec.occurring. rewrite filter_In, Nat.ltb_lt. split; [tauto|].
  intros H. split; [|exact H]. destruct e; simpl; tauto.
Qed.

Lemma counted_iff (entries : list JournalEntry.t) (e : Emotion) :
  In e (map fst (Journal.emotionCounts entries))
  <-> (0 < Spec.occurrences e entries)%nat.
Proof.
  split.
  - intros Hin. apply in_map_iff in Hin. destruct Hin as ([e' n] & Heq & Hin).
    simpl in Heq. subst e'.
    pose proof (counts_at_least_one entries) as Hall.
    rewrite Forall_forall in Hall. specialize (Hall _ Hin). simpl in Hall.
    rewrite <- (emotionCounts_occurrences _ _ _ Hin). lia.
  - intros Hocc. pose proof (occurring_is_counted entries e Hocc) as H.
    apply (in_map fst) in H. exact H.
Qed.

(** X19.  When at most six different tags occur in the journal, every one of
    them is shown, with its number of occurrences. *)
Theorem emotion_stats_complete_up_to_six :
  forall journalEntries : list JournalEntry.t,
    (List.length (Spec.occurring journalEntries) <= 6)%nat ->
    forall emotion,
      (0 < Spec.occurrences emotion journalEntries)%nat ->
      In (emotion, Spec.occurrences emotion journalEntries)
         (Journal.getEmotionStats journalEntries).
Proof.
  intros entries Hsix emotion Hocc.
  assert (Hperm : Permutation (map fst (Journal.emotionCounts entries))
                              (Spec.occurring entries)).
  { apply NoDup_Permutation.
    - apply NoDup_emotionCounts.
    - unfold Spec.occurring. apply NoDup_filter.
      repeat (constructor; [simpl; intuition discriminate|]). constructor.
    - intros e. rewrite counted_iff, occurring_iff. reflexivity. }
  apply Permutation_length in Hperm. rewrite length_map in Hperm.
  unfold Journal.getEmotionStats, Journal.slice0.
  rewrite firstn_all2.
  - apply (Permutation_in _ (Permutation_sym (sort_permutation _ _))).
    apply occurring_is_counted, Hocc.
  - rewrite (Permutation_length (sort_permutation _ _)). lia.
Qed.

Lemma emotion_stats_complete_up_to_six_witness :
  (List.length (Spec.occurring (firstn 3 Sample.journal)) <= 6)%nat
  /\ In (wonder, Spec.occurrences wonder (firstn 3 Sample.journal))
        (Journal.getEmotionStats (firstn 3 Sample.journal)).
Proof.
  assert (Hsix : (List.length (Spec.occurring (firstn 3 Sample.journal)) <= 6)%nat).
  { simpl. lia. }
  split; [exact Hsix|].
  apply (emotion_stats_complete_up_to_six (firstn 3 Sample.journal) Hsix wonder).
  simpl. lia.
Defined.

(** ** The entry form's emotion toggle *)

(** X20.  Toggling a tag flips whether that tag is chosen and leaves every
    other tag as it was. *)
Theorem toggle_flips_one_tag :
  forall (emotions : list Emotion) (emotion other : Emotion),
    (In emotion (Journal.toggleEmotion emotions emotion) <-> ~ In emotion emotions)
    /\ (other <> emotion ->
        (In other (Journal.toggleEmotion emotions emotion) <-> In other emotions)).
Proof.
  intros emotions emotion other. unfold Journal.toggleEmotion.
  destruct (existsb (Emotion_beq emotion) emotions) eqn:E.
  - assert (Hin : In emotion emotions).
    { apply existsb_exists in E. destruct E as (x & Hx & Heq).
      apply Emotion_beq_eq in Heq. now subst x. }
    split.
    + rewrite filter_In. split.
      * intros [_ Hne]. rewrite (proj2 (Emotion_beq_eq emotion emotion) eq_refl) in Hne.
        discriminate.
      * intros Hnot. contradiction.
    + intros Hne. rewrite filter_In. split; [tauto|].
      intros Hother. split; [exact Hother|].
      rewrite (proj2 (Emotion_beq_neq other emotion) Hne). reflexivity.
  - assert (Hnot : ~ In emotion emotions).
    { intros Hin. assert (existsb (Emotion_beq emotion) emotions = true) as Habs.
      { apply existsb_exists. exists emotion. split; [exact Hin|].
        now apply Emotion_beq_eq. }
      congruence. }
    split.
    + split; [intros _; exact Hnot|]. intros _. apply in_or_app. right. now left.
    + intros Hne. rewrite in_app_iff. simpl. split; [|tauto].
      intros [H|[H|[]]]; [exact H | congruence].
Qed.

Lemma toggle_flips_one_tag_witness :
  joy <> calm
  /\ (In joy (Journal.toggleEmotion [joy; calm] calm) <-> In joy [joy; calm]).
Proof.
  assert (Hne : joy <> calm) by discriminate.
  split; [exact Hne|].
  exact (proj2 (toggle_flips_one_tag [joy; calm] calm joy) Hne).
Defined.

Lemma filter_all {A : Type} (test : A -> bool) (xs : list A) :
  (forall x, In x xs -> test x = true) -> filter test xs = xs.
Proof.
  induction xs as [|x rest IH]; simpl; intros Hall; [reflexivity|].
  rewrite (Hall x (or_introl eq_refl)), IH; [reflexivity|].
  intros y Hy. apply Hall. now right.
Qed.

(** X21.  Choosing a tag that was not chosen and toggling it again gives back
    the list as it was; toggling a chosen tag twice gives back the same
    set, the tag now standing last. *)
Theorem toggle_twice :
  forall (emotions : list Emotion) (emotion : Emotion),
    (~ In emotion emotions ->
     Journal.toggleEmotion (Journal.toggleEmotion emotions emotion) emotion = emotions)
    /\ (In emotion emotions -> NoDup emotions ->
        exists others,
          Journal.toggleEmotion (Journal.toggleEmotion emotions emotion) emotion
          = (others ++ [emotion])%list
          /\ Permutation (others ++ [emotion])%list emotions).
Proof.
  intros emotions emotion.
  assert (Hrest : forall xs, ~ In emotion xs ->
             filter (fun e => negb (Emotion_beq e emotion)) xs = xs).
  { intros xs Hnot. apply filter_all. intros x Hx.
    destruct (Emotion_beq x emotion) eqn:E; [|reflexivity].
    apply Emotion_beq_eq in E. subst x. contradiction. }
  assert (Hoff : forall xs, ~ In emotion xs ->
             existsb (Emotion_beq emotion) xs = false).
  { intros xs Hnot. destruct (existsb (Emotion_beq emotion) xs) eqn:E; [|reflexivity].
    apply existsb_exists in E. destruct E as (x & Hx & Heq).
    apply Emotion_beq_eq in Heq. subst x. contradiction. }
  assert (Hon : forall xs, In emotion xs ->
             existsb (Emotion_beq emotion) xs = true).
  { intros xs Hin. apply existsb_exists. exists emotion. split; [exact Hin|].
    now apply Emotion_beq_eq. }
  split.
  - intros Hnot. unfold Journal.toggleEmotion at 2. rewrite (Hoff _ Hnot).
    unfold Journal.toggleEmotion.
    rewrite Hon by (apply in_or_app; right; now left).
    rewrite filter_app, (Hrest _ Hnot). simpl.
    rewrite (proj2 (Emotion_beq_eq emotion emotion) eq_refl). simpl.
    apply app_nil_r.
  - intros Hin Hnd. unfold Journal.toggleEmotion at 2. rewrite (Hon _ Hin).
    set (others := filter (fun e => negb (Emotion_beq e emotion)) emotions).
    assert (Hgone : ~ In emotion others).
    { subst others. rewrite filter_In. intros [_ H].
      rewrite (proj2 (Emotion_beq_eq emotion emotion) eq_refl) in H. discriminate. }
    exists others. unfold Journal.toggleEmotion. rewrite (Hoff _ Hgone).
    split; [reflexivity|].
    subst others. clear Hgone.
    induction emotions as [|x rest IH]; [contradiction|].
    inversion Hnd as [|? ? Hx Hrest_nd]; subst. simpl.
    destruct (Emotion_beq x emotion) eqn:E; simpl.
    + apply Emotion_beq_eq in E. subst x. rewrite (Hrest _ Hx).
      apply Permutation_sym, Permutation_cons_append.
    + apply perm_skip. apply IH; [|exact Hrest_nd].
      destruct Hin as [->|Hin]; [|exact Hin].
      rewrite (proj2 (Emotion_beq_eq emotion emotion) eq_refl) in E. discriminate.
Qed.

Lemma toggle_twice_witness :
  ~ In wonder [joy; calm]
  /\ Journal.toggleEmotion (Journal.toggleEmotion [joy; calm] wonder) wonder
     = [joy; calm].
Proof.
  assert (Hnot : ~ In wonder [joy; calm]) by (simpl; intuition discriminate).
  split; [exact Hnot|].
  exact (proj1 (toggle_twice [joy; calm] wonder) Hnot).
Defined.

(** ** The text of a highlight card *)

Lemma length_append (s t : string) :
  String.length (s ++ t) = (String.length s + String.length t)%nat.
Proof. induction s as [|c s IH]; simpl; [reflexivity | now rewrite IH]. Qed.

Lemma length_substring0 (n : nat) (s : string) :
  String.length (String.substring 0 n s) = Nat.min n (String.length s).
Proof.
  revert s. induction n as [|n IH]; intros [|c s]; simpl; auto.
Qed.

(** X23.  A highlight card shows a content of up to 120 units in full and of a
    longer one the first 120 units followed by three dots, so never more
    than 123 units; an entry without content makes the card throw. *)
Theorem highlight_text_is_bounded :
  (forall content : Js.text,
      Journal.highlightText content = None
      <-> content = Js.NoText \/ content = Js.NullText)
  /\ forall text : string,
      exists shown,
        Journal.highlightText (Js.Str text) = Some shown
        /\ (String.length shown <= 123)%nat
        /\ ((String.length text <= 120)%nat -> shown = text)
        /\ ((120 < String.length text)%nat ->
            shown = (String.substring 0 120 text ++ "...")%string
            /\ String.length shown = 123%nat).
Proof.
  split.
  - intros [| |text]; simpl; split; intros H; auto; try discriminate.
    destruct H; discriminate.
  - intros text. unfold Journal.highlightText.
    destruct (120 <? String.length text)%nat eqn:E; eexists; split; try reflexivity.
    + apply Nat.ltb_lt in E.
      assert (Hlen : String.length (String.substring 0 120 text ++ "...") = 123%nat).
      { rewrite length_append, length_substring0. simpl String.length. lia. }
      split; [lia|]. split; [lia | auto].
    + apply Nat.ltb_ge in E. split; [lia|]. split; [auto | lia].
Qed.

(* ================================================================== *)
(** * Part XIV.  The radar chart of the environmental page              *)
(* ================================================================== *)

(** ** Objects as maps *)

Lemma get_own_In {V : Type} (o : JsObject.object V) (key : string) (v : V) :
  JsObject.get_own o key = Some v -> In (key, v) o.
Proof.
  induction o as [|[k w] rest IH]; simpl; [discriminate|].
  destruct (String.eqb k key) eqn:E.
  - apply String.eqb_eq in E. subst k. intros [= <-]. now left.
  - intros H. right. apply IH, H.
Qed.

Lemma get_own_None {V : Type} (o : JsObject.object V) (key : string) :
  JsObject.get_own o key = None <-> ~ In key (map fst o).
Proof.
  induction o as [|[k w] rest IH]; simpl; [tauto|].
  destruct (String.eqb k key) eqn:E.
  - apply String.eqb_eq in E. subst k. split; [discriminate | tauto].
  - apply String.eqb_neq in E. rewrite IH. tauto.
Qed.

Lemma keys_set_own {V : Type} (o : JsObject.object V) (key : string) (v : V)
    (k : string) :
  In k (map fst (JsObject.set_own o key v)) <-> k = key \/ In k (map fst o).
Proof.
  induction o as [|[k' w] rest IH]; simpl.
  - intuition.
  - destruct (String.eqb k' key) eqn:E; simpl.
    + apply String.eqb_eq in E. subst k'. intuition.
    + rewrite IH. intuition.
Qed.

Lemma NoDup_set_own {V : Type} (o : JsObject.object V) (key : string) (v : V) :
  NoDup (map fst o) -> NoDup (map fst (JsObject.set_own o key v)).
Proof.
  induction o as [|[k w] rest IH]; simpl; intros Hnd.
  - constructor; [intros [] | constructor].
  - inversion Hnd as [|? ? Hnotin Hrest]; subst.
    destruct (String.eqb k key) eqn:E; simpl.
    + constructor; assumption.
    + constructor; [|apply IH, Hrest].
      rewrite keys_set_own. apply String.eqb_neq in E. intros [->|Hin]; tauto.
Qed.

Lemma In_set_own {V : Type} (o : JsObject.object V) (key : string) (v : V)
    (k : string) (w : V) :
  NoDup (map fst o) ->
  In (k, w) (JsObject.set_own o key v) ->
  (k = key /\ w = v) \/ (k <> key /\ In (k, w) o).
Proof.
  induction o as [|[k' w'] rest IH]; simpl; intros Hnd Hin.
  - destruct Hin as [[= <- <-]|[]]. now left.
  - inversion Hnd as [|? ? Hnotin Hrest]; subst.
    destruct (String.eqb k' key) eqn:E.
    + apply String.eqb_eq in E. subst k'.
      destruct Hin as [[= <- <-]|Hin]; [now left|].
      right. split; [|now right].
      intros ->. apply Hnotin. apply (in_map fst) in Hin. exact Hin.
    + apply String.eqb_neq in E.
      destruct Hin as [[= <- <-]|Hin]; [right; split; [exact E | now left]|].
      destruct (IH Hrest Hin) as [H|[H1 H2]]; [now left | right; split; auto].
Qed.

Lemma insert_indexed_permutation {V : Type} (p : N * (string * V))
    (sorted : list (N * (string * V))) :
  Permutation (JsObject.insert_indexed p sorted) (p :: sorted).
Proof.
  induction sorted as [|q rest IH]; simpl; [apply Permutation_refl|].
  destruct (fst q <? fst p)%N.
  - apply perm_trans with (q :: p :: rest); [now apply perm_skip | apply perm_swap].
  - apply Permutation_refl.
Qed.

(** [Object.entries] lists every own property once. *)
Lemma entries_permutation {V : Type} (o : JsObject.object V) :
  Permutation (JsObject.entries o) o.
Proof.
  unfold JsObject.entries. induction o as [|[k v] rest IH]; simpl; [constructor|].
  destruct (JsObject.array_index k) as [n|]; simpl.
  - apply perm_trans with (map snd ((n, (k, v)) :: JsObject.indexed rest)
                           ++ JsObject.named rest)%list.
    + apply Permutation_app_tail, Permutation_map, insert_indexed_permutation.
    + simpl. apply perm_skip, IH.
  - apply Permutation_sym, Permutation_cons_app, Permutation_sym, IH.
Qed.

(** ** Filing the readings *)

Lemma group_at_snoc (locations : list Location.t) (name : string)
    (done : list EnvironmentalData.t) (d : EnvironmentalData.t) :
  Spec.group_at locations name (done ++ [d])
  = (Spec.group_at locations name done
     ++ if String.eqb (Spec.group_name locations d) name then [d] else [])%list.
Proof. unfold Spec.group_at. rewrite filter_app. reflexivity. Qed.

Lemma metrics_of_snoc (group : list EnvironmentalData.t) (d : EnvironmentalData.t) :
  Spec.metrics_of (group ++ [d]) = Environmental.push (Spec.metrics_of group) d.
Proof.
  unfold Spec.metrics_of, Environmental.push. simpl. rewrite !map_app. reflexivity.
Qed.

Lemma group_at_empty (locations : list Location.t) (name : string)
    (done : list EnvironmentalData.t) :
  (forall d, In d done -> Spec.group_name locations d <> name) ->
  Spec.group_at locations name done = [].
Proof.
  intros Hnone. unfold Spec.group_at.
  induction done as [|d rest IH]; simpl; [reflexivity|].
  destruct (String.eqb (Spec.group_name locations d) name) eqn:E.
  - apply String.eqb_eq in E. exfalso. apply (Hnone d); auto. now left.
  - apply IH. intros d' Hin. apply Hnone. now right.
Qed.

Lemma groups_hold_after (locations : list Location.t)
    (done : list EnvironmentalData.t) (d : EnvironmentalData.t)
    (groups : JsObject.object Environmental.Metrics) :
  Spec.groups_hold locations done groups ->
  JsObject.inherited (Spec.group_name locations d) = false ->
  Spec.groups_hold locations (done ++ [d])
    (JsObject.set_own groups (Spec.group_name locations d)
       (Environmental.push
          (Spec.metrics_of (Spec.group_at locations (Spec.group_name locations d) done))
          d)).
Proof.
  intros (Hnd & Hkeys & Hmetrics & Hown) Hd.
  set (n := Spec.group_name locations d) in *.
  split; [apply NoDup_set_own, Hnd|]. split; [|split].
  - intros k. rewrite keys_set_own, Hkeys. split.
    + intros [->|(d' & Hin & Hname)].
      * exists d. split; [apply in_or_app; right; now left | reflexivity].
      * exists d'. split; [apply in_or_app; now left | exact Hname].
    + intros (d' & Hin & Hname). apply in_app_or in Hin.
      destruct Hin as [Hin|[<-|[]]]; [right; eauto | left; symmetry; exact Hname].
  - intros k w Hin. destruct (@In_set_own _ _ _ _ _ _ Hnd Hin) as [[-> ->]|[Hne Hold]].
    + rewrite group_at_snoc. fold n. rewrite String.eqb_refl.
      symmetry. apply metrics_of_snoc.
    + rewrite group_at_snoc. fold n.
      rewrite (proj2 (String.eqb_neq n k)) by congruence.
      rewrite app_nil_r. apply Hmetrics, Hold.
  - intros k. rewrite keys_set_own. intros [->|Hin]; [exact Hd | apply Hown, Hin].
Qed.

Lemma collect_files (locations : list Location.t)
    (done : list EnvironmentalData.t) (d : EnvironmentalData.t)
    (groups : JsObject.object Environmental.Metrics) :
  Spec.groups_hold locations done groups ->
  JsObject.inherited (Spec.group_name locations d) = false ->
  exists groups',
    Environmental.collect locations (Some groups) d = Some groups'
    /\ Spec.groups_hold locations (done ++ [d]) groups'.
Proof.
  intros Hhold Hd. pose proof (groups_hold_after d Hhold Hd) as Hafter.
  destruct Hhold as (Hnd & Hkeys & Hmetrics & Hown).
  unfold Environmental.collect. fold (Spec.group_name locations d).
  destruct (JsObject.get_own groups (Spec.group_name locations d)) as [m|] eqn:E.
  - eexists. split; [reflexivity|].
    apply get_own_In in E. rewrite (Hmetrics _ _ E). exact Hafter.
  - rewrite Hd. eexists. split; [reflexivity|].
    rewrite group_at_empty in Hafter; [exact Hafter|].
    intros d' Hin Hname. apply get_own_None in E. apply E, Hkeys. eauto.
Qed.

Lemma collect_throws (locations : list Location.t)
    (done : list EnvironmentalData.t) (d : EnvironmentalData.t)
    (groups : JsObject.object Environmental.Metrics) :
  Spec.groups_hold locations done groups ->
  JsObject.inherited (Spec.group_name locations d) = true ->
  Environmental.collect locations (Some groups) d = None.
Proof.
  intros (Hnd & Hkeys & Hmetrics & Hown) Hd.
  unfold Environmental.collect. fold (Spec.group_name locations d).
  destruct (JsObject.get_own groups (Spec.group_name locations d)) as [m|] eqn:E.
  - apply get_own_In in E. apply (in_map fst) in E. apply Hown in E. simpl in E.
    congruence.
  - rewrite Hd. reflexivity.
Qed.

Lemma collect_after_throw (locations : list Location.t)
    (records : list EnvironmentalData.t) :
  fold_left (Environmental.collect locations) records None = None.
Proof. induction records; simpl; auto. Qed.

(** The loop either files every reading or throws at the first reading
    whose location name is an inherited property name. *)
Lemma collect_all (locations : list Location.t) (records : list EnvironmentalData.t) :
  forall (done : list EnvironmentalData.t)
         (groups : JsObject.object Environmental.Metrics),
    Spec.groups_hold locations done groups ->
    ((forall d, In d records -> JsObject.inherited (Spec.group_name locations d) = false) ->
     exists groups',
       fold_left (Environmental.collect locations) records (Some groups) = Some groups'
       /\ Spec.groups_hold locations (done ++ records) groups')
    /\ ((exists d, In d records
                   /\ JsObject.inherited (Spec.group_name locations d) = true) ->
        fold_left (Environmental.collect locations) records (Some groups) = None).
Proof.
  induction records as [|d rest IH]; intros done groups Hhold.
  - split.
    + intros _. exists groups. rewrite app_nil_r. split; [reflexivity | exact Hhold].
    + intros (d & [] & _).
  - cbn [fold_left].
    destruct (JsObject.inherited (Spec.group_name locations d)) eqn:Hd.
    + split.
      * intros Hall. specialize (Hall d (or_introl eq_refl)). congruence.
      * intros _. rewrite (collect_throws d Hhold Hd). apply collect_after_throw.
    + destruct (collect_files d Hhold Hd) as (groups' & -> & Hhold').
      destruct (IH (done ++ [d])%list groups' Hhold') as [Hfile Hthrow].
      split.
      * intros Hall. destruct Hfile as (groups'' & Hfold & Hhold'').
        { intros d' Hin. apply Hall. now right. }
        exists groups''. rewrite <- app_assoc in Hhold''. auto.
      * intros (d' & [<-|Hin] & Hd'); [congruence|]. apply Hthrow. eauto.
Qed.

Lemma groups_hold_initially (locations : list Location.t) :
  Spec.groups_hold locations [] [].
Proof.
  split; [constructor|]. split; [|split].
  - intros name. simpl. split; [tauto | intros (d & [] & _)].
  - intros name metrics [].
  - intros name [].
Qed.

(** ** What the radar chart is given *)

Lemma radar_groups (environmentalData : list EnvironmentalData.t)
    (locations : list Location.t) (selectedLocation : string)
    (points : list Environmental.RadarPoint) :
  Environmental.prepareRadarData environmentalData locations selectedLocation
  = Some points ->
  exists groups,
    Spec.groups_hold locations
      (Environmental.getFilteredData environmentalData selectedLocation) groups
    /\ points = map Environmental.radarPoint (JsObject.entries groups).
Proof.
  unfold Environmental.prepareRadarData. cbv zeta.
  set (records := Environmental.getFilteredData environmentalData selectedLocation).
  destruct (Nat.eqb (List.length records) 0) eqn:E.
  - intros [= <-]. exists []. destruct records; [|discriminate].
    split; [apply groups_hold_initially | reflexivity].
  - destruct (@collect_all locations records [] [] (groups_hold_initially locations))
      as [Hfile Hthrow].
    unfold JsObject.object in *.
    destruct (existsb (fun d => JsObject.inherited (Spec.group_name locations d)) records)
      eqn:Ex.
    + apply existsb_exists in Ex. rewrite (Hthrow Ex). discriminate.
    + destruct Hfile as (groups & -> & Hhold).
      { intros d Hin.
        destruct (JsObject.inherited (Spec.group_name locations d)) eqn:Hd;
          [|reflexivity].
        assert (existsb (fun d => JsObject.inherited (Spec.group_name locations d))
                        records = true) as Habs
            by (apply existsb_exists; eauto).
        congruence. }
      intros [= <-]. exists groups. split; [exact Hhold | reflexivity].
Qed.

(** X3.  [prepareRadarData] throws exactly when a reading in scope belongs to
    a location whose name is a property name that every object inherits,
    such as "constructor" or "toString". *)
Theorem radar_throws_on_inherited_name :
  forall (environmentalData : list EnvironmentalData.t) (locations : list Location.t)
         (selectedLocation : string),
    Environmental.prepareRadarData environmentalData locations selectedLocation = None
    <-> exists d,
          In d (Environmental.getFilteredData environmentalData selectedLocation)
          /\ JsObject.inherited (Spec.group_name locations d) = true.
Proof.
  intros environmentalData locations selectedLocation.
  unfold Environmental.prepareRadarData. cbv zeta.
  set (records := Environmental.getFilteredData environmentalData selectedLocation).
  destruct (@collect_all locations records [] [] (groups_hold_initially locations))
    as [Hfile Hthrow].
  unfold JsObject.object in *.
  destruct (Nat.eqb (List.length records) 0) eqn:E.
  - destruct records; [|discriminate]. split; [discriminate | intros (d & [] & _)].
  - split.
    + intros Hnone.
      destruct (existsb (fun d => JsObject.inherited (Spec.group_name locations d))
                        records) eqn:Ex.
      * apply existsb_exists in Ex. exact Ex.
      * destruct Hfile as (groups & Hfold & _).
        { intros d Hin.
          destruct (JsObject.inherited (Spec.group_name locations d)) eqn:Hd;
            [|reflexivity].
          assert (existsb (fun d => JsObject.inherited (Spec.group_name locations d))
                          records = true) as Habs
              by (apply existsb_exists; eauto).
          congruence. }
        rewrite Hfold in Hnone. discriminate.
    + intros Hex. rewrite (Hthrow Hex). reflexivity.
Qed.

Example radar_throws_sample :
  Environmental.prepareRadarData
    Sample.readings [Sample.place "alps" "constructor"; Sample.place "fjord" "Geiranger"]
    "all"
  = None
  /\ exists points,
      Environmental.prepareRadarData Sample.readings Sample.places "all" = Some points
      /\ map Environmental.location points = ["Zermatt"; "Geiranger"].
Proof. split; [reflexivity | eexists; split; reflexivity]. Qed.

Lemma radar_point_location (entry : string * Environmental.Metrics) :
  Environmental.location (Environmental.radarPoint entry) = fst entry.
Proof. destruct entry; reflexivity. Qed.

(** X2.  When it does not throw, the radar data has exactly one point for
    every location name that a reading in scope resolves to. *)
Theorem radar_has_one_point_per_location :
  forall (environmentalData : list EnvironmentalData.t) (locations : list Location.t)
         (selectedLocation : string) (points : list Environmental.RadarPoint),
    Environmental.prepareRadarData environmentalData locations selectedLocation
    = Some points ->
    NoDup (map Environmental.location points)
    /\ forall name,
        In name (map Environmental.location points)
        <-> exists d,
              In d (Environmental.getFilteredData environmentalData selectedLocation)
              /\ Spec.group_name locations d = name.
Proof.
  intros environmentalData locations selectedLocation points Hsome.
  destruct (radar_groups _ _ _ Hsome) as (groups & (Hnd & Hkeys & _ & _) & ->).
  assert (Hperm : Permutation
                    (map Environmental.location
                         (map Environmental.radarPoint (JsObject.entries groups)))
                    (map fst groups)).
  { rewrite map_map. rewrite (map_ext _ fst radar_point_location).
    apply Permutation_map, entries_permutation. }
  split.
  - apply (Permutation_NoDup (Permutation_sym Hperm) Hnd).
  - intros name. rewrite <- Hkeys. split; apply Permutation_in;
      [exact Hperm | exact (Permutation_sym Hperm)].
Qed.

Lemma radar_has_one_point_per_location_witness :
  exists points,
    Environmental.prepareRadarData Sample.readings Sample.places "all" = Some points
    /\ NoDup (map Environmental.location points)
    /\ forall name,
        In name (map Environmental.location points)
        <-> exists d,
              In d (Environmental.getFilteredData Sample.readings "all")
              /\ Spec.group_name Sample.places d = name.
Proof.
  eexists. split; [reflexivity|].
  apply (radar_has_one_point_per_location Sample.readings Sample.places "all").
  reflexivity.
Defined.

Lemma fold_left_map {A B C : Type} (f : C -> B -> C) (h : A -> B) (xs : list A) (c : C) :
  fold_left f (map h xs) c = fold_left (fun acc x => f acc (h x)) xs c.
Proof. revert c. induction xs as [|x rest IH]; intros c; simpl; auto. Qed.

(** The local [avg] applied to the array of a group's zero-substituted
    values is the mean of the group. *)
Lemma avg_of_group {A : Type} (field : A -> Js.value) (group : list A) :
  group <> [] ->
  exists a,
    Environmental.avg (map (fun d => Js.or_zero (field d)) group) = Js.Finite a
    /\ (a == Spec.mean field group)%Q.
Proof.
  intros Hne. apply same_finite_inv.
  unfold Environmental.avg. rewrite fold_left_map.
  unfold Js.length_of. rewrite length_map.
  apply (JsFacts.average_or_zero field Hne).
Qed.

Lemma radar_point_of_group (environmentalData : list EnvironmentalData.t)
    (locations : list Location.t) (selectedLocation : string)
    (points : list Environmental.RadarPoint) (p : Environmental.RadarPoint) :
  Environmental.prepareRadarData environmentalData locations selectedLocation
  = Some points ->
  In p points ->
  let group :=
    Spec.group_at locations (Environmental.location p)
      (Environmental.getFilteredData environmentalData selectedLocation) in
  group <> []
  /\ p = Environmental.radarPoint (Environmental.location p, Spec.metrics_of group).
Proof.
  intros Hsome Hp group.
  destruct (radar_groups _ _ _ Hsome) as (groups & (Hnd & Hkeys & Hmetrics & _) & ->).
  apply in_map_iff in Hp. destruct Hp as ([name metrics] & <- & Hin).
  apply (Permutation_in _ (entries_permutation groups)) in Hin.
  subst group. simpl Environmental.location.
  rewrite <- (Hmetrics _ _ Hin). split; [|reflexivity].
  assert (Hkey : In name (map fst groups)) by (apply (in_map fst) in Hin; exact Hin).
  apply Hkeys in Hkey. destruct Hkey as (d & Hd & Hname).
  intros Hempty.
  assert (Hd' : In d (Spec.group_at locations name
                        (Environmental.getFilteredData environmentalData selectedLocation))).
  { unfold Spec.group_at. apply filter_In. split; [exact Hd|].
    apply String.eqb_eq, Hname. }
  rewrite Hempty in Hd'. exact Hd'.
Qed.

(** [normalize] of a finite value on a positive scale, on the rationals. *)
Lemma normalize_rescaled (maxScale a b : Q) :
  (0 < maxScale)%Q -> (a == b)%Q ->
  Environmental.normalize (Js.Finite a) (Js.Finite maxScale)
  =~ Js.Finite (Spec.rescaled b maxScale).
Proof.
  intros Hpos Hab. rewrite (normalize_finite a Hpos). unfold Spec.rescaled.
  destruct (Qle_bool 100 (a / maxScale * 100)) eqn:E; simpl.
  - apply Qle_bool_iff in E. rewrite Hab in E.
    symmetry. apply Q.min_l. exact E.
  - apply JsFacts.Qle_bool_false in E. rewrite Hab in E. rewrite Hab.
    symmetry. apply Q.min_r. apply Qlt_le_weak. exact E.
Qed.

(** X1.  Each point of the radar data carries the means of its group, the
    readings in scope whose location resolves to the point's name:
    Humidity is the mean humidity, and Temperature, Light, Air Quality
    and Noise are the lesser of 100 and the mean taken as a percentage of
    the ceilings 40, 10000, 200 and 100; a missing value counts as 0. *)
Theorem radar_points_are_group_means :
  forall (environmentalData : list EnvironmentalData.t) (locations : list Location.t)
         (selectedLocation : string) (points : list Environmental.RadarPoint)
         (p : Environmental.RadarPoint),
    Environmental.prepareRadarData environmentalData locations selectedLocation
    = Some points ->
    In p points ->
    let group :=
      Spec.group_at locations (Environmental.location p)
        (Environmental.getFilteredData environmentalData selectedLocation) in
    group <> []
    /\ Environmental.Humidity p
       =~ Js.Finite (Spec.mean EnvironmentalData.humidity group)
    /\ Environmental.Temperature p
       =~ Js.Finite (Qmin 100 (Spec.mean EnvironmentalData.temperature_avg group
                               / 40 * 100))
    /\ Environmental.Light p
       =~ Js.Finite (Qmin 100 (Spec.mean EnvironmentalData.light_exposure group
                               / 10000 * 100))
    /\ Environmental.Air_Quality p
       =~ Js.Finite (Qmin 100 (Spec.mean EnvironmentalData.air_quality_index group
                               / 200 * 100))
    /\ Environmental.Noise p
       =~ Js.Finite (Qmin 100 (Spec.mean EnvironmentalData.noise_level group
                               / 100 * 100)).
Proof.
  intros environmentalData locations selectedLocation points p Hsome Hp group.
  destruct (@radar_point_of_group _ _ _ _ _ Hsome Hp) as [Hne Hpoint]. fold group in Hne, Hpoint.
  split; [exact Hne|]. rewrite Hpoint.
  cbn [Environmental.radarPoint Environmental.Humidity Environmental.Temperature
       Environmental.Light Environmental.Air_Quality Environmental.Noise
       Spec.metrics_of Environmental.temperature Environmental.humidity
       Environmental.light Environmental.airQuality Environmental.noise].
  destruct (avg_of_group EnvironmentalData.humidity Hne) as (h & -> & Hh).
  destruct (avg_of_group EnvironmentalData.temperature_avg Hne) as (t & -> & Ht).
  destruct (avg_of_group EnvironmentalData.light_exposure Hne) as (l & -> & Hl).
  destruct (avg_of_group EnvironmentalData.air_quality_index Hne) as (a & -> & Ha).
  destruct (avg_of_group EnvironmentalData.noise_level Hne) as (n & -> & Hn).
  split; [exact Hh|].
  repeat split; apply normalize_rescaled; try assumption; reflexivity.
Qed.

Lemma radar_points_are_group_means_witness :
  exists points p,
    Environmental.prepareRadarData Sample.readings Sample.places "all" = Some points
    /\ In p points
    /\ Environmental.Temperature p
       =~ Js.Finite
            (Qmin 100
               (Spec.mean EnvironmentalData.temperature_avg
                  (Spec.group_at Sample.places (Environmental.location p)
                     (Environmental.getFilteredData Sample.readings "all"))
                / 40 * 100)).
Proof.
  eexists. eexists. split; [reflexivity|]. split; [left; reflexivity|].
  exact (proj1 (proj2 (proj2
           (@radar_points_are_group_means Sample.readings Sample.places "all" _ _
              eq_refl (or_introl eq_refl))))).
Defined.

(** Two readings at one location with the temperatures 10 and 20 give
    the group mean 15, shown as 37.5 on the scale of 40. *)
Example radar_group_mean_sample :
  option_map (map Environmental.Temperature)
    (Environmental.prepareRadarData
       [Sample.reading "fjord" (Js.Num 10) Js.Undefined Js.Undefined;
        Sample.reading "fjord" (Js.Num 20) Js.Undefined Js.Undefined]
       Sample.places "all")
  = Some [Js.Finite (3000 # 80)].
Proof. reflexivity. Qed.

(** X4.  Whatever the readings, the Temperature, Light, Air Quality and Noise
    of every point of the radar data are at most 100. *)
Theorem radar_values_at_most_100 :
  forall (environmentalData : list EnvironmentalData.t) (locations : list Location.t)
         (selectedLocation : string) (points : list Environmental.RadarPoint)
         (p : Environmental.RadarPoint),
    Environmental.prepareRadarData environmentalData locations selectedLocation
    = Some points ->
    In p points ->
    Environmental.Temperature p <= Js.Finite 100
    /\ Environmental.Light p <= Js.Finite 100
    /\ Environmental.Air_Quality p <= Js.Finite 100
    /\ Environmental.Noise p <= Js.Finite 100.
Proof.
  intros environmentalData locations selectedLocation points p Hsome Hp.
  destruct (@radar_point_of_group _ _ _ _ _ Hsome Hp) as [Hne Hpoint].
  rewrite Hpoint.
  cbn [Environmental.radarPoint Environmental.Temperature
       Environmental.Light Environmental.Air_Quality Environmental.Noise
       Spec.metrics_of Environmental.temperature
       Environmental.light Environmental.airQuality Environmental.noise].
  destruct (avg_of_group EnvironmentalData.temperature_avg Hne) as (t & -> & _).
  destruct (avg_of_group EnvironmentalData.light_exposure Hne) as (l & -> & _).
  destruct (avg_of_group EnvironmentalData.air_quality_index Hne) as (a & -> & _).
  destruct (avg_of_group EnvironmentalData.noise_level Hne) as (n & -> & _).
  repeat split; apply normalize_finite_clamped; reflexivity.
Qed.

Lemma radar_values_at_most_100_witness :
  exists points p,
    Environmental.prepareRadarData Sample.readings Sample.places "all" = Some points
    /\ In p points
    /\ Environmental.Temperature p <= Js.Finite 100
    /\ Environmental.Light p <= Js.Finite 100
    /\ Environmental.Air_Quality p <= Js.Finite 100
    /\ Environmental.Noise p <= Js.Finite 100.
Proof.
  eexists. eexists. split; [reflexivity|]. split; [left; reflexivity|].
  exact (@radar_values_at_most_100 Sample.readings Sample.places "all" _ _
           eq_refl (or_introl eq_refl)).
Defined.

(* ================================================================== *)
(** * Part XV.  The journey map                                         *)
(* ================================================================== *)

Lemma reduce_ToNumber {A : Type} (field : A -> Js.value) (records : list A) (acc : Q) :
  Spec.all_present field records ->
  exists s,
    fold_left (fun sum d => sum + Js.ToNumber (field d)) records (Js.Finite acc)
    = Js.Finite s
    /\ (s == acc + Spec.total field records)%Q.
Proof.
  revert acc. induction records as [|d rest IH]; intros acc Hall; simpl.
  - exists acc. split; [reflexivity | ring].
  - destruct (Hall d (or_introl eq_refl)) as (q & Hq). rewrite Hq. simpl.
    destruct (IH (acc + q)%Q) as (s & Hs & Hsum).
    { intros d' Hin. apply Hall. now right. }
    exists s. split; [exact Hs|]. rewrite Hsum. ring.
Qed.

Lemma reduce_NaN {A : Type} (field : A -> Js.value) (records : list A) :
  fold_left (fun sum d => sum + Js.ToNumber (field d)) records Js.NaN = Js.NaN.
Proof. induction records; simpl; auto. Qed.

Lemma reduce_missing {A : Type} (field : A -> Js.value) (records : list A)
    (d : A) (start : Js.number) :
  In d records -> field d = Js.Undefined ->
  fold_left (fun sum d => sum + Js.ToNumber (field d)) records start = Js.NaN.
Proof.
  revert start. induction records as [|x rest IH]; intros start Hin Hd; [contradiction|].
  simpl. destruct Hin as [->|Hin].
  - rewrite Hd. simpl. rewrite add_NaN_r. apply reduce_NaN.
  - apply IH; assumption.
Qed.

Lemma mean_ToNumber {A : Type} (field : A -> Js.value) (records : list A) :
  records <> [] -> Spec.all_present field records ->
  exists a,
    fold_left (fun sum d => sum + Js.ToNumber (field d)) records (Js.Finite 0)
    / Js.length_of records = Js.Finite a
    /\ (a == Spec.mean field records)%Q.
Proof.
  intros Hne Hall. destruct (reduce_ToNumber 0 Hall) as (s & -> & Hs).
  unfold Js.length_of, Js.div. rewrite (JsFacts.length_nonzero Hne).
  eexists. split; [reflexivity|]. unfold Spec.mean. rewrite Hs. field.
  intros E. apply Qeq_eq_bool in E. rewrite (JsFacts.length_nonzero Hne) in E.
  discriminate.
Qed.

(** X24.  Without locations the map is centred on (20, 0).  With locations
    that all have their coordinates on the globe, the latitude in
    [-90, 90] and the longitude in [-180, 180], the centre is a point on
    the globe as well. *)
Theorem map_centre_on_the_globe :
  JourneyMap.getMapCenter [] = (Js.Finite 20, Js.Finite 0)
  /\ forall locations : list Location.t,
      locations <> [] ->
      (forall loc, In loc locations ->
                   exists lat lng,
                     Location.latitude loc = Js.Num lat
                     /\ Location.longitude loc = Js.Num lng
                     /\ (-90 <= lat <= 90)%Q /\ (-180 <= lng <= 180)%Q) ->
      exists lat lng,
        JourneyMap.getMapCenter locations = (Js.Finite lat, Js.Finite lng)
        /\ (-90 <= lat <= 90)%Q /\ (-180 <= lng <= 180)%Q.
Proof.
  split; [reflexivity|].
  intros locations Hne Hbox.
  unfold JourneyMap.getMapCenter. rewrite (nonempty_length_eqb Hne). cbv zeta.
  assert (Hlat : Spec.all_present Location.latitude locations).
  { intros loc Hin. destruct (Hbox loc Hin) as (lat & _ & H & _). eauto. }
  assert (Hlng : Spec.all_present Location.longitude locations).
  { intros loc Hin. destruct (Hbox loc Hin) as (_ & lng & _ & H & _). eauto. }
  destruct (mean_ToNumber Hne Hlat) as (lat & -> & Elat).
  destruct (mean_ToNumber Hne Hlng) as (lng & -> & Elng).
  exists lat, lng. split; [reflexivity|].
  destruct (@mean_between _ Location.latitude locations (-90) 90 Hne) as [H1 H2].
  { intros loc Hin. destruct (Hbox loc Hin) as (a & b & -> & _ & [H _] & _). exact H. }
  { intros loc Hin. destruct (Hbox loc Hin) as (a & b & -> & _ & [_ H] & _). exact H. }
  destruct (@mean_between _ Location.longitude locations (-180) 180 Hne) as [H3 H4].
  { intros loc Hin. destruct (Hbox loc Hin) as (a & b & _ & -> & _ & [H _]). exact H. }
  { intros loc Hin. destruct (Hbox loc Hin) as (a & b & _ & -> & _ & [_ H]). exact H. }
  rewrite Elat, Elng. repeat split; assumption.
Qed.

Lemma sample_sites_on_the_globe :
  forall loc, In loc Sample.sites ->
              exists lat lng,
                Location.latitude loc = Js.Num lat
                /\ Location.longitude loc = Js.Num lng
                /\ (-90 <= lat <= 90)%Q /\ (-180 <= lng <= 180)%Q.
Proof.
  intros loc [<-|[<-|[]]]; eexists; eexists;
    (split; [reflexivity|]); (split; [reflexivity|]); repeat split; discriminate.
Defined.

Lemma map_centre_on_the_globe_witness :
  Sample.sites <> []
  /\ exists lat lng,
      JourneyMap.getMapCenter Sample.sites = (Js.Finite lat, Js.Finite lng)
      /\ (-90 <= lat <= 90)%Q /\ (-180 <= lng <= 180)%Q.
Proof.
  split; [discriminate|].
  apply (proj2 map_centre_on_the_globe Sample.sites); [discriminate|].
  exact sample_sites_on_the_globe.
Defined.

(** X25.  One location without latitude (or longitude) is enough to make that
    coordinate of the centre [NaN]. *)
Theorem map_centre_needs_every_coordinate :
  forall (locations : list Location.t) (loc : Location.t),
    In loc locations ->
    (Location.latitude loc = Js.Undefined ->
     fst (JourneyMap.getMapCenter locations) = Js.NaN)
    /\ (Location.longitude loc = Js.Undefined ->
        snd (JourneyMap.getMapCenter locations) = Js.NaN).
Proof.
  intros locations loc Hin. unfold JourneyMap.getMapCenter.
  assert (Hne : locations <> []) by (intros ->; contradiction).
  rewrite (nonempty_length_eqb Hne). cbv zeta. simpl fst. simpl snd.
  split; intros Hmissing; rewrite (@reduce_missing _ _ _ _ (Js.Finite 0) Hin Hmissing); reflexivity.
Qed.

Lemma map_centre_needs_every_coordinate_witness :
  fst (JourneyMap.getMapCenter
         [Sample.site "alps" "Zermatt" (Js.Num 46) (Js.Num 8);
          Sample.site "fjord" "Geiranger" Js.Undefined (Js.Num 7)])
  = Js.NaN.
Proof.
  apply (proj1 (map_centre_needs_every_coordinate
                  [Sample.site "alps" "Zermatt" (Js.Num 46) (Js.Num 8);
                   Sample.site "fjord" "Geiranger" Js.Undefined (Js.Num 7)]
                  (Sample.site "fjord" "Geiranger" Js.Undefined (Js.Num 7))
                  (or_intror (or_introl eq_refl)))).
  reflexivity.
Defined.

(** X26.  For a location with a string id other than "all", the map shows the
    readings the environmental page shows for it, and its "Environment"
    card the same average temperature and humidity as the page, being
    absent exactly when the page has no statistics. *)
Theorem map_agrees_with_environmental_page :
  forall (environmentalData : list EnvironmentalData.t) (X : string),
    X <> "all" ->
    JourneyMap.getLocationEnvironmentalData environmentalData (Js.Str X)
    = Environmental.getFilteredData environmentalData X
    /\ JourneyMap.environmentSummary environmentalData (Js.Str X)
       = option_map (fun stats => (Environmental.temperature_avg_of stats,
                                   Environmental.humidity_avg_of stats))
                    (Environmental.getMetricStats environmentalData X).
Proof.
  intros environmentalData X HX.
  assert (Hsame : JourneyMap.getLocationEnvironmentalData environmentalData (Js.Str X)
                  = Environmental.getFilteredData environmentalData X).
  { unfold JourneyMap.getLocationEnvironmentalData, Environmental.getFilteredData.
    apply String.eqb_neq in HX. rewrite HX. reflexivity. }
  split; [exact Hsame|].
  unfold JourneyMap.environmentSummary, Environmental.getMetricStats. cbv zeta.
  rewrite Hsame.
  destruct (Environmental.getFilteredData environmentalData X); reflexivity.
Qed.

Lemma map_agrees_with_environmental_page_witness :
  "alps" <> "all"
  /\ JourneyMap.environmentSummary Sample.readings (Js.Str "alps")
     = option_map (fun stats => (Environmental.temperature_avg_of stats,
                                 Environmental.humidity_avg_of stats))
                  (Environmental.getMetricStats Sample.readings "alps").
Proof.
  assert (H : "alps" <> "all") by discriminate.
  split; [exact H|].
  exact (proj2 (map_agrees_with_environmental_page Sample.readings H)).
Defined.

(* ================================================================== *)
(** * Part XVI.  Further runs on the sample data                        *)
(* ================================================================== *)

Lemma cards_show_first_extreme_record_witness :
  Biological.getFilteredData Sample.biometrics "fjord" <> []
  /\ Spec.all_present BiologicalData.heart_rate_variability
       (Biological.getFilteredData Sample.biometrics "fjord")
  /\ exists harmonyData d row,
       Biological.getHarmonyZones Sample.biometrics Sample.places "fjord" Sample.label
       = Some harmonyData
       /\ Spec.first_maximum BiologicalData.heart_rate_variability
            (Biological.getFilteredData Sample.biometrics "fjord") d
       /\ Spec.harmony_row Sample.places Sample.label d row
       /\ Biological.bestRecovery harmonyData = Some row.
Proof.
  assert (Hne : Biological.getFilteredData Sample.biometrics "fjord" <> [])
    by discriminate.
  assert (Hall : Spec.all_present BiologicalData.heart_rate_variability
                   (Biological.getFilteredData Sample.biometrics "fjord")).
  { intros d [<-|[]]. exists 40%Q. reflexivity. }
  split; [exact Hne|]. split; [exact Hall|].
  destruct (cards_show_first_extreme_record
              Sample.biometrics Sample.places "fjord" Sample.label)
    as (_ & _ & Hcards).
  destruct (Hcards _ eq_refl) as (_ & Hbest & _).
  destruct (Hbest Hne Hall) as (d & row & Hfirst & Hrow & Hcard).
  eexists _, d, row.
  split; [reflexivity|]. split; [exact Hfirst|]. split; [exact Hrow|]. exact Hcard.
Defined.

Example cards_sample :
  option_map Biological.location
    (match Biological.getHarmonyZones Sample.biometrics Sample.places "fjord"
                                      Sample.label with
     | Some harmonyData => Biological.bestRecovery harmonyData
     | None => None
     end)
  = Some (Js.Str "Geiranger").
Proof. reflexivity. Qed.

(** A record in scope without a date: [getHarmonyZones] throws, though the
    statistics cards, which format no date, are still computed. *)
Example harmony_zones_sample_without_date :
  let undated :=
    BiologicalData.make Js.NoText (Js.Str "fjord") Js.NoText (Js.Num 60) Js.Undefined
                        (Js.Num 50) Js.Undefined (Js.Num 7) Js.Undefined Js.Undefined
                        Js.NoText (Js.Num 3) in
  Biological.getHarmonyZones (Sample.biometrics ++ [undated])%list Sample.places
                             "fjord" Sample.label = None
  /\ Biological.getHarmonyZones (Sample.biometrics ++ [undated])%list Sample.places
                                "alps" Sample.label <> None
  /\ Biological.getBiometricStats (Sample.biometrics ++ [undated])%list "fjord" <> None.
Proof. repeat split; discriminate. Qed.

Lemma toggleEmotion_keeps_set_witness :
  NoDup [joy; calm] /\ NoDup (Journal.toggleEmotion [joy; calm] wonder).
Proof.
  assert (Hnd : NoDup [joy; calm]).
  { repeat (constructor; [simpl; intuition discriminate|]). constructor. }
  split; [exact Hnd|].
  exact (toggleEmotion_keeps_set wonder Hnd).
Defined.

Example stress_colour_samples :
  map Biological.getStressColor
      [Js.Num 0; Js.Num 3; Js.Num (7 # 2); Js.Num 6; Js.Num 9; Js.Null; Js.Undefined]
  = ["#9caf88"; "#9caf88"; "#d4af37"; "#d4af37"; "#c65d07"; "#9caf88"; "#c65d07"].
Proof. reflexivity. Qed.

Example highlight_text_samples :
  Journal.highlightTexts
    [JournalEntry.make Js.NoText Js.NoText Js.NoText (Js.Str "Dawn")
                       (Js.Str "First light on the ridge.") None Js.Undefined true
                       Js.NoText Js.NoText;
     JournalEntry.make Js.NoText Js.NoText Js.NoText (Js.Str "Untitled")
                       Js.NoText None Js.Undefined true Js.NoText Js.NoText;
     JournalEntry.make Js.NoText Js.NoText Js.NoText (Js.Str "Rest")
                       (Js.Str "Nothing to report.") None Js.Undefined false
                       Js.NoText Js.NoText]
  = [Some "First light on the ridge."; None].
Proof. reflexivity. Qed.

(* ================================================================== *)
(** * Part XVII.  The order of the radar points                         *)
(* ================================================================== *)

Lemma first_mentions_snoc (names : list string) (name : string) :
  Spec.first_mentions (names ++ [name])
  = if existsb (String.eqb name) names then Spec.first_mentions names
    else (Spec.first_mentions names ++ [name])%list.
Proof.
  induction names as [|n rest IH]; simpl; [reflexivity|].
  rewrite IH. destruct (String.eqb name n) eqn:E; simpl.
  - destruct (existsb (String.eqb name) rest); [reflexivity|].
    rewrite filter_app. simpl. rewrite E. simpl. rewrite app_nil_r. reflexivity.
  - destruct (existsb (String.eqb name) rest); [reflexivity|].
    rewrite filter_app. simpl. rewrite E. reflexivity.
Qed.

Lemma in_first_mentions (names : list string) (name : string) :
  In name (Spec.first_mentions names) <-> In name names.
Proof.
  induction names as [|n rest IH]; simpl; [tauto|].
  rewrite filter_In, IH. destruct (String.eqb name n) eqn:E.
  - apply String.eqb_eq in E. subst n. intuition.
  - apply String.eqb_neq in E. intuition congruence.
Qed.

Lemma keys_after_set_own {V : Type} (o : JsObject.object V) (key : string) (v : V) :
  map fst (JsObject.set_own o key v)
  = if existsb (String.eqb key) (map fst o) then map fst o
    else (map fst o ++ [key])%list.
Proof.
  induction o as [|[k w] rest IH]; simpl; [reflexivity|].
  rewrite (String.eqb_sym key k). destruct (String.eqb k key) eqn:E; simpl.
  - reflexivity.
  - rewrite IH. destruct (existsb (String.eqb key) (map fst rest)); reflexivity.
Qed.

Lemma existsb_names (names : list string) (name : string) :
  existsb (String.eqb name) names = existsb (String.eqb name) (Spec.first_mentions names).
Proof.
  destruct (existsb (String.eqb name) names) eqn:E; symmetry.
  - apply existsb_exists in E. destruct E as (x & Hx & Heq).
    apply String.eqb_eq in Heq. subst x.
    apply existsb_exists. exists name. split; [|apply String.eqb_refl].
    apply in_first_mentions, Hx.
  - destruct (existsb (String.eqb name) (Spec.first_mentions names)) eqn:F;
      [|reflexivity].
    apply existsb_exists in F. destruct F as (x & Hx & Heq).
    apply String.eqb_eq in Heq. subst x. apply (proj1 (in_first_mentions _ _)) in Hx.
    assert (existsb (String.eqb name) names = true) as Habs
        by (apply existsb_exists; exists name; split;
            [exact Hx | apply String.eqb_refl]).
    congruence.
Qed.

(** The properties of [locationGroups] are created in the order in which
    the names are first met. *)
Lemma collect_in_order (locations : list Location.t) (records : list EnvironmentalData.t) :
  forall (done : list EnvironmentalData.t)
         (groups groups' : JsObject.object Environmental.Metrics),
    map fst groups = Spec.first_mentions (map (Spec.group_name locations) done) ->
    fold_left (Environmental.collect locations) records (Some groups) = Some groups' ->
    map fst groups'
    = Spec.first_mentions (map (Spec.group_name locations) (done ++ records)).
Proof.
  induction records as [|d rest IH]; intros done groups groups' Hkeys Hfold.
  - simpl in Hfold. injection Hfold as <-. rewrite app_nil_r. exact Hkeys.
  - cbn [fold_left] in Hfold.
    assert (Hstep : forall v,
               map fst (JsObject.set_own groups (Spec.group_name locations d) v)
               = Spec.first_mentions
                   (map (Spec.group_name locations) (done ++ [d]))).
    { intros v. rewrite keys_after_set_own, map_app. simpl map.
      rewrite first_mentions_snoc, Hkeys, <- existsb_names. reflexivity. }
    replace (done ++ d :: rest)%list with ((done ++ [d]) ++ rest)%list
      by (rewrite <- app_assoc; reflexivity).
    unfold Environmental.collect in Hfold at 2.
    fold (Spec.group_name locations d) in Hfold.
    destruct (JsObject.get_own groups (Spec.group_name locations d)) as [m|].
    + apply (IH _ _ _ (Hstep _) Hfold).
    + destruct (JsObject.inherited (Spec.group_name locations d)).
      * rewrite collect_after_throw in Hfold. discriminate.
      * apply (IH _ _ _ (Hstep _) Hfold).
Qed.

Lemma entries_without_index {V : Type} (o : JsObject.object V) :
  (forall key, In key (map fst o) -> JsObject.array_index key = None) ->
  JsObject.entries o = o.
Proof.
  intros Hnone.
  assert (H : JsObject.indexed o = [] /\ JsObject.named o = o).
  { induction o as [|[k v] rest IH]; [split; reflexivity|].
    destruct IH as [Hindexed Hnamed].
    { intros key Hin. apply Hnone. now right. }
    unfold JsObject.named in *. simpl.
    rewrite (Hnone k (or_introl eq_refl)). simpl. rewrite Hnamed. auto. }
  unfold JsObject.entries. destruct H as [-> ->]. reflexivity.
Qed.

(** X5.  When no location name in scope is an array index, the points of the
    radar data stand in the order in which the readings in scope first
    mention their locations. *)
Theorem radar_points_in_order_of_first_mention :
  forall (environmentalData : list EnvironmentalData.t) (locations : list Location.t)
         (selectedLocation : string) (points : list Environmental.RadarPoint),
    Environmental.prepareRadarData environmentalData locations selectedLocation
    = Some points ->
    (forall d,
        In d (Environmental.getFilteredData environmentalData selectedLocation) ->
        JsObject.array_index (Spec.group_name locations d) = None) ->
    map Environmental.location points
    = Spec.first_mentions
        (map (Spec.group_name locations)
             (Environmental.getFilteredData environmentalData selectedLocation)).
Proof.
  intros environmentalData locations selectedLocation points.
  unfold Environmental.prepareRadarData. cbv zeta.
  set (records := Environmental.getFilteredData environmentalData selectedLocation).
  destruct (Nat.eqb (List.length records) 0) eqn:E.
  - intros [= <-] _. destruct records; [reflexivity | discriminate].
  - destruct (fold_left (Environmental.collect locations) records (Some []))
      as [groups|] eqn:F; [|discriminate].
    intros [= <-] Hnone.
    pose proof (@collect_in_order locations records [] [] groups eq_refl F) as Hkeys.
    simpl app in Hkeys.
    rewrite entries_without_index.
    + rewrite map_map, (map_ext _ fst radar_point_location). exact Hkeys.
    + intros key Hin. rewrite Hkeys in Hin. apply (proj1 (in_first_mentions _ _)) in Hin.
      apply in_map_iff in Hin. destruct Hin as (d & <- & Hd). apply Hnone, Hd.
Qed.

Lemma sample_names_are_no_indices :
  forall d,
    In d (Environmental.getFilteredData Sample.readings "all") ->
    JsObject.array_index (Spec.group_name Sample.places d) = None.
Proof.
  intros d [<-|[<-|[<-|[]]]]; reflexivity.
Defined.

Lemma radar_points_in_order_of_first_mention_witness :
  exists points,
    Environmental.prepareRadarData Sample.readings Sample.places "all" = Some points
    /\ map Environmental.location points
       = Spec.first_mentions
           (map (Spec.group_name Sample.places)
                (Environmental.getFilteredData Sample.readings "all")).
Proof.
  eexists. split; [reflexivity|].
  exact (@radar_points_in_order_of_first_mention
           Sample.readings Sample.places "all" _ eq_refl sample_names_are_no_indices).
Defined.

(** A location named by a number comes first, whenever it is met. *)
Example radar_order_with_numeric_name :
  option_map (map Environmental.location)
    (Environmental.prepareRadarData
       Sample.readings [Sample.place "alps" "Zermatt"; Sample.place "fjord" "2024"]
       "all")
  = Some ["2024"; "Zermatt"].
Proof. reflexivity. Qed.
